(** * Speech enhancement: a shallow embedding of the repository's Python code

    The definitions follow the source tree:
    - [Checkpoint]      src/utils/checkpoint.py
    - [SceneDataset]    src/datasets/scenes/tut_acoustic_scenes/scene_dataset.py
    - [Librispeech]     src/datasets/noisy_librispeech/librispeech_dataset.py
    - [Trackers]        src/utils/trackers.py (absent, modelled from the spec)
    - [Trainer]         src/utils/trainer.py
    - [Spectral]        src/utils/spectral.py
    - [WaveUNet]        src/models/wave_u_net.py
    - [Evaluate]        src/datasets/speech_evaluation/evaluate.py

    Python exceptions are values of [exn]; a call that may raise returns a
    [result].  Random draws are explicit arguments, with a predicate saying
    which values the generator can return.  The float32 samples of the audio
    tensors and the floats of Python are IEEE 754 numbers ([spec_float]) with
    the rounding of their format.  The metric values of the trainer are
    rationals, and the activations of the network are real numbers: the
    rounding of the convolutions is not modelled.  The functions of the
    tensor libraries ([torch.load], [scipy.signal.stft], the network and the
    optimizer of a training run) are parameters of the sections that use
    them, with the exceptions they may raise; the tensor operations of the
    Wave-U-Net are defined on sizes and entries.

    The properties come after the definitions, one module per source file. *)

From Stdlib Require Import ZArith QArith Reals Lra Lia List String Ascii Bool.
From Stdlib Require Import DecimalString DecimalPos SpecFloat.
From stdpp Require Import base gmap strings list.

Local Open Scope string_scope.
Local Open Scope list_scope.

(** ** Python exceptions and results *)

Inductive exn : Type :=
| AssertionError (msg : string)
| AttributeError (attr : string)
| NameError (name : string)
| IndexError
| FileNotFoundError (path : string)
| TypeError
| ValueError (msg : string)
| RuntimeError (msg : string).

Inductive result (A : Type) : Type :=
| Ok (a : A)
| Raise (e : exn).
Arguments Ok {A} a.
Arguments Raise {A} e.

Definition rbind {A B} (r : result A) (k : A -> result B) : result B :=
  match r with
  | Ok a => k a
  | Raise e => Raise e
  end.

Notation "'let*' x ':=' r 'in' k" := (rbind r (fun x => k))
  (at level 10, x name, r at level 100, k at level 200).

Definition is_ok {A} (r : result A) : bool :=
  match r with Ok _ => true | Raise _ => false end.

(** [str.endswith] *)
Definition endswith (s suffix : string) : bool :=
  let n := String.length s in
  let m := String.length suffix in
  if (m <=? n)%nat then String.eqb (substring (n - m) m s) suffix else false.

(** ** src/utils/checkpoint.py *)
Module Checkpoint.

Definition CHECKPOINT_DIR : string := "checkpoints".

(** [os.path.join] on two components (POSIX). *)
Definition path_join (dir name : string) : string :=
  match name with
  | String "/" _ => name
  | _ => match dir with
         | EmptyString => name
         | _ => if endswith dir "/" then dir +:+ name else dir +:+ "/" +:+ name
         end
  end.

Inductive device := Cuda | Cpu.

Section Load.
(** The model objects and parameter mappings of the tensor library. *)
Variable Model : Type.
Variable StateDict : Type.
(** [net.load_state_dict]: fails when the mapping does not fit the model. *)
Variable load_state_dict : Model -> StateDict -> result Model.
(** [net.cuda()] / [net.cpu()] *)
Variable to_device : device -> Model -> Model.
(** [bool(net)], the value [assert net] tests: a module is true unless it
    defines a length and that length is 0 (a container without children). *)
Variable truthy : Model -> bool.

(** What [torch.load] unpickles from a checkpoint file. *)
Inductive pickled :=
| FullModel (m : Model)
| Params (sd : StateDict).

(** The files on disk, by path. *)
Definition filesystem := gmap string pickled.

(** [load] reads files; the paths it opens are recorded in order. *)
Definition io (A : Type) : Type := list string * result A.

Definition torch_load (fs : filesystem) (path : string) : io pickled :=
  match fs !! path with
  | Some obj => ([path], Ok obj)
  | None => ([path], Raise (FileNotFoundError path))
  end.

Definition load (fs : filesystem) (checkpoint_filename : string)
    (net : option Model) (use_cuda : bool) : io Model :=
  let checkpoint_path := path_join CHECKPOINT_DIR checkpoint_filename in
  let place m := if use_cuda then to_device Cuda m else to_device Cpu m in
  if endswith checkpoint_filename "full.ckpt" then
    let '(reads, r) := torch_load fs checkpoint_path in
    (reads,
     let* obj := r in
     match obj with
     | FullModel m => Ok (place m)
     | Params _ => Raise (AttributeError (if use_cuda then "cuda" else "cpu"))
     end)
  else
    let required :=
      AssertionError "A model is required for loading a state dict checkpoint." in
    match net with
    | None => ([], Raise required)
    | Some m =>
        if negb (truthy m) then ([], Raise required)
        else
          let '(reads, r) := torch_load fs checkpoint_path in
          (reads,
           let* obj := r in
           match obj with
           | Params sd => let* m' := load_state_dict m sd in Ok (place m')
           | FullModel _ => Raise TypeError
           end)
    end.

(** [time.time()] is an argument. *)
Variable show_int : Z -> string.

Definition get_checkpoint_filename (prefix : string) (name : option string)
    (suffix : string) (now : Z) : string :=
  match name with
  | Some n =>
      if String.eqb n "" then prefix +:+ "-" +:+ show_int now +:+ "." +:+ suffix
      else prefix +:+ "-" +:+ n +:+ "-" +:+ show_int now +:+ "." +:+ suffix
  | None => prefix +:+ "-" +:+ show_int now +:+ "." +:+ suffix
  end.
End Load.

Arguments FullModel {Model StateDict} m.
Arguments Params {Model StateDict} sd.

End Checkpoint.

(** ** src/datasets/scenes/tut_acoustic_scenes/scene_dataset.py *)
Module SceneDataset.

Definition CLASS_LABELS : list string :=
  [ "bus"; "car"; "forest_path"; "cafe/restaurant"; "residential_area";
    "library"; "park"; "grocery_store"; "city_center"; "beach"; "train";
    "tram"; "home"; "office"; "metro_station" ].

(** [enumerate] *)
Fixpoint enumerate_from {A} (start : nat) (l : list A) : list (nat * A) :=
  match l with
  | [] => []
  | x :: l' => (start, x) :: enumerate_from (S start) l'
  end.
Definition enumerate {A} (l : list A) : list (nat * A) := enumerate_from 0 l.

(** The two dictionaries [__init__] fills in one loop over
    [enumerate(CLASS_LABELS)]. *)
Record label_maps := {
  idx_to_label : gmap nat string;
  label_to_idx : gmap string nat
}.

Definition build_label_maps (labels : list string) : label_maps :=
  fold_left
    (fun maps '(idx, label) =>
       {| idx_to_label := <[idx := label]> (idx_to_label maps);
          label_to_idx := <[label := idx]> (label_to_idx maps) |})
    (enumerate labels)
    {| idx_to_label := ∅; label_to_idx := ∅ |}.

Definition scene_maps : label_maps := build_label_maps CLASS_LABELS.

End SceneDataset.

(** ** Python sequences and the [random] module *)

(** [seq[i]] for a Python list: negative indices count from the end. *)
Definition py_index {A} (l : list A) (i : Z) : result A :=
  let n := Z.of_nat (length l) in
  let j := (if i <? 0 then i + n else i)%Z in
  if ((0 <=? j) && (j <? n))%Z then
    match nth_error l (Z.to_nat j) with
    | Some x => Ok x
    | None => Raise IndexError
    end
  else Raise IndexError.

(** One bound of [seq[start:stop]], clamped into [0, n]. *)
Definition slice_bound (n i : Z) : Z :=
  (if i <? 0 then Z.max (i + n) 0 else Z.min i n)%Z.

(** [seq[start:stop]]: never raises, bounds are clamped. *)
Definition py_slice {A} (l : list A) (start stop : Z) : list A :=
  let n := Z.of_nat (length l) in
  let a := slice_bound n start in
  let b := slice_bound n stop in
  firstn (Z.to_nat (b - a)) (skipn (Z.to_nat a) l).

(** [random.randint(a, b)] returns an integer [r] with [a <= r <= b]:
    both ends are included. *)
Definition randint_draws (a b r : Z) : Prop := (a <= r <= b)%Z.

(** [random.choice(seq)] returns [seq[i]] for a position [i] of [seq]. *)
Definition choice_draws {A} (l : list A) (i : nat) : Prop := (i < length l)%nat.

Definition choice {A} (l : list A) (i : nat) : result A :=
  match nth_error l i with
  | Some x => Ok x
  | None => Raise IndexError
  end.

(** ** Floating point numbers

    A float is a [spec_float] of the IEEE 754 format given by its precision
    and its largest exponent; the operations round to nearest, ties to even. *)

(** binary32, the [torch.float32] of the audio tensors *)
Module Float32.
Definition prec : Z := 24.
Definition emax : Z := 128.
Definition add : spec_float -> spec_float -> spec_float := SFadd prec emax.
Definition mul : spec_float -> spec_float -> spec_float := SFmul prec emax.
(** An integer taken as a float. *)
Definition of_int (n : Z) : spec_float := binary_normalize prec emax n 0 false.
End Float32.

(** binary64, the [float] of Python *)
Module Float64.
Definition prec : Z := 53.
Definition emax : Z := 1024.
Definition mul : spec_float -> spec_float -> spec_float := SFmul prec emax.
Definition of_int (n : Z) : spec_float := binary_normalize prec emax n 0 false.
(** [int(x)]: the integer part, towards zero. *)
Definition to_int (x : spec_float) : Z :=
  match x with
  | S754_finite s m e =>
      let n := match e with
               | Zneg p => Z.quot (Zpos m) (2 ^ Zpos p)
               | _ => (Zpos m * 2 ^ e)%Z
               end in
      if s then (- n)%Z else n
  | _ => 0%Z
  end.
End Float64.

(** ** src/datasets/noisy_librispeech/librispeech_dataset.py *)
Module Librispeech.

Definition AUDIO_LENGTH : Z := 2 ^ 16.

(** A one-dimensional tensor of float32 samples. *)
Definition tensor1 := list spec_float.

Inductive dtype := float32 | float64 | int16 | int32.

Definition dtype_eqb (a b : dtype) : bool :=
  match a, b with
  | float32, float32 | float64, float64 | int16, int16 | int32, int32 => true
  | _, _ => false
  end.

(** What [torchaudio.load] returns for one file: a (channels, frames) tensor
    and the sample rate. *)
Record loaded := {
  channels : list tensor1;
  tensor_dtype : dtype;
  sample_rate : Z
}.

(** [tensor.nelement()] *)
Definition nelement2 (t : list tensor1) : Z :=
  fold_right (fun ch n => (Z.of_nat (length ch) + n)%Z) 0%Z t.

Definition nelement (t : tensor1) : Z := Z.of_nat (length t).

(** The loop of [__init__] over the clean files: too short files are
    skipped, the others are checked and appended flattened. *)
Fixpoint load_clean (files : list loaded) (clean_data : list tensor1)
  : result (list tensor1) :=
  match files with
  | [] => Ok clean_data
  | f :: files' =>
      if (nelement2 (channels f) <? AUDIO_LENGTH)%Z then load_clean files' clean_data
      else if negb (sample_rate f =? 16000)%Z then Raise (AssertionError "")
      else if negb (dtype_eqb (tensor_dtype f) float32) then Raise (AssertionError "")
      else load_clean files' (clean_data ++ [concat (channels f)])
  end.

(** The loop over the noise files keeps the first channel, [tensor[0, :]]. *)
Fixpoint load_noise (files : list loaded) (noise_data : list tensor1)
  : result (list tensor1) :=
  match files with
  | [] => Ok noise_data
  | f :: files' =>
      if (nelement2 (channels f) <? AUDIO_LENGTH)%Z then load_noise files' noise_data
      else if negb (sample_rate f =? 16000)%Z then Raise (AssertionError "")
      else if negb (dtype_eqb (tensor_dtype f) float32) then Raise (AssertionError "")
      else
        match channels f with
        | [] => Raise IndexError
        | ch :: _ => load_noise files' (noise_data ++ [ch])
        end
  end.

Record NoisyLibreSpeechDataset := {
  clean_data : list tensor1;
  noise_data : list tensor1
}.

(** [__init__], given the files found in the clean and the noise folder. *)
Definition __init__ (clean_files noise_files : list loaded)
  : result NoisyLibreSpeechDataset :=
  let* clean := load_clean clean_files [] in
  let* noise := load_noise noise_files [] in
  Ok {| clean_data := clean; noise_data := noise |}.

Definition __len__ (self : NoisyLibreSpeechDataset) : nat :=
  length (clean_data self).

(** [subsample_chunk_random]; [chunk_start] is the value returned by
    [random.randint(0, size - chunk_width + 1)]. *)
Definition subsample_chunk_random (tensor : tensor1) (chunk_width : Z)
    (chunk_start : Z) : result tensor1 :=
  let size := nelement tensor in
  if (chunk_width <? size)%Z then
    Ok (py_slice tensor chunk_start (chunk_start + chunk_width))
  else Raise (AssertionError "").

(** The draws [chunk_start] can take for a given tensor. *)
Definition chunk_start_draws (tensor : tensor1) (chunk_width chunk_start : Z) : Prop :=
  randint_draws 0 (nelement tensor - chunk_width + 1) chunk_start.

(** [t[t > 1] = 1] and [t[t < -1] = -1]: a comparison with NaN is false, so
    NaN stays. *)
Definition clip_above (t : tensor1) : tensor1 :=
  map (fun x => if SFltb (Float32.of_int 1) x then Float32.of_int 1 else x) t.
Definition clip_below (t : tensor1) : tensor1 :=
  map (fun x => if SFltb x (Float32.of_int (-1)) then Float32.of_int (-1) else x) t.

(** [tensor * k] for an integer [k]: the product is taken in float32. *)
Definition scale (t : tensor1) (k : Z) : tensor1 :=
  map (fun x => Float32.mul x (Float32.of_int k)) t.

Fixpoint zip_add (a b : tensor1) : tensor1 :=
  match a, b with
  | x :: a', y :: b' => Float32.add x y :: zip_add a' b'
  | _, _ => []
  end.

(** [a + b] on one-dimensional tensors: sizes must agree unless one of them
    is 1, which is broadcast. *)
Definition tensor_add (a b : tensor1) : result tensor1 :=
  if (length a =? length b)%nat then Ok (zip_add a b)
  else
    match a, b with
    | [x], _ => Ok (map (fun y => Float32.add x y) b)
    | _, [y] => Ok (map (fun x => Float32.add x y) a)
    | _, _ =>
        Raise (RuntimeError "The size of tensor a must match the size of tensor b")
    end.

(** The four random draws of one [__getitem__] call, in program order. *)
Record draws := {
  noise_choice : nat;   (* random.choice(self.noise_data) *)
  clean_start : Z;      (* randint in subsample_chunk_random(clean, ...) *)
  noise_start : Z;      (* randint in subsample_chunk_random(noise, ...) *)
  gain : Z              (* random.randint(1, 10) *)
}.

Definition __getitem__ (self : NoisyLibreSpeechDataset) (idx : Z) (d : draws)
  : result (tensor1 * tensor1) :=
  let* clean := py_index (clean_data self) idx in
  let* noise := choice (noise_data self) (noise_choice d) in
  let* clean_chunk := subsample_chunk_random clean AUDIO_LENGTH (clean_start d) in
  let* noise_chunk := subsample_chunk_random noise AUDIO_LENGTH (noise_start d) in
  let noise_chunk := scale noise_chunk (gain d) in
  let noise_chunk := clip_above noise_chunk in
  let noise_chunk := clip_below noise_chunk in
  let* noisy_chunk := tensor_add clean_chunk noise_chunk in
  Ok (clean_chunk, noisy_chunk).

(** The draws the generator can return during [__getitem__ self idx]. *)
Definition can_draw (self : NoisyLibreSpeechDataset) (idx : Z) (d : draws) : Prop :=
  choice_draws (noise_data self) (noise_choice d) /\
  (forall clean, py_index (clean_data self) idx = Ok clean ->
     chunk_start_draws clean AUDIO_LENGTH (clean_start d)) /\
  (forall noise, choice (noise_data self) (noise_choice d) = Ok noise ->
     chunk_start_draws noise AUDIO_LENGTH (noise_start d)) /\
  randint_draws 1 10 (gain d).

(** A recording of [n] samples of silence. *)
Definition silence (n : Z) : tensor1 := repeat (S754_zero false) (Z.to_nat n).
Arguments silence : simpl never.

End Librispeech.

(** Concrete data for the examples below. *)
Module LibrispeechData.
Import Librispeech.

(** One clean and one noise recording, each one sample longer than a chunk. *)
Definition one_over : NoisyLibreSpeechDataset :=
  {| clean_data := [silence 65537]; noise_data := [silence 65537] |}.

(** Both chunks start at the largest offset [randint] can return. *)
Definition late_draws : draws :=
  {| noise_choice := 0; clean_start := 2; noise_start := 2; gain := 1 |}.

(** Only the noise chunk starts at the largest offset. *)
Definition late_noise_draws : draws :=
  {| noise_choice := 0; clean_start := 0; noise_start := 2; gain := 3 |}.

(** A mono file of exactly [AUDIO_LENGTH] samples. *)
Definition exact_file : loaded :=
  {| channels := [silence 65536]; tensor_dtype := float32; sample_rate := 16000 |}.

(** The sizes of the two chunks of an item. *)
Definition item_sizes (r : result (tensor1 * tensor1)) : result (Z * Z) :=
  let* item := r in Ok (nelement (fst item), nelement (snd item)).

End LibrispeechData.

(** ** src/utils/trackers.py *)
Module Trackers.

(** Modelled from the spec: the file src/utils/trackers.py is missing.  A
    moving-average tracker holds an exponentially decayed running estimate of
    a scalar; it starts empty, reports [v] after one update with [v], and
    moves towards the values it is updated with. *)
Record MovingAverage := {
  decay : Q;
  value : option Q
}.

Definition new_tracker (decay : Q) : MovingAverage :=
  {| decay := decay; value := None |}.

Definition update (self : MovingAverage) (v : Q) : MovingAverage :=
  {| decay := decay self;
     value := match value self with
              | None => Some v
              | Some old => Some (decay self * old + (1 - decay self) * v)%Q
              end |}.

End Trackers.

(** [str.capitalize] on ASCII strings *)
Definition upper_ascii (c : ascii) : ascii :=
  let n := nat_of_ascii c in
  if ((97 <=? n) && (n <=? 122))%nat then ascii_of_nat (n - 32) else c.

Definition lower_ascii (c : ascii) : ascii :=
  let n := nat_of_ascii c in
  if ((65 <=? n) && (n <=? 90))%nat then ascii_of_nat (n + 32) else c.

Fixpoint lower (s : string) : string :=
  match s with
  | EmptyString => EmptyString
  | String c s' => String (lower_ascii c) (lower s')
  end.

Definition capitalize (s : string) : string :=
  match s with
  | EmptyString => EmptyString
  | String c s' => String (upper_ascii c) (lower s')
  end.

(** ** src/utils/trainer.py *)
Module Trainer.
Import Trackers.

Inductive mode := Training | Evaluation.

Section WithNet.
(** The tensors, the network and the optimizer of the tensor library. *)
Variables Input Target Output Net Optimizer : Type.
(** [net.train()] and [net.eval()] set the mode of the module. *)
Variable set_mode : mode -> Net -> Net.
(** [net(inputs)]: the call may raise, and it may change the module (its
    buffers) besides returning the outputs. *)
Variable forward : Net -> Input -> result (Net * Output).
(** [tensor.shape] *)
Variable input_shape_of : Input -> list nat.
Variable target_shape_of : Target -> list nat.
Variable output_shape_of : Output -> list nat.
(** [optimizer.zero_grad()], [loss.backward()] and [optimizer.step()]: the
    step is given the value of the loss and the loss as a function of the
    network, and may raise. *)
Variable optimizer_step :
  Optimizer -> Net -> Q -> (Net -> result Q) -> result (Optimizer * Net).
(** [checkpoint.save(net, prefix, name, use_wandb)]: writes a file, returns
    its path or raises. *)
Variable checkpoint_save : Net -> string -> string -> bool -> result string.
(** [log_training_info(training_info, use_wandb)] *)
Variable log_training_info : gmap string (option Q) -> bool -> result unit.

(** A loss or metric function [fn(inputs, outputs, targets)]. *)
Definition criterion := Input -> Output -> Target -> result Q.

(** An entry of [self.metric_fns]: [fn, name, train_tracker, test_tracker]. *)
Record metric_entry := {
  metric_fn : criterion;
  metric_name : string;
  train_tracker : MovingAverage;
  test_tracker : MovingAverage
}.

(** The attributes of a [Trainer].  [wandb_name] is [None] while the
    attribute does not exist on the object. *)
Record Trainer := {
  use_cuda : bool;
  checkpoint_epochs : option Z;
  checkpoint_name : option string;
  loss_fns : list (criterion * Q);
  metric_fns : list metric_entry;
  use_wandb : bool;
  wandb_name : option string;
  input_shape : list nat;
  target_shape : list nat;
  output_shape : list nat
}.

(** What a run does to the outside: checkpoints written, metrics logged. *)
Inductive event :=
| WandbInit (name project : string)
| CheckpointSaved (net : Net) (prefix : string) (name : string) (to_wandb : bool)
| TrainingInfo (info : gmap string (option Q)) (to_wandb : bool).

(** [__init__(self, use_cuda, wandb_name)]: the second argument is not
    stored. *)
Definition __init__ (use_cuda : bool) (wandb_name : string) : Trainer :=
  {| use_cuda := use_cuda;
     checkpoint_epochs := None;
     checkpoint_name := None;
     loss_fns := [];
     metric_fns := [];
     use_wandb := false;
     wandb_name := None;
     input_shape := [];
     target_shape := [];
     output_shape := [] |}.

Definition setup_wandb (self : Trainer) (wandb_project wandb_name : string)
  : Trainer * list event :=
  ({| use_cuda := use_cuda self;
      checkpoint_epochs := checkpoint_epochs self;
      checkpoint_name := checkpoint_name self;
      loss_fns := loss_fns self;
      metric_fns := metric_fns self;
      use_wandb := true;
      wandb_name := Some wandb_name;
      input_shape := input_shape self;
      target_shape := target_shape self;
      output_shape := output_shape self |},
   [WandbInit wandb_name wandb_project]).

Definition setup_checkpoints (self : Trainer) (checkpoint_name : string)
    (checkpoint_epochs : Z) : Trainer :=
  {| use_cuda := use_cuda self;
     checkpoint_epochs := Some checkpoint_epochs;
     checkpoint_name := Some checkpoint_name;
     loss_fns := loss_fns self;
     metric_fns := metric_fns self;
     use_wandb := use_wandb self;
     wandb_name := wandb_name self;
     input_shape := input_shape self;
     target_shape := target_shape self;
     output_shape := output_shape self |}.

Definition register_loss_fn (self : Trainer) (fn : criterion) (weight : Q) : Trainer :=
  {| use_cuda := use_cuda self;
     checkpoint_epochs := checkpoint_epochs self;
     checkpoint_name := checkpoint_name self;
     loss_fns := loss_fns self ++ [(fn, weight)];
     metric_fns := metric_fns self;
     use_wandb := use_wandb self;
     wandb_name := wandb_name self;
     input_shape := input_shape self;
     target_shape := target_shape self;
     output_shape := output_shape self |}.

Definition register_metric_fn (self : Trainer) (fn : criterion) (name : string)
  : Trainer :=
  let test_tracker := new_tracker (8 # 10) in
  let train_tracker := new_tracker (8 # 10) in
  {| use_cuda := use_cuda self;
     checkpoint_epochs := checkpoint_epochs self;
     checkpoint_name := checkpoint_name self;
     loss_fns := loss_fns self;
     metric_fns := metric_fns self ++
       [{| metric_fn := fn; metric_name := capitalize name;
           train_tracker := train_tracker; test_tracker := test_tracker |}];
     use_wandb := use_wandb self;
     wandb_name := wandb_name self;
     input_shape := input_shape self;
     target_shape := target_shape self;
     output_shape := output_shape self |}.

(** Truth value of an optional string and of an optional integer. *)
Definition truthy_string (s : option string) : bool :=
  match s with
  | Some (String _ _) => true
  | _ => false
  end.

Definition truthy_int (n : option Z) : bool :=
  match n with
  | Some n => negb (n =? 0)%Z
  | None => false
  end.

(** Reading [self.wandb_name]. *)
Definition get_wandb_name (self : Trainer) : result string :=
  match wandb_name self with
  | Some name => Ok name
  | None => Raise (AttributeError "wandb_name")
  end.

(** [self.checkpoint_epochs and epoch % self.checkpoint_epochs == 0] *)
Definition is_checkpoint_epoch (self : Trainer) (epoch : Z) : bool :=
  match checkpoint_epochs self with
  | Some n => negb (n =? 0)%Z && (epoch mod n =? 0)%Z
  | None => false
  end.

(** The state a run threads through its loops. *)
Record run := {
  net : Net;
  optimizer : Optimizer;
  metrics : list metric_entry;
  events : list event
}.

(** The shape assertion [t.shape == tuple([batch_size] + expected)], made
    only when [expected] is not empty. *)
Definition shape_ok (expected : list nat) (batch_size : nat) (shape : list nat)
  : bool :=
  match expected with
  | [] => true
  | _ => bool_decide (shape = batch_size :: expected)
  end.

Definition update_train (m : metric_entry) (metric_val : Q) : metric_entry :=
  {| metric_fn := metric_fn m; metric_name := metric_name m;
     train_tracker := update (train_tracker m) metric_val;
     test_tracker := test_tracker m |}.

Definition update_test (m : metric_entry) (metric_val : Q) : metric_entry :=
  {| metric_fn := metric_fn m; metric_name := metric_name m;
     train_tracker := train_tracker m;
     test_tracker := update (test_tracker m) metric_val |}.

(** The loop over [self.metric_fns]: each metric is computed and given to
    one of its two trackers. *)
Fixpoint track (upd : metric_entry -> Q -> metric_entry) (inputs : Input)
    (outputs : Output) (targets : Target) (ms : list metric_entry)
  : result (list metric_entry) :=
  match ms with
  | [] => Ok []
  | m :: ms' =>
      let* metric_val := metric_fn m inputs outputs targets in
      let* ms'' := track upd inputs outputs targets ms' in
      Ok (upd m metric_val :: ms'')
  end.

(** The weighted sum of the registered loss terms, added to [loss]. *)
Fixpoint total_loss (fns : list (criterion * Q)) (inputs : Input)
    (outputs : Output) (targets : Target) (loss : Q) : result Q :=
  match fns with
  | [] => Ok loss
  | (loss_fn, weight) :: fns' =>
      let* term := loss_fn inputs outputs targets in
      total_loss fns' inputs outputs targets (loss + weight * term)%Q
  end.

(** One iteration of the training loop. *)
Definition train_batch (self : Trainer) (r : run) (batch : Input * Target)
  : result run :=
  let '(inputs, targets) := batch in
  match input_shape_of inputs with
  | [] => Raise IndexError
  | batch_size :: _ =>
      if negb (shape_ok (input_shape self) batch_size (input_shape_of inputs))
      then Raise (AssertionError "Bad shape")
      else if negb (shape_ok (target_shape self) batch_size (target_shape_of targets))
      then Raise (NameError "target")
      else
        let* called := forward (net r) inputs in
        let '(net1, outputs) := called in
        if negb (shape_ok (output_shape self) batch_size (output_shape_of outputs))
        then Raise (AssertionError "Bad shape")
        else
          let* loss := total_loss (loss_fns self) inputs outputs targets 0%Q in
          let loss_of n :=
            let* called := forward n inputs in
            total_loss (loss_fns self) inputs (snd called) targets 0%Q in
          let* stepped := optimizer_step (optimizer r) net1 loss loss_of in
          let '(optimizer', net') := stepped in
          let* metrics' := track update_train inputs outputs targets (metrics r) in
          Ok {| net := net'; optimizer := optimizer';
                metrics := metrics'; events := events r |}
  end.

(** One iteration of the validation loop. *)
Definition eval_batch (r : run) (batch : Input * Target) : result run :=
  let '(inputs, targets) := batch in
  let* called := forward (net r) inputs in
  let '(net1, outputs) := called in
  let* metrics' := track update_test inputs outputs targets (metrics r) in
  Ok {| net := net1; optimizer := optimizer r;
        metrics := metrics'; events := events r |}.

Fixpoint train_loop (self : Trainer) (r : run) (batches : list (Input * Target))
  : result run :=
  match batches with
  | [] => Ok r
  | batch :: batches' =>
      let* r' := train_batch self r batch in
      train_loop self r' batches'
  end.

Fixpoint eval_loop (r : run) (batches : list (Input * Target)) : result run :=
  match batches with
  | [] => Ok r
  | batch :: batches' =>
      let* r' := eval_batch r batch in
      eval_loop r' batches'
  end.

(** The dictionary logged at the end of an epoch. *)
Definition training_info (ms : list metric_entry) : gmap string (option Q) :=
  fold_left
    (fun info m =>
       <[ "Validation " +:+ metric_name m := value (train_tracker m) ]>
         (<[ "Training " +:+ metric_name m := value (train_tracker m) ]> info))
    ms ∅.

Definition emit (r : run) (e : event) : run :=
  {| net := net r; optimizer := optimizer r; metrics := metrics r;
     events := events r ++ [e] |}.

Definition with_mode (m : mode) (r : run) : run :=
  {| net := set_mode m (net r); optimizer := optimizer r; metrics := metrics r;
     events := events r |}.

(** A call of [checkpoint.save] from [train]: [self.wandb_name] is read
    when the arguments are evaluated. *)
Definition save_checkpoint (self : Trainer) (r : run) (to_wandb : bool)
  : result run :=
  let prefix := default "" (checkpoint_name self) in
  let* name := get_wandb_name self in
  let* path := checkpoint_save (net r) prefix name to_wandb in
  Ok (emit r (CheckpointSaved (net r) prefix name to_wandb)).

(** The body of the epoch loop. *)
Definition train_epoch (self : Trainer)
    (train_loader test_loader : nat -> list (Input * Target))
    (r : run) (epoch : nat) : result run :=
  let* r :=
    if truthy_string (checkpoint_name self)
       && is_checkpoint_epoch self (Z.of_nat epoch)
    then save_checkpoint self r false
    else Ok r in
  let* r := train_loop self (with_mode Training r) (train_loader epoch) in
  let* r := eval_loop (with_mode Evaluation r) (test_loader epoch) in
  let info := training_info (metrics r) in
  let* logged := log_training_info info (use_wandb self) in
  Ok (emit r (TrainingInfo info (use_wandb self))).

Fixpoint epochs_loop (self : Trainer)
    (train_loader test_loader : nat -> list (Input * Target))
    (r : run) (epochs : list nat) : result run :=
  match epochs with
  | [] => Ok r
  | epoch :: epochs' =>
      let* r' := train_epoch self train_loader test_loader r epoch in
      epochs_loop self train_loader test_loader r' epochs'
  end.

(** [train(self, net, num_epochs, optimizer, train_loader, test_loader)]:
    a loader gives, for each epoch, the batches it yields when iterated. *)
Definition train (self : Trainer) (net0 : Net) (num_epochs : nat)
    (optimizer0 : Optimizer)
    (train_loader test_loader : nat -> list (Input * Target)) : result run :=
  let r0 := {| net := net0; optimizer := optimizer0;
               metrics := metric_fns self; events := [] |} in
  let* r := epochs_loop self train_loader test_loader r0 (seq 0 num_epochs) in
  if truthy_string (checkpoint_name self) then
    save_checkpoint self r (use_wandb self)
  else Ok r.

End WithNet.

Arguments metric_fn {Input Target Output} m.
Arguments metric_name {Input Target Output} m.
Arguments train_tracker {Input Target Output} m.
Arguments test_tracker {Input Target Output} m.
Arguments metrics {Input Target Output Net Optimizer} r.
Arguments events {Input Target Output Net Optimizer} r.
Arguments net {Input Target Output Net Optimizer} r.
Arguments wandb_name {Input Target Output} self : rename.
Arguments checkpoint_name {Input Target Output} self : rename.
Arguments checkpoint_epochs {Input Target Output} self : rename.
Arguments metric_fns {Input Target Output} self : rename.
Arguments TrainingInfo {Net} info to_wandb.
Arguments CheckpointSaved {Net} net prefix name to_wandb.
Arguments WandbInit {Net} name project.

End Trainer.

(** A small run: scalars as tensors, a network that returns its input, an
    optimizer that changes nothing, and a metric that reads the target. *)
Module TrainerData.
Import Trackers Trainer.

Definition keep_mode (_ : mode) (n : unit) : unit := n.
Definition identity_forward (n : unit) (x : Q) : result (unit * Q) := Ok (n, x).
Definition scalar_shape (_ : Q) : list nat := [1%nat].
Definition no_step (o : unit) (n : unit) (_ : Q) (_ : unit -> result Q)
  : result (unit * unit) := Ok (o, n).
Definition target_metric (_ _ targets : Q) : result Q := Ok targets.
Definition save_to (_ : unit) (prefix name : string) (_ : bool) : result string :=
  Ok (prefix +:+ "-" +:+ name).
Definition log_nothing (_ : gmap string (option Q)) (_ : bool) : result unit :=
  Ok tt.

Definition run_train :=
  train Q Q Q unit unit keep_mode identity_forward scalar_shape scalar_shape
    scalar_shape no_step save_to log_nothing.

(** [Trainer(False, "run")] with the metric "loss" registered. *)
Definition with_metric : Trainer Q Q Q :=
  register_metric_fn Q Q Q (__init__ Q Q Q false "run") target_metric "loss".

(** The same trainer after [setup_checkpoints("wave", 1)]; [setup_wandb] is
    not called. *)
Definition with_checkpoints : Trainer Q Q Q :=
  setup_checkpoints Q Q Q with_metric "wave" 1.

(** One training batch with target 1, one validation batch with target 2. *)
Definition train_batches (_ : nat) : list (Q * Q) := [(0%Q, 1%Q)].
Definition test_batches (_ : nat) : list (Q * Q) := [(0%Q, 2%Q)].

End TrainerData.

(** ** src/utils/spectral.py *)
Module Spectral.

Definition SAMPLING_RATE : Z := 16000.
Definition HOP_MS : Z := 16.
Definition WIN_MS : Z := 32.

(** The float [1e-3]: 0x1.0624dd2f1a9fcp-10. *)
Definition milli : spec_float := S754_finite false 4611686018427388 (-62).

(** [int((1e-3 * ms) * SAMPLING_RATE)] for a whole number of milliseconds:
    both products are rounded to a float, and [int] takes the integer part
    of the second.  (For a number of milliseconds beyond the range of a
    float the code raises [OverflowError].) *)
Definition ms_to_steps (ms : Z) : Z :=
  Float64.to_int
    (Float64.mul (Float64.mul milli (Float64.of_int ms))
       (Float64.of_int SAMPLING_RATE)).

(** A complex sample of the transform. *)
Record complex := { re : R; im : R }.

(** [abs(z)], the magnitude of a complex number. *)
Definition magnitude (z : complex) : R := sqrt (re z * re z + im z * im z).

(** A (freqs, time) array. *)
Definition frames (A : Type) := list (list A).

(** Elementwise operation on two arrays with numpy's broadcasting of an
    axis of size 1. *)
Fixpoint zip_with {A B C} (f : A -> B -> C) (a : list A) (b : list B) : list C :=
  match a, b with
  | x :: a', y :: b' => f x y :: zip_with f a' b'
  | _, _ => []
  end.

Definition broadcast {A B C} (f : A -> B -> result C) (a : list A) (b : list B)
  : result (list (result C)) :=
  if (length a =? length b)%nat then Ok (zip_with f a b)
  else
    match a, b with
    | [x], _ => Ok (map (f x) b)
    | _, [y] => Ok (map (fun x => f x y) a)
    | _, _ => Raise (ValueError "operands could not be broadcast together")
    end.

Fixpoint sequence {A} (l : list (result A)) : result (list A) :=
  match l with
  | [] => Ok []
  | r :: l' => let* x := r in let* xs := sequence l' in Ok (x :: xs)
  end.

Definition broadcast_rows {A B C} (f : A -> B -> C) (a : list A) (b : list B)
  : result (list C) :=
  let* row := broadcast (fun x y => Ok (f x y)) a b in sequence row.

(** [mag + 1j * phase] *)
Definition to_complex (mag phase : frames R) : result (frames complex) :=
  let* rows := broadcast (broadcast_rows (fun m p => {| re := m; im := p |}))
                 mag phase in
  sequence rows.

Section Transforms.
(** [scipy.signal.stft(x, fs, nperseg, noverlap)] and
    [scipy.signal.istft(Zxx, fs, nperseg, noverlap)], third and second
    component of the result. *)
Variable stft : list R -> Z -> Z -> Z -> frames complex.
Variable istft : frames complex -> Z -> Z -> Z -> list R.

Definition audio_to_spec (audio_arr : list R) (window_ms hop_ms : Z)
  : list (frames R) :=
  let num_segment := ms_to_steps window_ms in
  let num_overlap := (num_segment - ms_to_steps hop_ms)%Z in
  let spectral_frames := stft audio_arr SAMPLING_RATE num_segment num_overlap in
  let mag_frames := map (map re) spectral_frames in
  let phase_frames := map (map im) spectral_frames in
  [mag_frames; phase_frames].

Definition spec_to_audio (spectral_frames : list (frames R)) (window_ms hop_ms : Z)
  : result (list R) :=
  match spectral_frames with
  | [mag; phase] =>
      let* spectral_frames := to_complex mag phase in
      let num_segment := ms_to_steps window_ms in
      let num_overlap := (num_segment - ms_to_steps hop_ms)%Z in
      Ok (istft spectral_frames SAMPLING_RATE num_segment num_overlap)
  | _ => Raise (ValueError "unpack")
  end.
End Transforms.

(** A transform for the examples: whatever the input, one frame with the
    bins -1 and i. *)
Definition two_bins (_ : list R) (_ _ _ : Z) : frames complex :=
  [[ {| re := -1; im := 0 |} ]; [ {| re := 0; im := 1 |} ]].

End Spectral.

(** ** src/models/wave_u_net.py *)
Module WaveUNet.
Local Open Scope nat_scope.

Definition NUM_C : nat := 24.
Definition NUM_ENCODER_LAYERS : nat := 12.

(** A three-dimensional tensor (batch, channels, time): its sizes and its
    entries. *)
Record tensor := {
  batch : nat;
  chans : nat;
  len : nat;
  at_ : nat -> nat -> nat -> R
}.

Definition shape : Type := nat * nat * nat.
Definition shape_of (x : tensor) : shape := (batch x, chans x, len x).

(** The errors of the tensor library met in [forward]. *)
Definition size_mismatch : exn :=
  RuntimeError "Sizes of tensors must match except in dimension 1".
Definition channel_mismatch : exn :=
  RuntimeError "expected input to have in_channels channels".
Definition kernel_too_large : exn :=
  RuntimeError "Kernel size can't be greater than actual input size".
Definition zero_length : exn :=
  RuntimeError "Only zero batch or zero channel inputs are supported".
Definition empty_input : exn :=
  RuntimeError "Input and output sizes should be greater than 0".

Fixpoint sum_n (n : nat) (f : nat -> R) : R :=
  match n with
  | O => 0%R
  | S n' => (sum_n n' f + f n')%R
  end.

(** The input with [padding] zeros on both sides of the time axis. *)
Definition padded (x : tensor) (padding : nat) (n c i : nat) : R :=
  if (i <? padding) || (padding + len x <=? i) then 0%R
  else at_ x n c (i - padding).

(** [nn.Conv1d] with stride 1 and zero padding.  The library checks the
    channels, then the kernel against the padded length, and then refuses an
    input without elements unless it is the batch or the channel dimension
    that is empty. *)
Definition conv1d (weight : nat -> nat -> nat -> R) (bias : nat -> R)
    (in_channels out_channels kernel_size padding : nat) (input : tensor)
  : result tensor :=
  if negb (chans input =? in_channels) then Raise channel_mismatch
  else if len input + 2 * padding <? kernel_size then Raise kernel_too_large
  else if (len input =? 0) && negb ((batch input =? 0) || (chans input =? 0))
  then Raise zero_length
  else
    Ok {| batch := batch input;
          chans := out_channels;
          len := len input + 2 * padding - kernel_size + 1;
          at_ := fun n o t =>
            (bias o +
             sum_n in_channels (fun c =>
               sum_n kernel_size (fun j =>
                 weight o c j * padded input padding n c (t + j))))%R |}.

Inductive activation :=
| PReLU (a : R)
| Tanh.

Definition apply_activation (f : activation) (x : R) : R :=
  match f with
  | PReLU a => (Rmax 0 x + a * Rmin 0 x)%R
  | Tanh => tanh x
  end.

(** The learnable parameters of one [ConvLayer]: magnitude and direction of
    the normalised weight, bias, and the slope of the PReLU. *)
Record params := {
  weight_g : nat -> R;
  weight_v : nat -> nat -> nat -> R;
  conv_bias : nat -> R;
  slope : R
}.

Inductive nonlinearity_class := nn_PReLU | nn_Tanh.

Record ConvLayer := {
  in_channels : nat;
  out_channels : nat;
  kernel_size : nat;
  padding : nat;
  layer_params : params;
  nonlinearity : activation
}.

(** [ConvLayer.__init__]: the padding is [kernel // 2]. *)
Definition ConvLayer_init (p : params) (in_channels out_channels kernel : nat)
    (cls : nonlinearity_class) : ConvLayer :=
  {| in_channels := in_channels;
     out_channels := out_channels;
     kernel_size := kernel;
     padding := kernel / 2;
     layer_params := p;
     nonlinearity := match cls with
                     | nn_PReLU => PReLU (slope p)
                     | nn_Tanh => Tanh
                     end |}.

(** [weight_norm]: the weight of output channel [o] is [g o * v o / |v o|]. *)
Definition norm_weight (l : ConvLayer) (o c j : nat) : R :=
  let v := weight_v (layer_params l) in
  let norm := sqrt (sum_n (in_channels l) (fun c' =>
                      sum_n (kernel_size l) (fun j' => v o c' j' * v o c' j')))%R in
  (weight_g (layer_params l) o * v o c j / norm)%R.

Definition activate (f : activation) (x : tensor) : tensor :=
  {| batch := batch x; chans := chans x; len := len x;
     at_ := fun n c t => apply_activation f (at_ x n c t) |}.

(** [ConvLayer.forward] *)
Definition ConvLayer_forward (self : ConvLayer) (input_t : tensor) : result tensor :=
  let* acts := conv1d (norm_weight self) (conv_bias (layer_params self))
                 (in_channels self) (out_channels self) (kernel_size self)
                 (padding self) input_t in
  Ok (activate (nonlinearity self) acts).

(** [acts[:, :, ::2]] *)
Definition decimate (acts : tensor) : tensor :=
  {| batch := batch acts; chans := chans acts; len := (len acts + 1) / 2;
     at_ := fun n c t => at_ acts n c (2 * t) |}.

(** [nn.Upsample(scale_factor=2, mode="linear", align_corners=True)] *)
Definition upsample (acts : tensor) : result tensor :=
  if (chans acts =? 0) || (len acts =? 0) then Raise empty_input
  else
    let out_len := 2 * len acts in
    Ok {| batch := batch acts; chans := chans acts; len := out_len;
          at_ := fun n c i =>
            let num := i * (len acts - 1) in
            let den := out_len - 1 in
            let i0 := num / den in
            let i1 := Nat.min (i0 + 1) (len acts - 1) in
            let lam := (INR (num mod den) / INR den)%R in
            ((1 - lam) * at_ acts n c i0 + lam * at_ acts n c i1)%R |}.

(** [torch.cat((a, b), dim=1)] *)
Definition cat (a b : tensor) : result tensor :=
  if (batch a =? batch b) && (len a =? len b) then
    Ok {| batch := batch a; chans := chans a + chans b; len := len a;
          at_ := fun n c t =>
            if c <? chans a then at_ a n c t else at_ b n (c - chans a) t |}
  else Raise size_mismatch.

Record WaveUNet := {
  encoders : list ConvLayer;
  middle : ConvLayer;
  decoders : list ConvLayer;
  output : ConvLayer
}.

(** [WaveUNet.__init__]; [theta k] are the parameters of the [k]-th layer
    constructed. *)
Definition WaveUNet_init (theta : nat -> params) : WaveUNet :=
  {| encoders :=
       ConvLayer_init (theta 0) 1 NUM_C 15 nn_PReLU ::
       map (fun i => ConvLayer_init (theta i) (i * NUM_C) ((i + 1) * NUM_C) 15 nn_PReLU)
           (seq 1 (NUM_ENCODER_LAYERS - 1));
     middle := ConvLayer_init (theta 12) (12 * NUM_C) (13 * NUM_C) 15 nn_PReLU;
     decoders :=
       map (fun i => ConvLayer_init (theta (25 - i)) ((2 * (i + 1) - 1) * NUM_C)
                       (i * NUM_C) 5 nn_PReLU)
           (rev (seq 1 NUM_ENCODER_LAYERS));
     output := ConvLayer_init (theta 25) (NUM_C + 1) 1 1 nn_Tanh |}.

(** The encoding loop: each encoder output is kept as a skip connection and
    then decimated. *)
Fixpoint encode (encoders : list ConvLayer) (acts : tensor)
    (skip_connections : list tensor) : result (tensor * list tensor) :=
  match encoders with
  | [] => Ok (acts, skip_connections)
  | encoder :: encoders' =>
      let* acts := ConvLayer_forward encoder acts in
      encode encoders' (decimate acts) (skip_connections ++ [acts])
  end.

(** The decoding loop over [enumerate(self.decoders)], from index [idx]. *)
Fixpoint decode (decoders : list ConvLayer) (idx : nat)
    (skip_connections : list tensor) (acts : tensor) : result tensor :=
  match decoders with
  | [] => Ok acts
  | decoder :: decoders' =>
      let* acts := upsample acts in
      let* skip := match nth_error skip_connections idx with
                   | Some skip => Ok skip
                   | None => Raise IndexError
                   end in
      let* acts := cat acts skip in
      let* acts := ConvLayer_forward decoder acts in
      decode decoders' (S idx) skip_connections acts
  end.

(** [WaveUNet.forward] *)
Definition WaveUNet_forward (self : WaveUNet) (input_t : tensor) : result tensor :=
  let* encoded := encode (encoders self) input_t [] in
  let acts := fst encoded in
  let skip_connections := snd encoded in
  let* acts := ConvLayer_forward (middle self) acts in
  let skip_connections := rev skip_connections in
  let* acts := decode (decoders self) 0 skip_connections acts in
  let* acts := cat acts input_t in
  ConvLayer_forward (output self) acts.

End WaveUNet.

(** *** The sizes computed by [WaveUNet.forward]

    Each tensor operation determines the size of its result, and whether it
    raises, from the sizes of its arguments alone.  The functions below are
    the operations of [WaveUNet] on sizes. *)
Module WaveUNetShapes.
Import WaveUNet.
Local Open Scope nat_scope.

Definition rmap {A B} (f : A -> B) (r : result A) : result B :=
  match r with
  | Ok a => Ok (f a)
  | Raise e => Raise e
  end.

Definition conv_shape (l : ConvLayer) (s : shape) : result shape :=
  let '(b, c, n) := s in
  if negb (c =? in_channels l) then Raise channel_mismatch
  else if n + 2 * padding l <? kernel_size l then Raise kernel_too_large
  else if (n =? 0) && negb ((b =? 0) || (c =? 0)) then Raise zero_length
  else Ok (b, out_channels l, n + 2 * padding l - kernel_size l + 1).

Definition halve (n : nat) : nat := (n + 1) / 2.

Definition decimate_shape (s : shape) : shape :=
  let '(b, c, n) := s in (b, c, halve n).

Definition upsample_shape (s : shape) : result shape :=
  let '(b, c, n) := s in
  if (c =? 0) || (n =? 0) then Raise empty_input else Ok (b, c, 2 * n).

Definition cat_shape (s1 s2 : shape) : result shape :=
  let '(b1, c1, n1) := s1 in
  let '(b2, c2, n2) := s2 in
  if (b1 =? b2) && (n1 =? n2) then Ok (b1, c1 + c2, n1) else Raise size_mismatch.

Fixpoint encode_shape (encoders : list ConvLayer) (acts : shape)
    (skips : list shape) : result (shape * list shape) :=
  match encoders with
  | [] => Ok (acts, skips)
  | encoder :: encoders' =>
      let* acts := conv_shape encoder acts in
      encode_shape encoders' (decimate_shape acts) (skips ++ [acts])
  end.

Fixpoint decode_shape (decoders : list ConvLayer) (idx : nat)
    (skips : list shape) (acts : shape) : result shape :=
  match decoders with
  | [] => Ok acts
  | decoder :: decoders' =>
      let* acts := upsample_shape acts in
      let* skip := match nth_error skips idx with
                   | Some skip => Ok skip
                   | None => Raise IndexError
                   end in
      let* acts := cat_shape acts skip in
      let* acts := conv_shape decoder acts in
      decode_shape decoders' (S idx) skips acts
  end.

Definition forward_shape (self : WaveUNet) (input : shape) : result shape :=
  let* encoded := encode_shape (encoders self) input [] in
  let* acts := conv_shape (middle self) (fst encoded) in
  let* acts := decode_shape (decoders self) 0 (rev (snd encoded)) acts in
  let* acts := cat_shape acts input in
  conv_shape (output self) acts.

(** A layer with 'same' padding: an odd kernel of width [2 * padding + 1]. *)
Definition same_padding (l : ConvLayer) : bool :=
  kernel_size l =? 2 * padding l + 1.

(** The channel counts of a list of encoders fit one after the other,
    starting from [c] channels. *)
Fixpoint enc_chain (c : nat) (encoders : list ConvLayer) : bool :=
  match encoders with
  | [] => true
  | e :: es => (c =? in_channels e) && same_padding e && enc_chain (out_channels e) es
  end.

Definition last_channels (c : nat) (layers : list ConvLayer) : nat :=
  fold_left (fun _ l => out_channels l) layers c.

(** The channel counts of a list of decoders fit the activations ([c]
    channels) concatenated with the skip connections ([skips] channels). *)
Fixpoint dec_chain (c : nat) (decoders : list ConvLayer) (skips : list nat) : bool :=
  match decoders, skips with
  | [], _ => true
  | d :: ds, k :: skips' =>
      (c + k =? in_channels d) && same_padding d && negb (c =? 0)
      && dec_chain (out_channels d) ds skips'
  | _ :: _, [] => false
  end.

(** The lengths along the decoding loop: each skip connection must be twice
    as long as the activations that reach it. *)
Fixpoint dec_len (a : nat) (skips : list nat) : option nat :=
  match skips with
  | [] => Some a
  | s :: skips' => if 2 * a =? s then dec_len s skips' else None
  end.

(** The lengths of the skip connections of an input of length [n], from the
    first encoder on. *)
Definition skip_lens (depth n : nat) : list nat :=
  map (fun i => Nat.iter i halve n) (seq 0 depth).

(** The sizes of the skip connections kept by the encoding loop. *)
Definition skip_shapes (b : nat) (encoders : list ConvLayer) (lens : list nat)
  : list shape :=
  map (fun p => (b, out_channels (fst p), snd p)) (combine encoders lens).

(** All the layers of a network, in the order [forward] applies them. *)
Definition layers (net : WaveUNet) : list ConvLayer :=
  encoders net ++ [middle net] ++ decoders net ++ [output net].

(** Parameters with every weight 0 (any parameters would do). *)
Definition zero_params : params :=
  {| weight_g := fun _ => 0%R; weight_v := fun _ _ _ => 0%R;
     conv_bias := fun _ => 0%R; slope := 0%R |}.

(** An input of the given sizes, all samples 0. *)
Definition zeros (b c n : nat) : tensor :=
  {| batch := b; chans := c; len := n; at_ := fun _ _ _ => 0%R |}.

End WaveUNetShapes.

(** ** src/utils/checkpoint.py: saving *)
Module CheckpointSave.
Import Checkpoint.

(** [str(n)] for an integer: decimal digits, with a leading minus sign for
    a negative number. *)
Definition show_int (n : Z) : string := NilEmpty.string_of_int (Z.to_int n).

(** [c.isdigit()] for an ASCII character *)
Definition is_digit (c : ascii) : bool :=
  let n := nat_of_ascii c in ((48 <=? n) && (n <=? 57))%nat.

Section Save.
Variable Model : Type.
Variable StateDict : Type.
(** [net.state_dict()] *)
Variable state_dict : Model -> StateDict.

(** What a call to [save] or [save_state_dict] leaves behind: the files on
    disk, the paths handed to [wandb.save], and the path it returns.  The
    directories of the path are taken to exist. *)
Record saved := {
  files : filesystem Model StateDict;
  uploads : list string;
  returned : string
}.

(** [save(net, prefix, name, use_wandb)], called at time [now]. *)
Definition save (fs : filesystem Model StateDict) (net : Model) (prefix : string)
    (name : option string) (use_wandb : bool) (now : Z) : saved :=
  let checkpoint_filename :=
    get_checkpoint_filename show_int prefix name "full.ckpt" now in
  let checkpoint_path := path_join CHECKPOINT_DIR checkpoint_filename in
  {| files := <[checkpoint_path := FullModel net]> fs;
     uploads := if use_wandb then [checkpoint_path] else [];
     returned := checkpoint_path |}.

(** [save_state_dict(net, prefix, name, use_wandb)], called at time [now]. *)
Definition save_state_dict (fs : filesystem Model StateDict) (net : Model)
    (prefix : string) (name : option string) (use_wandb : bool) (now : Z) : saved :=
  let checkpoint_filename :=
    get_checkpoint_filename show_int prefix name "ckpt" now in
  let checkpoint_path := path_join CHECKPOINT_DIR checkpoint_filename in
  {| files := <[checkpoint_path := Params (state_dict net)]> fs;
     uploads := if use_wandb then [checkpoint_path] else [];
     returned := checkpoint_path |}.
End Save.

Arguments files {Model StateDict} s.
Arguments uploads {Model StateDict} s.
Arguments returned {Model StateDict} s.

End CheckpointSave.

(** Files and predicates for the properties of the loading loops. *)
Module LibrispeechFiles.
Import Librispeech.

(** The length check of the loading loops. *)
Definition long_enough (f : loaded) : bool :=
  negb (nelement2 (channels f) <? AUDIO_LENGTH)%Z.

(** The two assertions made on a file that passes the length check. *)
Definition well_formed (f : loaded) : bool :=
  (sample_rate f =? 16000)%Z && dtype_eqb (tensor_dtype f) float32.

(** A stereo file of 2 x 40000 samples. *)
Definition stereo_file : loaded :=
  {| channels := [silence 40000; silence 40000]; tensor_dtype := float32;
     sample_rate := 16000 |}.

(** A file of 100 samples recorded at 8 kHz. *)
Definition short_8k_file : loaded :=
  {| channels := [silence 100]; tensor_dtype := int16; sample_rate := 8000 |}.

(** A mono file of 70000 samples. *)
Definition long_file : loaded :=
  {| channels := [silence 70000]; tensor_dtype := float32; sample_rate := 16000 |}.

End LibrispeechFiles.

(** Events and trainers for the properties of the training loop. *)
Module TrainerRuns.
Import Trackers Trainer TrainerData.

Definition is_info {Net} (e : event Net) : bool :=
  match e with
  | TrainingInfo _ _ => true
  | _ => false
  end.

Definition is_saved {Net} (e : event Net) : bool :=
  match e with
  | CheckpointSaved _ _ _ _ => true
  | _ => false
  end.

(** The epochs of a run at whose start a periodic checkpoint is due. *)
Definition checkpoint_epochs_of {Input Target Output}
    (self : Trainer Input Target Output) (num_epochs : nat) : list nat :=
  List.filter (fun epoch => is_checkpoint_epoch Input Target Output self
                              (Z.of_nat epoch))
    (seq 0 num_epochs).

Section RunFacts.
Context {Input Target Output Net : Type}.

(** The shape assertions are off, as [__init__] leaves them. *)
Definition no_shape_checks (self : Trainer Input Target Output) : Prop :=
  input_shape _ _ _ self = [] /\ target_shape _ _ _ self = [] /\
  output_shape _ _ _ self = [].

Definition count_info (evs : list (event Net)) : nat :=
  length (List.filter is_info evs).
Definition count_saved (evs : list (event Net)) : nat :=
  length (List.filter is_saved evs).

(** Checkpoints can be written: none is configured, or the logger's run name
    is set. *)
Definition can_save (self : Trainer Input Target Output) : Prop :=
  truthy_string (checkpoint_name self) = true ->
  exists name, wandb_name self = Some name.

(** Whether the epoch starts with a periodic checkpoint. *)
Definition saves_at (self : Trainer Input Target Output) (epoch : nat) : bool :=
  truthy_string (checkpoint_name self)
  && is_checkpoint_epoch Input Target Output self (Z.of_nat epoch).
End RunFacts.

Section Callbacks.
Context {Input Target Output Net Optimizer : Type}.
Variable forward : Net -> Input -> result (Net * Output).
Variable optimizer_step :
  Optimizer -> Net -> Q -> (Net -> result Q) -> result (Optimizer * Net).
Variable log_training_info : gmap string (option Q) -> bool -> result unit.

(** A metric function that never raises. *)
Definition metric_returns (m : metric_entry Input Target Output) : Prop :=
  forall inputs outputs targets, is_ok (metric_fn m inputs outputs targets) = true.

(** The calls a run makes into the network, the optimizer, the logging and
    the registered loss and metric functions never raise; the optimizer is
    only asked to return when the loss it is given can be computed for the
    network it is given. *)
Definition never_raise (self : Trainer Input Target Output) : Prop :=
  (forall n inputs, is_ok (forward n inputs) = true) /\
  (forall o n loss loss_of,
     is_ok (loss_of n) = true -> is_ok (optimizer_step o n loss loss_of) = true) /\
  (forall info to_wandb, is_ok (log_training_info info to_wandb) = true) /\
  Forall (fun fw : criterion Input Target Output * Q =>
            forall inputs outputs targets,
              is_ok (fst fw inputs outputs targets) = true)
    (loss_fns _ _ _ self) /\
  Forall metric_returns (metric_fns self).

(** What the loops keep of a run: the events, and metric functions that
    never raise. *)
Definition carries_on (r r' : run Input Target Output Net Optimizer) : Prop :=
  events r' = events r /\ Forall metric_returns (metrics r').

(** Every checkpoint that is due can be written: the logger's run name is
    set and [checkpoint.save] returns. *)
Definition saves_return
    (checkpoint_save : Net -> string -> string -> bool -> result string)
    (self : Trainer Input Target Output) : Prop :=
  truthy_string (checkpoint_name self) = true ->
  (exists name, wandb_name self = Some name) /\
  forall n prefix name to_wandb,
    is_ok (checkpoint_save n prefix name to_wandb) = true.
End Callbacks.

(** [trainer.target_shape = shape], assigned from outside the class. *)
Definition set_target_shape {Input Target Output}
    (self : Trainer Input Target Output) (shape : list nat)
  : Trainer Input Target Output :=
  {| use_cuda := use_cuda _ _ _ self;
     checkpoint_epochs := checkpoint_epochs self;
     checkpoint_name := checkpoint_name self;
     loss_fns := loss_fns _ _ _ self;
     metric_fns := metric_fns self;
     use_wandb := use_wandb _ _ _ self;
     wandb_name := wandb_name self;
     input_shape := input_shape _ _ _ self;
     target_shape := shape;
     output_shape := output_shape _ _ _ self |}.

(** The trainer of [TrainerData] with checkpoints every second epoch and the
    logger configured. *)
Definition with_logger : Trainer Q Q Q :=
  fst (setup_wandb Q Q Q unit (setup_checkpoints Q Q Q with_metric "wave" 2)
         "speech" "run").

(** The trainer of [TrainerData] expecting targets of shape (batch, 7). *)
Definition with_target_shape : Trainer Q Q Q :=
  set_target_shape with_metric [7%nat].

(** The entry [register_metric_fn(fn, "loss")] adds. *)
Definition with_metric_entry : metric_entry Q Q Q :=
  {| metric_fn := target_metric; metric_name := capitalize "loss";
     train_tracker := new_tracker (8 # 10); test_tracker := new_tracker (8 # 10) |}.

(** An entry registered under the name "LOSS", with values in its trackers. *)
Definition loss_entry (train test : option Q) : metric_entry Q Q Q :=
  {| metric_fn := target_metric; metric_name := capitalize "LOSS";
     train_tracker := {| decay := 8 # 10; value := train |};
     test_tracker := {| decay := 8 # 10; value := test |} |}.

End TrainerRuns.

(** ** src/datasets/speech_evaluation/evaluate.py *)
Module Evaluate.
Import WaveUNet.

Definition AUDIO_LENGTH : Z := 2 ^ 16.

(** [pad_chunk]: [np.pad(arr, (0, padding))] appends [padding] zeros. *)
Definition pad_chunk {A} (zero : A) (arr : list A) : list A :=
  let arr_size := Z.of_nat (length arr) in
  let size := (arr_size - arr_size mod AUDIO_LENGTH + AUDIO_LENGTH)%Z in
  let padding := (size - arr_size)%Z in
  arr ++ repeat zero (Z.to_nat padding).

(** What [get_prediction] can return: an array of one, two or three
    dimensions, depending on what the two [squeeze(dim=0)] remove. *)
Inductive array :=
| Array1 (samples : list R)
| Array2 (rows : list (list R))
| Array3 (batches : list (list (list R))).

(** [torch.tensor(input_arr).float().view(1, 1, -1)]: with the two leading
    sizes given, the last one is the number of samples, 0 for the empty
    array. *)
Definition view_1_1 (input_arr : list R) : tensor :=
  {| batch := 1; chans := 1; len := length input_arr;
     at_ := fun _ _ t => nth t input_arr 0%R |}.

Definition row_of (x : tensor) (n c : nat) : list R :=
  map (at_ x n c) (seq 0 (len x)).
Definition rows_of (x : tensor) (n : nat) : list (list R) :=
  map (row_of x n) (seq 0 (chans x)).

(** [outputs.squeeze(dim=0).squeeze(dim=0)]: a leading dimension is removed
    when its size is 1. *)
Definition squeeze_twice (outputs : tensor) : array :=
  if (batch outputs =? 1)%nat then
    if (chans outputs =? 1)%nat then Array1 (row_of outputs 0 0)
    else Array2 (rows_of outputs 0)
  else Array3 (map (rows_of outputs) (seq 0 (batch outputs))).

(** [get_prediction(net, input_arr)] *)
Definition get_prediction (net : tensor -> result tensor) (input_arr : list R)
  : result array :=
  let inputs := view_1_1 input_arr in
  let* outputs := net inputs in
  Ok (squeeze_twice outputs).

End Evaluate.

(** Batch items of the network: two tensors of the same sizes that agree on
    the batch item [n]. *)
Module BatchItems.
Import WaveUNet.

Definition agree_on (n : nat) (x y : tensor) : Prop :=
  batch x = batch y /\ chans x = chans y /\ len x = len y /\
  forall c t, at_ x n c t = at_ y n c t.

(** Two calls end the same way: both raise the same exception, or both
    return and the results agree on the batch item [n]. *)
Definition agree_result (n : nat) (rx ry : result tensor) : Prop :=
  match rx, ry with
  | Ok x, Ok y => agree_on n x y
  | Raise e, Raise e' => e = e'
  | _, _ => False
  end.

(** A batch of [b] waveforms of [l] samples whose item [i] is the constant
    [v i]. *)
Definition constant_items (b l : nat) (v : nat -> R) : tensor :=
  {| batch := b; chans := 1; len := l; at_ := fun n _ _ => v n |}.

End BatchItems.

(** ** src/datasets/scenes/tut_acoustic_scenes/scene_dataset.py: loading *)
Module SceneLoading.
Import SceneDataset.

Definition CHUNK_SIZE : Z := 32767.
(** [SUB_SAMPLE = False]: as a number, 0. *)
Definition SUB_SAMPLE : Z := 0.

(** The exceptions of this file: those of [exn], a missing dictionary key and
    a division by zero. *)
Inductive error :=
| Builtin (e : exn)
| KeyError (key : string)
| ZeroDivisionError.

Definition outcome (A : Type) : Type := error + A.

Definition obind {A B} (r : outcome A) (k : A -> outcome B) : outcome B :=
  match r with
  | inl e => inl e
  | inr a => k a
  end.

Notation "'let+' x ':=' r 'in' k" := (obind r (fun x => k))
  (at level 10, x name, r at level 100, k at level 200).

(** [count] consecutive pieces of [size] elements. *)
Fixpoint pieces {A} (size count : nat) (l : list A) : list (list A) :=
  match count with
  | O => []
  | S count' => firstn size l :: pieces size count' (skipn size l)
  end.

(** [np.split(ary, sections)] for a number of sections given as a float:
    [N % sections] divides by zero for 0 sections, and the split must be
    even. *)
Definition np_split {A} (ary : list A) (sections : Z) : outcome (list (list A)) :=
  let N := Z.of_nat (length ary) in
  if (sections =? 0)%Z then inl ZeroDivisionError
  else if negb (N mod sections =? 0)%Z then
    inl (Builtin (ValueError "array split does not result in an equal division"))
  else if (sections <=? 0)%Z then
    inl (Builtin (ValueError "number sections must be larger than 0."))
  else inr (pieces (Z.to_nat (N / sections)) (Z.to_nat sections) ary).

(** [split_even_chunks]; [offset] is the value returned by
    [np.random.randint(0, remainder_length + 1)]. *)
Definition split_even_chunks {A} (input_arr : list A) (offset : Z)
  : outcome (list (list A)) :=
  let n := Z.of_nat (length input_arr) in
  let even_length := (n - n mod CHUNK_SIZE)%Z in
  let num_chunks := (even_length / CHUNK_SIZE)%Z in
  let start := offset in
  let end_ := (offset + even_length)%Z in
  np_split (py_slice input_arr start end_) num_chunks.

(** [np.random.randint(low, high)] returns [r] with [low <= r < high]. *)
Definition np_randint_draws (low high r : Z) : Prop := (low <= r < high)%Z.

(** The offsets that can be drawn for an array. *)
Definition offset_draws {A} (input_arr : list A) (offset : Z) : Prop :=
  let n := Z.of_nat (length input_arr) in
  np_randint_draws 0 (n - (n - n mod CHUNK_SIZE) + 1) offset.

(** [s.split(sep)] for a separator of one character. *)
Fixpoint split_on (sep : ascii) (s : string) : list string :=
  match s with
  | EmptyString => [EmptyString]
  | String c s' =>
      if Ascii.eqb c sep then EmptyString :: split_on sep s'
      else match split_on sep s' with
           | [] => [String c EmptyString]
           | w :: ws => String c w :: ws
           end
  end.

(** [s.replace(old, "")] for a non-empty [old]: occurrences are removed from
    left to right; [skip] characters of an occurrence are still to drop. *)
Fixpoint remove_from (old : string) (skip : nat) (s : string) : string :=
  match s with
  | EmptyString => EmptyString
  | String c s' =>
      match skip with
      | S skip' => remove_from old skip' s'
      | O =>
          if String.prefix old s then remove_from old (String.length old - 1) s'
          else String c (remove_from old 0 s')
      end
  end.

Definition remove_all (old s : string) : string := remove_from old 0 s.

Definition tab : ascii := ascii_of_nat 9.
Definition newline : ascii := ascii_of_nat 10.

(** [label in CLASS_LABELS] *)
Definition is_class_label (label : string) : bool :=
  existsb (String.eqb label) CLASS_LABELS.

(** The loop of [__init__] over the lines of meta.txt. *)
Fixpoint parse_meta (lines : list string) (label_lookup : gmap string string)
  : outcome (gmap string string) :=
  match lines with
  | [] => inr label_lookup
  | line :: lines' =>
      match line with
      | EmptyString => parse_meta lines' label_lookup
      | _ =>
          match split_on tab line with
          | [filename; label] =>
              if negb (is_class_label label) then inl (Builtin (AssertionError ""))
              else
                let filename_cleaned := remove_all "audio/" filename in
                parse_meta lines' (<[filename_cleaned := label]> label_lookup)
          | _ => inl (Builtin (ValueError "unpack"))
          end
      end
  end.

(** What [wavfile.read] returns: the sample rate and an array of one
    dimension, or of two dimensions (frames, channels), kept here as the list
    of its channels. *)
Inductive wav_array :=
| Mono (samples : list Z)
| Channels (channels : list (list Z)).

Record wav_file := {
  wav_name : string;
  wav_rate : Z;
  wav_data : wav_array
}.

(** [d[key]] *)
Definition dict_get {V} (d : gmap string V) (key : string) : outcome V :=
  match d !! key with
  | Some v => inr v
  | None => inl (KeyError key)
  end.

(** The data of a dataset under construction. *)
Record loaded_data := {
  data : list (list Z);
  data_labels : list nat
}.

(** [for chunk in chunks: self.data.append(chunk); self.data_labels.append(label_idx)] *)
Definition append_chunks (acc : loaded_data) (chunks : list (list Z))
    (label_idx : nat) : loaded_data :=
  fold_left (fun acc chunk =>
               {| data := data acc ++ [chunk];
                  data_labels := data_labels acc ++ [label_idx] |})
    chunks acc.

(** The body of the loop over the wav files; [offset c] is the offset drawn
    for channel [c] of the file. *)
Definition load_wav (label_lookup : gmap string string)
    (label_to_idx : gmap string nat) (acc : loaded_data) (f : wav_file)
    (offset : nat -> Z) : outcome loaded_data :=
  let+ label := dict_get label_lookup (wav_name f) in
  let+ label_idx := dict_get label_to_idx label in
  if negb (wav_rate f =? 16000)%Z then inl (Builtin (AssertionError ""))
  else
    match wav_data f with
    | Mono _ => inl (Builtin (AssertionError "Audio data should be stereo"))
    | Channels (ch0 :: ch1 :: _) =>
        let+ chunks := split_even_chunks ch0 (offset 0%nat) in
        let acc := append_chunks acc chunks label_idx in
        let+ chunks := split_even_chunks ch1 (offset 1%nat) in
        inr (append_chunks acc chunks label_idx)
    | Channels _ => inl (Builtin IndexError)
    end.

Fixpoint load_wavs (label_lookup : gmap string string)
    (label_to_idx : gmap string nat) (acc : loaded_data) (files : list wav_file)
    (offsets : string -> nat -> Z) : outcome loaded_data :=
  match files with
  | [] => inr acc
  | f :: files' =>
      let+ acc := load_wav label_lookup label_to_idx acc f (offsets (wav_name f)) in
      load_wavs label_lookup label_to_idx acc files' offsets
  end.

Record SceneDataset := {
  maps : label_maps;
  items : loaded_data
}.

(** [__init__], given the text of meta.txt and the files of the data folder
    in the order of [os.listdir]. *)
Definition __init__ (meta_text : string) (listing : list wav_file)
    (offsets : string -> nat -> Z) : outcome SceneDataset :=
  let+ label_lookup := parse_meta (split_on newline meta_text) ∅ in
  let maps := build_label_maps CLASS_LABELS in
  let wav_files := List.filter (fun f => endswith (wav_name f) ".wav") listing in
  let+ acc := load_wavs label_lookup (label_to_idx maps)
               {| data := []; data_labels := [] |} wav_files offsets in
  let acc := if negb (SUB_SAMPLE =? 0)%Z
             then {| data := py_slice (data acc) 0 SUB_SAMPLE;
                     data_labels := py_slice (data_labels acc) 0 SUB_SAMPLE |}
             else acc in
  if negb (length (data acc) =? length (data_labels acc))%nat
  then inl (Builtin (AssertionError ""))
  else inr {| maps := maps; items := acc |}.

Definition __len__ (self : SceneDataset) : nat := length (data (items self)).

(** [__getitem__]: the chunk and its label index. *)
Definition __getitem__ (self : SceneDataset) (idx : Z) : outcome (list Z * nat) :=
  match py_index (data (items self)) idx, py_index (data_labels (items self)) idx with
  | Ok input_arr, Ok label_idx => inr (input_arr, label_idx)
  | Raise e, _ => inl (Builtin e)
  | _, Raise e => inl (Builtin e)
  end.

(** The draws that can be made while loading the files. *)
Definition offsets_drawn (files : list wav_file) (offsets : string -> nat -> Z)
  : Prop :=
  forall f ch0 ch1 rest,
    In f files -> wav_data f = Channels (ch0 :: ch1 :: rest) ->
    offset_draws ch0 (offsets (wav_name f) 0%nat) /\
    offset_draws ch1 (offsets (wav_name f) 1%nat).

(** A stereo file of 2 x 70000 samples, and a meta.txt with its label. *)
Definition street : wav_file :=
  {| wav_name := "a1.wav"; wav_rate := 16000;
     wav_data := Channels [repeat 0%Z (Z.to_nat 70000); repeat 1%Z (Z.to_nat 70000)] |}.

(** What the loading loop keeps true of the data: as many labels as chunks,
    chunks of [CHUNK_SIZE] samples, labels that are indices of the label
    list. *)
Definition well_loaded (acc : loaded_data) : Prop :=
  length (data acc) = length (data_labels acc) /\
  Forall (fun chunk => Z.of_nat (length chunk) = CHUNK_SIZE) (data acc) /\
  Forall (fun label_idx => (label_idx < 15)%nat /\
                           is_Some (idx_to_label scene_maps !! label_idx))
    (data_labels acc).

(** A wav file the loading loop accepts: listed in meta.txt, recorded at
    16 kHz, with at least two channels of at least [CHUNK_SIZE] samples, and
    offsets that can be drawn for them. *)
Definition loadable (label_lookup : gmap string string)
    (offsets : string -> nat -> Z) (f : wav_file) : Prop :=
  is_Some (label_lookup !! wav_name f) /\
  wav_rate f = 16000%Z /\
  exists ch0 ch1 rest,
    wav_data f = Channels (ch0 :: ch1 :: rest) /\
    (CHUNK_SIZE <= Z.of_nat (length ch0))%Z /\
    (CHUNK_SIZE <= Z.of_nat (length ch1))%Z /\
    offset_draws ch0 (offsets (wav_name f) 0%nat) /\
    offset_draws ch1 (offsets (wav_name f) 1%nat).

(** The number of chunks a file contributes: those of its first two
    channels. *)
Definition chunk_count (f : wav_file) : nat :=
  match wav_data f with
  | Channels (ch0 :: ch1 :: _) =>
      Z.to_nat (Z.of_nat (length ch0) / CHUNK_SIZE)
      + Z.to_nat (Z.of_nat (length ch1) / CHUNK_SIZE)
  | _ => 0
  end.

Definition is_wav (f : wav_file) : bool := endswith (wav_name f) ".wav".

(** A mono recording of 40000 samples. *)
Definition one_channel : wav_file :=
  {| wav_name := "b2.wav"; wav_rate := 16000;
     wav_data := Mono (repeat 0%Z (Z.to_nat 40000)) |}.

(** A meta.txt for the file [street]. *)
Definition street_meta : string :=
  "audio/a1.wav" +:+ String tab "park" +:+ String newline "".

End SceneLoading.

(** * Properties *)

(** ** Checkpoint loading *)
Module CheckpointProps.
Import Checkpoint.

Section LoadProps.
Variable Model : Type.
Variable StateDict : Type.
Variable load_state_dict : Model -> StateDict -> result Model.
Variable to_device : device -> Model -> Model.
Variable truthy : Model -> bool.

Local Abbreviation load := (load Model StateDict load_state_dict to_device truthy).

Lemma load_full_ignores_net fs fname net net' use_cuda :
  endswith fname "full.ckpt" = true ->
  load fs fname net use_cuda = load fs fname net' use_cuda.
Proof. intros Hs. unfold Checkpoint.load. now rewrite Hs. Qed.

(** C7. [load] dispatches on the suffix of the file name.  A name that ends
    in "full.ckpt" is read as a full model object: the [net] argument plays
    no part, and a stored model comes back placed on the requested device.
    For any other name a missing [net] raises the assertion with its
    message before any file is opened, and no model is returned. *)
Theorem load_dispatches_on_suffix (fs : filesystem Model StateDict)
    (fname : string) (use_cuda : bool) :
  (endswith fname "full.ckpt" = true ->
     (forall net, load fs fname net use_cuda = load fs fname None use_cuda) /\
     (forall m, fs !! path_join CHECKPOINT_DIR fname = Some (FullModel m) ->
        load fs fname None use_cuda =
          ([path_join CHECKPOINT_DIR fname],
           Ok (to_device (if use_cuda then Cuda else Cpu) m)))) /\
  (endswith fname "full.ckpt" = false ->
     load fs fname None use_cuda =
       ([], Raise (AssertionError
                     "A model is required for loading a state dict checkpoint."))).
Proof.
  split.
  - intros Hs. split.
    + intros net. now apply load_full_ignores_net.
    + intros m Hm. unfold Checkpoint.load, torch_load.
      rewrite Hs, Hm. simpl. now destruct use_cuda.
  - intros Hs. unfold Checkpoint.load. now rewrite Hs.
Qed.
End LoadProps.


(** A checkpoint directory with one full model and one parameter mapping. *)
Lemma load_dispatches_on_suffix_witness :
  Checkpoint.load nat nat (fun m _ => Ok m) (fun _ m => m) (fun _ => true)
    {[ "checkpoints/wave-1.full.ckpt" := FullModel 7 ]}
    "wave-1.full.ckpt" None true
  = (["checkpoints/wave-1.full.ckpt"], Ok 7)
  /\ Checkpoint.load nat nat (fun m _ => Ok m) (fun _ m => m) (fun _ => true)
       {[ "checkpoints/wave-1.full.ckpt" := FullModel 7 ]}
       "wave-1.ckpt" None true
     = ([], Raise (AssertionError
                     "A model is required for loading a state dict checkpoint.")).
Proof.
  split.
  - apply (proj1 (load_dispatches_on_suffix nat nat (fun m _ => Ok m) (fun _ m => m)
                    (fun _ => true)
                    {[ "checkpoints/wave-1.full.ckpt" := FullModel 7 ]}
                    "wave-1.full.ckpt" true)); reflexivity.
  - apply (proj2 (load_dispatches_on_suffix nat nat (fun m _ => Ok m) (fun _ m => m)
                    (fun _ => true)
                    {[ "checkpoints/wave-1.full.ckpt" := FullModel 7 ]}
                    "wave-1.ckpt" true)); reflexivity.
Defined.

End CheckpointProps.

(** ** Scene labels *)
Module SceneDatasetProps.
Import SceneDataset.

Example label_to_idx_tram : label_to_idx scene_maps !! "tram" = Some 11.
Proof. reflexivity. Qed.

Example idx_to_label_3 : idx_to_label scene_maps !! 3 = Some "cafe/restaurant".
Proof. reflexivity. Qed.

Lemma class_labels_length : length CLASS_LABELS = 15.
Proof. reflexivity. Qed.

(** C8. The two label dictionaries built from [CLASS_LABELS] are inverse to
    each other: every label of the list has an index that maps back to it,
    and every index below 15 has a label that maps back to it. *)
Theorem label_maps_inverse :
  (forall l, In l CLASS_LABELS ->
     exists i, label_to_idx scene_maps !! l = Some i /\
               idx_to_label scene_maps !! i = Some l) /\
  (forall i, i < 15 ->
     exists l, idx_to_label scene_maps !! i = Some l /\
               label_to_idx scene_maps !! l = Some i).
Proof.
  split.
  - intros l Hl. unfold CLASS_LABELS in Hl. simpl in Hl.
    repeat (destruct Hl as [<- | Hl];
            [eexists; split; vm_compute; reflexivity |]).
    contradiction.
  - intros i Hi.
    do 15 (destruct i as [| i];
           [eexists; split; vm_compute; reflexivity |]).
    lia.
Qed.

Lemma label_maps_inverse_witness :
  (exists i, label_to_idx scene_maps !! "beach" = Some i /\
             idx_to_label scene_maps !! i = Some "beach") /\
  (exists l, idx_to_label scene_maps !! 14 = Some l /\
             label_to_idx scene_maps !! l = Some 14).
Proof.
  split.
  - apply (proj1 label_maps_inverse). simpl. tauto.
  - apply (proj2 label_maps_inverse). lia.
Defined.

End SceneDatasetProps.

(** ** Python slices *)
Section Slices.
Context {A : Type}.
Implicit Types l : list A.

Lemma slice_bound_range n i : (0 <= n)%Z -> (0 <= slice_bound n i <= n)%Z.
Proof. intros Hn. unfold slice_bound. destruct (Z.ltb_spec i 0); lia. Qed.

Lemma py_slice_length l start stop :
  Z.of_nat (length (py_slice l start stop)) =
    Z.max 0 (slice_bound (Z.of_nat (length l)) stop
             - slice_bound (Z.of_nat (length l)) start).
Proof.
  unfold py_slice.
  pose proof (slice_bound_range (Z.of_nat (length l)) start ltac:(lia)).
  pose proof (slice_bound_range (Z.of_nat (length l)) stop ltac:(lia)).
  rewrite length_firstn, length_skipn. lia.
Qed.

Lemma py_slice_length_nonneg l start stop :
  (0 <= start <= stop)%Z ->
  Z.of_nat (length (py_slice l start stop)) =
    (Z.min stop (Z.of_nat (length l)) - Z.min start (Z.of_nat (length l)))%Z.
Proof.
  intros H. rewrite py_slice_length. unfold slice_bound.
  destruct (Z.ltb_spec start 0), (Z.ltb_spec stop 0); lia.
Qed.

Lemma py_index_nth l i x :
  nth_error l i = Some x -> py_index l (Z.of_nat i) = Ok x.
Proof.
  intros H. unfold py_index.
  assert (i < length l)%nat by (apply nth_error_Some; congruence).
  destruct (Z.ltb_spec (Z.of_nat i) 0); [lia |].
  destruct (Z.leb_spec 0 (Z.of_nat i)); [| lia].
  destruct (Z.ltb_spec (Z.of_nat i) (Z.of_nat (length l))); [| lia].
  simpl. now rewrite Nat2Z.id, H.
Qed.
End Slices.

(** ** Noisy LibriSpeech *)
Module LibrispeechProps.
Import Librispeech LibrispeechData LibrispeechFiles.

Lemma nelement_silence n : (0 <= n)%Z -> nelement (silence n) = n.
Proof. intros H. unfold nelement, silence. rewrite repeat_length. lia. Qed.

(** The chunk returned for a draw of [randint(0, size - chunk_width + 1)]. *)
Lemma subsample_chunk_random_size tensor chunk_width chunk_start :
  (0 < chunk_width < nelement tensor)%Z ->
  chunk_start_draws tensor chunk_width chunk_start ->
  exists chunk,
    subsample_chunk_random tensor chunk_width chunk_start = Ok chunk /\
    nelement chunk = Z.min chunk_width (nelement tensor - chunk_start).
Proof.
  intros Hw [Hlo Hhi]. unfold subsample_chunk_random.
  destruct (Z.ltb_spec chunk_width (nelement tensor)); [| lia].
  eexists; split; [reflexivity |].
  unfold nelement in *. rewrite py_slice_length_nonneg by lia. lia.
Qed.

(** Every offset but the last one gives a full chunk. *)
Lemma subsample_chunk_random_full tensor chunk_width chunk_start :
  (0 <= chunk_width < nelement tensor)%Z ->
  (0 <= chunk_start <= nelement tensor - chunk_width)%Z ->
  exists chunk,
    subsample_chunk_random tensor chunk_width chunk_start = Ok chunk /\
    nelement chunk = chunk_width.
Proof.
  intros Hw Hs. unfold subsample_chunk_random.
  destruct (Z.ltb_spec chunk_width (nelement tensor)); [| lia].
  eexists; split; [reflexivity |].
  unfold nelement in *. rewrite py_slice_length_nonneg by lia. lia.
Qed.

(** The last offset [randint] can return gives a chunk one sample short. *)
Lemma subsample_chunk_random_last tensor chunk_width :
  (0 < chunk_width < nelement tensor)%Z ->
  chunk_start_draws tensor chunk_width (nelement tensor - chunk_width + 1) /\
  exists chunk,
    subsample_chunk_random tensor chunk_width (nelement tensor - chunk_width + 1)
      = Ok chunk /\
    nelement chunk = (chunk_width - 1)%Z.
Proof.
  intros Hw.
  assert (Hd : chunk_start_draws tensor chunk_width
                 (nelement tensor - chunk_width + 1)).
  { unfold chunk_start_draws, randint_draws. lia. }
  split; [exact Hd |].
  destruct (subsample_chunk_random_size tensor chunk_width
              (nelement tensor - chunk_width + 1))
    as (chunk & Hc & Hn); [lia | exact Hd |].
  exists chunk. split; [assumption | lia].
Qed.

Lemma subsample_chunk_random_exact tensor chunk_start :
  nelement tensor = AUDIO_LENGTH ->
  subsample_chunk_random tensor AUDIO_LENGTH chunk_start = Raise (AssertionError "").
Proof.
  intros H. unfold subsample_chunk_random. rewrite H.
  now rewrite Z.ltb_irrefl.
Qed.

(** After the two clippings no sample is above 1 or below -1 (a NaN is
    neither). *)
Lemma clip_bounds t :
  Forall (fun y => SFltb (Float32.of_int 1) y = false /\
                   SFltb y (Float32.of_int (-1)) = false)
    (clip_below (clip_above t)).
Proof.
  unfold clip_below, clip_above. rewrite map_map. apply Forall_map.
  apply Forall_forall. intros x _. cbv beta.
  destruct (SFltb (Float32.of_int 1) x) eqn:E1.
  - split; reflexivity.
  - destruct (SFltb x (Float32.of_int (-1))) eqn:E2.
    + split; reflexivity.
    + split; assumption.
Qed.

Lemma clip_length t : length (clip_below (clip_above t)) = length t.
Proof. unfold clip_below, clip_above. now rewrite !length_map. Qed.

Lemma scale_length t k : length (scale t k) = length t.
Proof. unfold scale. now rewrite length_map. Qed.

Lemma zip_add_length a b : length a = length b -> length (zip_add a b) = length a.
Proof.
  revert b. induction a as [| x a IH]; intros [| y b] H; simpl in *;
    try discriminate; [reflexivity |].
  f_equal. apply IH. congruence.
Qed.



(** C2. A recording one sample longer than the chunk width, chunked at the
    largest offset [random.randint(0, size - chunk_width + 1)] can return:
    both chunks of the item have [AUDIO_LENGTH - 1] samples. *)
Theorem getitem_chunk_one_short :
  Forall (fun t => AUDIO_LENGTH < nelement t)%Z
    (clean_data one_over ++ noise_data one_over) /\
  can_draw one_over 0 late_draws /\
  item_sizes (__getitem__ one_over 0 late_draws)
    = Ok (AUDIO_LENGTH - 1, AUDIO_LENGTH - 1)%Z.
Proof.
  split; [| split].
  - repeat constructor.
  - unfold can_draw. split; [unfold choice_draws; simpl; lia |]. split; [| split].
    + intros clean H. change (Ok (silence 65537) = Ok clean) in H.
      injection H as <-. unfold chunk_start_draws, randint_draws.
      rewrite nelement_silence by lia. vm_compute. split; discriminate.
    + intros noise H. change (Ok (silence 65537) = Ok noise) in H.
      injection H as <-. unfold chunk_start_draws, randint_draws.
      rewrite nelement_silence by lia. vm_compute. split; discriminate.
    + vm_compute. split; discriminate.
  - vm_compute. reflexivity.
Qed.

(** C6. With a full clean chunk and the noise chunk drawn at the largest
    offset, the noise chunk is one sample short and the addition
    [clean_chunk + noise_chunk] raises: no noisy sample is produced. *)
Theorem getitem_mixing_raises :
  can_draw one_over 0 late_noise_draws /\
  (exists clean_chunk,
     subsample_chunk_random (silence 65537) AUDIO_LENGTH
       (clean_start late_noise_draws) = Ok clean_chunk /\
     nelement clean_chunk = 65536%Z) /\
  __getitem__ one_over 0 late_noise_draws
    = Raise (RuntimeError "The size of tensor a must match the size of tensor b").
Proof.
  split; [| split].
  - unfold can_draw. split; [unfold choice_draws; simpl; lia |]. split; [| split].
    + intros clean H. change (Ok (silence 65537) = Ok clean) in H.
      injection H as <-. unfold chunk_start_draws, randint_draws.
      rewrite nelement_silence by lia. vm_compute. split; discriminate.
    + intros noise H. change (Ok (silence 65537) = Ok noise) in H.
      injection H as <-. unfold chunk_start_draws, randint_draws.
      rewrite nelement_silence by lia. vm_compute. split; discriminate.
    + vm_compute. split; discriminate.
  - apply subsample_chunk_random_full; rewrite nelement_silence by lia;
      vm_compute; split; congruence.
  - vm_compute. reflexivity.
Qed.

(** Files strictly shorter than [AUDIO_LENGTH] are skipped by the loading
    loops. *)
Lemma load_clean_skips_short f files acc :
  (nelement2 (channels f) < AUDIO_LENGTH)%Z ->
  load_clean (f :: files) acc = load_clean files acc.
Proof.
  intros H. simpl.
  destruct (Z.ltb_spec (nelement2 (channels f)) AUDIO_LENGTH); [reflexivity | lia].
Qed.

Lemma load_clean_keeps f files acc :
  (AUDIO_LENGTH <= nelement2 (channels f))%Z ->
  sample_rate f = 16000%Z ->
  tensor_dtype f = float32 ->
  load_clean (f :: files) acc = load_clean files (acc ++ [concat (channels f)]).
Proof.
  intros H Hr Hd. simpl.
  destruct (Z.ltb_spec (nelement2 (channels f)) AUDIO_LENGTH); [lia |].
  now rewrite Hr, Hd.
Qed.

Lemma load_noise_keeps f ch rest files acc :
  channels f = ch :: rest ->
  (AUDIO_LENGTH <= nelement2 (channels f))%Z ->
  sample_rate f = 16000%Z ->
  tensor_dtype f = float32 ->
  load_noise (f :: files) acc = load_noise files (acc ++ [ch]).
Proof.
  intros Hc H Hr Hd. simpl.
  destruct (Z.ltb_spec (nelement2 (channels f)) AUDIO_LENGTH); [lia |].
  now rewrite Hr, Hd, Hc.
Qed.

Lemma nelement_concat t : nelement (concat t) = nelement2 t.
Proof.
  unfold nelement. induction t as [| ch t IH]; simpl; [reflexivity |].
  rewrite length_app. lia.
Qed.

Lemma subsample_chunk_random_too_short tensor chunk_start :
  (nelement tensor <= AUDIO_LENGTH)%Z ->
  subsample_chunk_random tensor AUDIO_LENGTH chunk_start = Raise (AssertionError "").
Proof.
  intros H. unfold subsample_chunk_random.
  destruct (Z.ltb_spec AUDIO_LENGTH (nelement tensor)); [lia | reflexivity].
Qed.

(** An item whose clean recording has exactly [AUDIO_LENGTH] samples. *)
Lemma getitem_exact_clean self idx d clean :
  py_index (clean_data self) idx = Ok clean ->
  nelement clean = AUDIO_LENGTH ->
  is_ok (__getitem__ self idx d) = false /\
  (choice_draws (noise_data self) (noise_choice d) ->
   __getitem__ self idx d = Raise (AssertionError "")).
Proof.
  intros Hc Hn. unfold __getitem__. rewrite Hc. cbn [rbind].
  unfold choice_draws, choice.
  destruct (nth_error (noise_data self) (noise_choice d)) eqn:E; cbn [rbind].
  - rewrite subsample_chunk_random_exact by assumption. split; reflexivity.
  - split; [reflexivity |]. intros Hd. apply nth_error_None in E. lia.
Qed.

(** An item for which the noise recording drawn has no more than
    [AUDIO_LENGTH] samples. *)
Lemma getitem_short_noise self idx d noise :
  choice (noise_data self) (noise_choice d) = Ok noise ->
  (nelement noise <= AUDIO_LENGTH)%Z ->
  is_ok (__getitem__ self idx d) = false /\
  (is_ok (py_index (clean_data self) idx) = true ->
   __getitem__ self idx d = Raise (AssertionError "")).
Proof.
  intros Hn Hs. unfold __getitem__.
  destruct (py_index (clean_data self) idx) as [clean |]; cbn [rbind];
    [| split; [reflexivity | discriminate]].
  rewrite Hn. cbn [rbind].
  destruct (subsample_chunk_random clean AUDIO_LENGTH (clean_start d)) eqn:E;
    cbn [rbind].
  - rewrite subsample_chunk_random_too_short by assumption. split; reflexivity.
  - unfold subsample_chunk_random in E.
    destruct (AUDIO_LENGTH <? nelement clean)%Z; [discriminate |].
    injection E as <-. split; reflexivity.
Qed.

(** The clean loop returns the flattened long-enough files, in order, after
    what was already loaded. *)
Lemma load_clean_result files :
  forall acc data,
    load_clean files acc = Ok data ->
    data = acc ++ map (fun f => concat (channels f)) (List.filter long_enough files).
Proof.
  induction files as [| f files IH]; intros acc data H; cbn [load_clean] in H.
  - injection H as <-. simpl. now rewrite app_nil_r.
  - cbn [List.filter]. destruct (long_enough f) eqn:E; unfold long_enough in E.
    + apply negb_true_iff in E. rewrite E in H.
      destruct (negb (sample_rate f =? 16000)%Z); [discriminate |].
      destruct (negb (dtype_eqb (tensor_dtype f) float32)); [discriminate |].
      apply IH in H. rewrite H, <- app_assoc. reflexivity.
    + apply negb_false_iff in E. rewrite E in H. now apply IH.
Qed.

(** The noise loop returns the first channels of the long-enough files, in
    order, after what was already loaded. *)
Lemma load_noise_result files :
  forall acc data,
    load_noise files acc = Ok data ->
    exists kept,
      data = acc ++ kept /\
      Forall2 (fun f ch => hd_error (channels f) = Some ch)
        (List.filter long_enough files) kept.
Proof.
  induction files as [| f files IH]; intros acc data H; cbn [load_noise] in H.
  - injection H as <-. exists []. rewrite app_nil_r. split; [reflexivity | constructor].
  - cbn [List.filter]. destruct (long_enough f) eqn:E; unfold long_enough in E.
    + apply negb_true_iff in E. rewrite E in H.
      destruct (negb (sample_rate f =? 16000)%Z); [discriminate |].
      destruct (negb (dtype_eqb (tensor_dtype f) float32)); [discriminate |].
      destruct (channels f) as [| ch rest] eqn:Ech; [discriminate |].
      apply IH in H as (kept & -> & Hk).
      exists (ch :: kept). rewrite <- app_assoc. split; [reflexivity |].
      constructor; [now rewrite Ech | exact Hk].
    + apply negb_false_iff in E. rewrite E in H. now apply IH.
Qed.

Lemma Forall2_In_nth {A B} (P : A -> B -> Prop) (l : list A) (k : list B) x :
  Forall2 P l k -> In x l -> exists i y, nth_error k i = Some y /\ P x y.
Proof.
  induction 1 as [| a b l k Hab _ IH]; intros Hx; [destruct Hx |].
  destruct Hx as [<- | Hx].
  - exists 0%nat, b. split; [reflexivity | exact Hab].
  - destruct (IH Hx) as (i & y & Hi & Hy). exists (S i), y. split; assumption.
Qed.

Lemma nelement2_nonneg t : (0 <= nelement2 t)%Z.
Proof. induction t as [| ch t IH]; simpl; lia. Qed.

Lemma nelement_head t ch : hd_error t = Some ch -> (nelement ch <= nelement2 t)%Z.
Proof.
  destruct t as [| ch' t]; [discriminate |]. intros [= ->]. simpl.
  pose proof (nelement2_nonneg t). unfold nelement. lia.
Qed.

(** C10. When [__init__] returns a dataset, every clean file of exactly
    [AUDIO_LENGTH] elements is among its clean recordings, flattened, while
    the strictly shorter ones are not: the length check skips only those.
    [__getitem__] at the index of such a recording never returns an item, and
    raises the assertion [chunk_width < size] whenever a noise recording can
    be drawn.  Likewise the first channel of every noise file of exactly
    [AUDIO_LENGTH] elements is among the noise recordings, and every
    [__getitem__] that draws it returns no item: it raises the assertion
    for every valid index. *)
Theorem exact_length_accepted_never_returned
    (clean_files noise_files : list loaded) (self : NoisyLibreSpeechDataset) :
  __init__ clean_files noise_files = Ok self ->
  (forall f, In f clean_files -> nelement2 (channels f) = AUDIO_LENGTH ->
     exists i,
       nth_error (clean_data self) i = Some (concat (channels f)) /\
       forall d,
         is_ok (__getitem__ self (Z.of_nat i) d) = false /\
         (choice_draws (noise_data self) (noise_choice d) ->
          __getitem__ self (Z.of_nat i) d = Raise (AssertionError ""))) /\
  (forall f, In f clean_files -> (nelement2 (channels f) < AUDIO_LENGTH)%Z ->
     ~ In (concat (channels f)) (clean_data self)) /\
  (forall g, In g noise_files -> nelement2 (channels g) = AUDIO_LENGTH ->
     exists j ch,
       hd_error (channels g) = Some ch /\
       nth_error (noise_data self) j = Some ch /\
       forall idx d,
         noise_choice d = j ->
         is_ok (__getitem__ self idx d) = false /\
         (is_ok (py_index (clean_data self) idx) = true ->
          __getitem__ self idx d = Raise (AssertionError ""))).
Proof.
  unfold __init__. intros H.
  destruct (load_clean clean_files []) as [clean |] eqn:Ec; [| discriminate].
  destruct (load_noise noise_files []) as [noise |] eqn:En; [| discriminate].
  injection H as <-. cbn [clean_data noise_data rbind].
  apply load_clean_result in Ec. cbn [app] in Ec.
  apply load_noise_result in En as (kept & -> & Hkept). cbn [app].
  split; [| split].
  - intros f Hf Hn.
    assert (Hin : In (concat (channels f)) clean).
    { rewrite Ec. apply (List.in_map (fun f => concat (channels f))).
      apply filter_In. split; [exact Hf |].
      unfold long_enough. rewrite Hn. reflexivity. }
    apply In_nth_error in Hin as (i & Hi). exists i. split; [exact Hi |].
    intros d. apply getitem_exact_clean with (clean := concat (channels f)).
    + now apply py_index_nth.
    + now rewrite nelement_concat.
  - intros f Hf Hn Hin. rewrite Ec in Hin.
    apply in_map_iff in Hin as (f' & Heq & Hf').
    apply filter_In in Hf' as [_ Hlong]. unfold long_enough in Hlong.
    apply negb_true_iff in Hlong.
    destruct (Z.ltb_spec (nelement2 (channels f')) AUDIO_LENGTH);
      [discriminate |].
    rewrite <- (nelement_concat (channels f)), <- Heq, nelement_concat in Hn. lia.
  - intros g Hg Hn.
    assert (Hin : In g (List.filter long_enough noise_files)).
    { apply filter_In. split; [exact Hg |].
      unfold long_enough. rewrite Hn. reflexivity. }
    destruct (Forall2_In_nth _ _ _ _ Hkept Hin) as (j & ch & Hj & Hch).
    exists j, ch. split; [exact Hch |]. split; [exact Hj |].
    intros idx d Hd. apply getitem_short_noise with (noise := ch).
    + cbn [noise_data]. unfold choice. now rewrite Hd, Hj.
    + rewrite <- Hn. now apply nelement_head.
Qed.

(** A clean and a noise folder that each hold one mono file of exactly 65536
    samples: both are stored, and the one item of the dataset raises. *)
Lemma exact_length_accepted_never_returned_witness :
  let self := {| clean_data := [concat (channels exact_file)];
                 noise_data := [silence 65536] |} in
  __init__ [exact_file] [exact_file] = Ok self /\
  (exists i,
     nth_error (clean_data self) i = Some (concat (channels exact_file)) /\
     forall d,
       is_ok (__getitem__ self (Z.of_nat i) d) = false /\
       (choice_draws (noise_data self) (noise_choice d) ->
        __getitem__ self (Z.of_nat i) d = Raise (AssertionError ""))) /\
  (exists j ch,
     hd_error (channels exact_file) = Some ch /\
     nth_error (noise_data self) j = Some ch /\
     forall idx d,
       noise_choice d = j ->
       is_ok (__getitem__ self idx d) = false /\
       (is_ok (py_index (clean_data self) idx) = true ->
        __getitem__ self idx d = Raise (AssertionError ""))).
Proof.
  intros self.
  assert (Hn : nelement2 (channels exact_file) = AUDIO_LENGTH)
    by (vm_compute; reflexivity).
  assert (Hinit : __init__ [exact_file] [exact_file] = Ok self).
  { unfold __init__.
    rewrite load_clean_keeps by (rewrite ?Hn; first [reflexivity | lia]).
    rewrite (load_noise_keeps exact_file (silence 65536) [])
      by (rewrite ?Hn; first [reflexivity | lia]).
    reflexivity. }
  destruct (exact_length_accepted_never_returned [exact_file] [exact_file] self
              Hinit) as (Hclean & _ & Hnoise).
  split; [exact Hinit |]. split.
  - apply Hclean; [left; reflexivity | exact Hn].
  - apply Hnoise; [left; reflexivity | exact Hn].
Defined.

End LibrispeechProps.

(** ** The trainer *)
Module TrainerProps.
Import Trackers Trainer TrainerData.

Example capitalize_loss : capitalize "feature LOSS" = "Feature loss".
Proof. reflexivity. Qed.

(** One update from the empty state reports the value itself. *)
Lemma update_from_empty d v : value (update (new_tracker d) v) = Some v.
Proof. reflexivity. Qed.

Section WithNet.
Variables Input Target Output Net Optimizer : Type.
Variable set_mode : mode -> Net -> Net.
Variable forward : Net -> Input -> result (Net * Output).
Variable input_shape_of : Input -> list nat.
Variable target_shape_of : Target -> list nat.
Variable output_shape_of : Output -> list nat.
Variable optimizer_step :
  Optimizer -> Net -> Q -> (Net -> result Q) -> result (Optimizer * Net).
Variable checkpoint_save : Net -> string -> string -> bool -> result string.
Variable log_training_info : gmap string (option Q) -> bool -> result unit.

Local Abbreviation train_batch :=
  (train_batch Input Target Output Net Optimizer forward input_shape_of
     target_shape_of output_shape_of optimizer_step).
Local Abbreviation train_loop :=
  (train_loop Input Target Output Net Optimizer forward input_shape_of
     target_shape_of output_shape_of optimizer_step).
Local Abbreviation eval_batch := (eval_batch Input Target Output Net Optimizer forward).
Local Abbreviation eval_loop := (eval_loop Input Target Output Net Optimizer forward).
Local Abbreviation epochs_loop :=
  (epochs_loop Input Target Output Net Optimizer set_mode forward input_shape_of
     target_shape_of output_shape_of optimizer_step checkpoint_save
     log_training_info).
Local Abbreviation train :=
  (train Input Target Output Net Optimizer set_mode forward input_shape_of
     target_shape_of output_shape_of optimizer_step checkpoint_save
     log_training_info).
Local Abbreviation track := (track Input Target Output).

(** The loop over the metrics keeps the trackers it is not updating. *)
Lemma track_train_keeps_test inputs outputs targets
    (ms ms' : list (metric_entry Input Target Output)) :
  track (update_train Input Target Output) inputs outputs targets ms = Ok ms' ->
  map test_tracker ms' = map test_tracker ms.
Proof.
  revert ms'. induction ms as [| m ms IH]; intros ms' H; cbn [Trainer.track] in H.
  - now injection H as <-.
  - destruct (metric_fn m inputs outputs targets) as [v |]; [| discriminate].
    cbn [rbind] in H.
    destruct (track _ inputs outputs targets ms) as [ms1 |]; [| discriminate].
    cbn [rbind] in H. injection H as <-. cbn. now rewrite (IH ms1).
Qed.

Lemma track_test_keeps_train inputs outputs targets
    (ms ms' : list (metric_entry Input Target Output)) :
  track (update_test Input Target Output) inputs outputs targets ms = Ok ms' ->
  map train_tracker ms' = map train_tracker ms.
Proof.
  revert ms'. induction ms as [| m ms IH]; intros ms' H; cbn [Trainer.track] in H.
  - now injection H as <-.
  - destruct (metric_fn m inputs outputs targets) as [v |]; [| discriminate].
    cbn [rbind] in H.
    destruct (track _ inputs outputs targets ms) as [ms1 |]; [| discriminate].
    cbn [rbind] in H. injection H as <-. cbn. now rewrite (IH ms1).
Qed.

(** The training loop leaves every test tracker as it was. *)
Lemma train_batch_test_trackers self (r r' : run Input Target Output Net Optimizer)
    batch :
  train_batch self r batch = Ok r' ->
  map test_tracker (metrics r') = map test_tracker (metrics r).
Proof.
  unfold Trainer.train_batch. destruct batch as [inputs targets].
  destruct (input_shape_of inputs) as [| batch_size ?]; [discriminate |].
  destruct (negb (shape_ok _ _ _)); [discriminate |].
  destruct (negb (shape_ok _ _ _)); [discriminate |].
  destruct (forward (net r) inputs) as [[net1 outputs] |]; [| discriminate].
  cbn [rbind].
  destruct (negb (shape_ok _ _ _)); [discriminate |].
  destruct (total_loss _ _ _ _ _ _ _ _) as [loss |]; [| discriminate].
  cbn [rbind].
  destruct (optimizer_step _ _ _ _) as [[o n] |]; [| discriminate].
  cbn [rbind].
  destruct (track _ inputs outputs targets (metrics r)) as [ms |] eqn:E;
    [| discriminate].
  cbn [rbind]. intros [= <-]. cbn [metrics].
  eapply track_train_keeps_test, E.
Qed.

Lemma train_loop_test_trackers self batches :
  forall (r r' : run Input Target Output Net Optimizer),
  train_loop self r batches = Ok r' ->
  map test_tracker (metrics r') = map test_tracker (metrics r).
Proof.
  induction batches as [| batch batches IH]; intros r r' H; simpl in H.
  - now injection H as <-.
  - destruct (train_batch self r batch) as [r1 |] eqn:E; [| discriminate].
    simpl in H. rewrite (IH _ _ H). eapply train_batch_test_trackers, E.
Qed.

(** The validation loop leaves every train tracker as it was. *)
Lemma eval_batch_train_trackers (r r' : run Input Target Output Net Optimizer)
    batch :
  eval_batch r batch = Ok r' ->
  map train_tracker (metrics r') = map train_tracker (metrics r).
Proof.
  unfold Trainer.eval_batch. destruct batch as [inputs targets].
  destruct (forward (net r) inputs) as [[net1 outputs] |]; [| discriminate].
  cbn [rbind].
  destruct (track _ inputs outputs targets (metrics r)) as [ms |] eqn:E;
    [| discriminate].
  cbn [rbind]. intros [= <-]. cbn [metrics].
  eapply track_test_keeps_train, E.
Qed.

Lemma eval_loop_train_trackers batches :
  forall r r' : run Input Target Output Net Optimizer,
  eval_loop r batches = Ok r' ->
  map train_tracker (metrics r') = map train_tracker (metrics r).
Proof.
  induction batches as [| batch batches IH]; intros r r' H; simpl in H.
  - now injection H as <-.
  - destruct (eval_batch r batch) as [r1 |] eqn:E; [| discriminate].
    simpl in H. rewrite (IH _ _ H). eapply eval_batch_train_trackers, E.
Qed.

(** The logged dictionary stores the train tracker's value under both keys
    of a metric. *)
Lemma training_info_last (ms : list (metric_entry Input Target Output)) m :
  training_info Input Target Output (ms ++ [m])
    !! ("Validation " +:+ metric_name m) = Some (value (train_tracker m)) /\
  (training_info Input Target Output (ms ++ [m])
    !! ("Training " +:+ metric_name m) = Some (value (train_tracker m))).
Proof.
  unfold training_info. rewrite fold_left_app. simpl. split.
  - apply lookup_insert_eq.
  - rewrite lookup_insert_ne, lookup_insert_eq; [reflexivity |].
    intros H. discriminate H.
Qed.

Lemma get_wandb_name_unset (self : Trainer Input Target Output) :
  wandb_name self = None ->
  get_wandb_name Input Target Output self = Raise (AttributeError "wandb_name").
Proof. intros H. unfold get_wandb_name. now rewrite H. Qed.

Lemma save_checkpoint_unset (self : Trainer Input Target Output)
    (r : run Input Target Output Net Optimizer) to_wandb :
  wandb_name self = None ->
  save_checkpoint Input Target Output Net Optimizer checkpoint_save self r to_wandb
  = Raise (AttributeError "wandb_name").
Proof.
  intros H. unfold save_checkpoint. now rewrite get_wandb_name_unset.
Qed.

(** C4. With checkpoints configured and [setup_wandb] never called, the
    attribute [wandb_name] does not exist and [train] never completes: every
    run ends in an exception.  With no epoch to run, or with a non-zero
    checkpoint interval, the exception is the [AttributeError] raised at the
    first save. *)
Theorem train_without_logger_raises (self : Trainer Input Target Output)
    (net0 : Net) (num_epochs : nat) (optimizer0 : Optimizer)
    (train_loader test_loader : nat -> list (Input * Target)) :
  wandb_name self = None ->
  truthy_string (checkpoint_name self) = true ->
  is_ok (train self net0 num_epochs optimizer0 train_loader test_loader) = false /\
  (num_epochs = 0%nat \/ truthy_int (checkpoint_epochs self) = true ->
   train self net0 num_epochs optimizer0 train_loader test_loader
     = Raise (AttributeError "wandb_name")).
Proof.
  intros Hw Hc. split.
  - unfold Trainer.train.
    destruct (Trainer.epochs_loop _ _ _ _ _ _ _ _ _ _ _ _ _ _ _ _ _ _);
      [| reflexivity].
    cbn [rbind]. rewrite Hc, save_checkpoint_unset by assumption. reflexivity.
  - intros [-> | He].
    + unfold Trainer.train. cbn [seq Trainer.epochs_loop rbind].
      rewrite Hc, save_checkpoint_unset by assumption. reflexivity.
    + destruct num_epochs as [| n].
      * unfold Trainer.train. cbn [seq Trainer.epochs_loop rbind].
        rewrite Hc, save_checkpoint_unset by assumption. reflexivity.
      * unfold Trainer.train. cbn [seq Trainer.epochs_loop].
        unfold train_epoch at 1. rewrite Hc.
        unfold is_checkpoint_epoch, truthy_int in *.
        destruct (checkpoint_epochs self) as [ce |]; [| discriminate].
        rewrite He. simpl Z.of_nat. rewrite Z.mod_0_l by
          (intros ->; discriminate He).
        cbn [andb Z.eqb]. rewrite save_checkpoint_unset by assumption.
        reflexivity.
Qed.

End WithNet.

(** The trainer of [TrainerData] with checkpoints every epoch and no logger:
    the run stops at the first save. *)
Lemma train_without_logger_raises_witness :
  is_ok (run_train with_checkpoints tt 1 tt train_batches test_batches) = false /\
  run_train with_checkpoints tt 1 tt train_batches test_batches
    = Raise (AttributeError "wandb_name").
Proof.
  destruct (train_without_logger_raises Q Q Q unit unit keep_mode
              identity_forward scalar_shape scalar_shape scalar_shape no_step
              save_to log_nothing
              with_checkpoints tt 1 tt train_batches test_batches
              eq_refl eq_refl) as [H1 H2].
  split; [exact H1 | apply H2; right; reflexivity].
Defined.

(** C3. One epoch with one metric, the training batch giving the metric
    value 1 and the validation batch the value 2: the trackers hold 1 and 2,
    and the logged dictionary maps both "Training Loss" and "Validation Loss"
    to 1, the train tracker's value. *)
Theorem validation_entry_logs_train_tracker :
  exists r info,
    run_train with_metric tt 1 tt train_batches test_batches = Ok r /\
    map (fun m => (metric_name m, value (train_tracker m), value (test_tracker m)))
        (metrics r) = [("Loss", Some 1%Q, Some 2%Q)] /\
    events r = [TrainingInfo info false] /\
    info !! "Training Loss" = Some (Some 1%Q) /\
    info !! "Validation Loss" = Some (Some 1%Q).
Proof.
  eexists. eexists. split; [reflexivity |].
  split; [reflexivity |]. split; [reflexivity |].
  split; reflexivity.
Qed.

End TrainerProps.

(** ** Spectral transforms *)
Module SpectralProps.
Import Spectral.

Example ms_to_steps_defaults :
  ms_to_steps WIN_MS = 512%Z /\ ms_to_steps HOP_MS = 256%Z.
Proof. split; reflexivity. Qed.

(** The real part of a complex number is its magnitude exactly when the
    number is a non-negative real. *)
Lemma magnitude_is_re z : re z = magnitude z <-> (0 <= re z /\ im z = 0)%R.
Proof.
  unfold magnitude. split.
  - intros H.
    assert (Hre : (0 <= re z)%R) by (rewrite H; apply sqrt_pos).
    split; [exact Hre |].
    assert (Hsq : (re z * re z + im z * im z = re z * re z)%R).
    { rewrite H at 3 4. rewrite sqrt_sqrt; [reflexivity | nra]. }
    assert (Him : (im z * im z = 0)%R) by lra.
    apply Rmult_integral in Him. tauto.
  - intros [Hre Him]. rewrite Him.
    replace (re z * re z + 0 * 0)%R with (Rsqr (re z)) by (unfold Rsqr; ring).
    now rewrite sqrt_Rsqr.
Qed.

Lemma map_eq_Forall {A B} (f g : A -> B) l :
  map f l = map g l <-> Forall (fun x => f x = g x) l.
Proof.
  induction l as [| x l IH]; simpl.
  - split; [constructor | reflexivity].
  - split.
    + intros [= Hx Hl]. constructor; [assumption | now apply IH].
    + intros H. inversion H; subst. f_equal; [assumption | now apply IH].
Qed.

Lemma channel_is_magnitude (F : frames complex) :
  map (map re) F = map (map magnitude) F <->
  Forall (Forall (fun z => 0 <= re z /\ im z = 0)%R) F.
Proof.
  rewrite map_eq_Forall. apply Forall_iff. intros row.
  rewrite map_eq_Forall. apply Forall_iff. intros z. apply magnitude_is_re.
Qed.

Lemma sequence_map_Ok {A} (l : list A) : sequence (map Ok l) = Ok l.
Proof. induction l as [| x l IH]; simpl; [reflexivity | now rewrite IH]. Qed.

Lemma to_complex_row (row : list complex) :
  broadcast_rows (fun m p => {| re := m; im := p |}) (map re row) (map im row)
  = Ok row.
Proof.
  unfold broadcast_rows, broadcast. rewrite !length_map, Nat.eqb_refl. simpl.
  replace (zip_with _ (map re row) (map im row)) with (map (@Ok complex) row).
  - apply sequence_map_Ok.
  - induction row as [| [r i] row IH]; simpl; [reflexivity | now rewrite IH].
Qed.

Lemma to_complex_parts (F : frames complex) :
  to_complex (map (map re) F) (map (map im) F) = Ok F.
Proof.
  unfold to_complex, broadcast. rewrite !length_map, Nat.eqb_refl. simpl.
  replace (zip_with _ (map (map re) F) (map (map im) F))
    with (map (@Ok (list complex)) F).
  - apply sequence_map_Ok.
  - induction F as [| row F IH]; simpl; [reflexivity |].
    now rewrite to_complex_row, IH.
Qed.

Section Transforms.
Variable stft : list R -> Z -> Z -> Z -> frames complex.
Variable istft : frames complex -> Z -> Z -> Z -> list R.


(** C9. [audio_to_spec] returns two channels: channel 0 holds the real parts
    of the transform and channel 1 the imaginary parts.  Channel 0 is the
    magnitude only for a transform all of whose bins are non-negative reals. *)
Theorem audio_to_spec_channels audio window_ms hop_ms :
  let spectral_frames :=
    stft audio SAMPLING_RATE (ms_to_steps window_ms)
      (ms_to_steps window_ms - ms_to_steps hop_ms) in
  audio_to_spec stft audio window_ms hop_ms
    = [map (map re) spectral_frames; map (map im) spectral_frames] /\
  (nth 0 (audio_to_spec stft audio window_ms hop_ms) []
     = map (map magnitude) spectral_frames <->
   Forall (Forall (fun z => 0 <= re z /\ im z = 0)%R) spectral_frames).
Proof.
  intros F. split; [reflexivity |]. apply channel_is_magnitude.
Qed.
End Transforms.

(** A transform with the bins -1 and i: channel 0 is not the magnitude. *)
Lemma audio_to_spec_channels_witness :
  audio_to_spec two_bins [] WIN_MS HOP_MS = [[[-1]; [0]]; [[0]; [1]]]%R /\
  nth 0 (audio_to_spec two_bins [] WIN_MS HOP_MS) []
    <> map (map magnitude) (two_bins [] 16000 512 256).
Proof.
  destruct (audio_to_spec_channels two_bins [] WIN_MS HOP_MS) as [H1 H2].
  split; [exact H1 |].
  intros H. apply H2 in H.
  inversion H as [| ? ? Hrow _]. inversion Hrow as [| ? ? [Hre _] _].
  simpl in Hre. lra.
Defined.

End SpectralProps.

(** ** The Wave-U-Net *)
Module WaveUNetProps.
Import WaveUNet WaveUNetShapes.
Local Open Scope nat_scope.

Arguments halve : simpl never.

(** *** Sizes of the results of the tensor operations *)

Lemma conv_layer_shape l x :
  rmap shape_of (ConvLayer_forward l x) = conv_shape l (shape_of x).
Proof.
  unfold ConvLayer_forward, conv1d, conv_shape, shape_of.
  destruct (negb (chans x =? in_channels l)); [reflexivity |].
  destruct (len x + 2 * padding l <? kernel_size l); [reflexivity |].
  destruct ((len x =? 0) && negb ((batch x =? 0) || (chans x =? 0)));
    reflexivity.
Qed.

Lemma decimate_shape_of x : shape_of (decimate x) = decimate_shape (shape_of x).
Proof. reflexivity. Qed.

Lemma upsample_shape_of x :
  rmap shape_of (upsample x) = upsample_shape (shape_of x).
Proof.
  unfold upsample, upsample_shape, shape_of.
  destruct ((chans x =? 0) || (len x =? 0)); reflexivity.
Qed.

Lemma cat_shape_of a b :
  rmap shape_of (cat a b) = cat_shape (shape_of a) (shape_of b).
Proof.
  unfold cat, cat_shape, shape_of.
  destruct ((batch a =? batch b) && (len a =? len b)); reflexivity.
Qed.

(** Case analysis on a call whose sizes are known. *)
Lemma rmap_cases {A B} (f : A -> B) (r : result A) (s : result B) :
  rmap f r = s ->
  (exists a, r = Ok a /\ s = Ok (f a)) \/ (exists e, r = Raise e /\ s = Raise e).
Proof. intros <-. destruct r; [left | right]; eauto. Qed.

Ltac step_with lem :=
  let y := fresh "y" in
  let e := fresh "e" in
  let Hr := fresh "Hr" in
  let Hs := fresh "Hs" in
  destruct (rmap_cases _ _ _ lem) as [(y & Hr & Hs) | (e & Hr & Hs)];
  rewrite Hr, Hs; cbn [rbind rmap]; [| reflexivity].

Lemma encode_shape_of es :
  forall x sk,
    rmap (fun r => (shape_of (fst r), map shape_of (snd r))) (encode es x sk)
    = encode_shape es (shape_of x) (map shape_of sk).
Proof.
  induction es as [| e es IH]; intros x sk; cbn [encode encode_shape];
    [reflexivity |].
  step_with (conv_layer_shape e x).
  rewrite IH, map_app. reflexivity.
Qed.

Lemma decode_shape_of ds :
  forall idx sk x,
    rmap shape_of (decode ds idx sk x)
    = decode_shape ds idx (map shape_of sk) (shape_of x).
Proof.
  induction ds as [| d ds IH]; intros idx sk x; cbn [decode decode_shape];
    [reflexivity |].
  step_with (upsample_shape_of x).
  rewrite nth_error_map.
  destruct (nth_error sk idx) as [skip |]; cbn [rbind rmap option_map];
    [| reflexivity].
  step_with (cat_shape_of y skip).
  step_with (conv_layer_shape d y0).
  apply IH.
Qed.

(** [forward] computes sizes as [forward_shape] does, and raises the same
    exceptions. *)
Lemma forward_shape_of net x :
  rmap shape_of (WaveUNet_forward net x) = forward_shape net (shape_of x).
Proof.
  unfold WaveUNet_forward, forward_shape.
  pose proof (encode_shape_of (encoders net) x []) as He.
  change (map shape_of []) with (@nil shape) in He.
  step_with He. clear He. cbn [fst snd].
  step_with (conv_layer_shape (middle net) (fst y)).
  pose proof (decode_shape_of (decoders net) 0 (rev (snd y)) y0) as Hd.
  rewrite map_rev in Hd.
  step_with Hd. clear Hd.
  step_with (cat_shape_of y1 x).
  apply conv_layer_shape.
Qed.

(** *** Lengths along the encoder and the decoder *)

Lemma halve_pos n : 1 <= n -> 1 <= halve n.
Proof.
  intros H. unfold halve.
  change (2 / 2 <= (n + 1) / 2). apply Nat.Div0.div_le_mono. lia.
Qed.

Lemma halve_double m : halve (2 * m) = m.
Proof.
  unfold halve. replace (2 * m + 1) with (1 + m * 2) by lia.
  rewrite Nat.div_add by discriminate. reflexivity.
Qed.

Lemma halve_double_succ m : halve (2 * m + 1) = S m.
Proof.
  unfold halve. replace (2 * m + 1 + 1) with (0 + (S m) * 2) by lia.
  rewrite Nat.div_add by discriminate. reflexivity.
Qed.

(** Upsampling restores the length of the skip connection exactly when that
    length is even. *)
Lemma double_halve_even x : (2 * halve x =? x) = Nat.even x.
Proof.
  destruct (Nat.Even_or_Odd x) as [[m ->] | [m ->]].
  - rewrite halve_double, Nat.eqb_refl. symmetry. apply Nat.even_spec. now exists m.
  - rewrite halve_double_succ.
    replace (Nat.even (2 * m + 1)) with false.
    + apply Nat.eqb_neq. lia.
    + symmetry. rewrite <- Nat.negb_odd. apply negb_false_iff.
      apply Nat.odd_spec. now exists m.
Qed.

Lemma skip_lens_succ d n : skip_lens (S d) n = n :: skip_lens d (halve n).
Proof.
  unfold skip_lens. cbn [seq map Nat.iter]. f_equal.
  rewrite <- seq_shift, map_map. apply map_ext. intros i.
  apply Nat.iter_succ_r.
Qed.

Lemma skip_lens_snoc d n :
  skip_lens (S d) n = skip_lens d n ++ [Nat.iter d halve n].
Proof. unfold skip_lens. rewrite seq_S, map_app. reflexivity. Qed.

Lemma skip_lens_length d n : List.length (skip_lens d n) = d.
Proof. unfold skip_lens. now rewrite length_map, length_seq. Qed.

Lemma dec_len_skip_lens d n :
  dec_len (Nat.iter d halve n) (rev (skip_lens d n))
  = if forallb Nat.even (skip_lens d n) then Some n else None.
Proof.
  induction d as [| d IH]; [reflexivity |].
  rewrite skip_lens_snoc, rev_unit, forallb_app.
  change (Nat.iter (S d) halve n) with (halve (Nat.iter d halve n)).
  cbn [dec_len forallb].
  rewrite double_halve_even, IH, andb_true_r.
  destruct (Nat.even (Nat.iter d halve n)), (forallb Nat.even (skip_lens d n));
    reflexivity.
Qed.

(** Every skip connection has even length exactly when the input length is a
    multiple of [2 ^ depth]. *)
Lemma all_even_divide d :
  forall n, forallb Nat.even (skip_lens d n) = true <-> Nat.divide (2 ^ d) n.
Proof.
  induction d as [| d IH]; intros n.
  - split; [intros _; exists n; simpl; lia | reflexivity].
  - rewrite skip_lens_succ. cbn [forallb]. rewrite andb_true_iff, IH, Nat.even_spec.
    split.
    + intros [[m ->] [q Hq]]. rewrite halve_double in Hq. subst m.
      exists q. rewrite Nat.pow_succ_r'. lia.
    + intros [q ->]. rewrite Nat.pow_succ_r'. split.
      * exists (q * 2 ^ d). lia.
      * replace (q * (2 * 2 ^ d)) with (2 * (q * 2 ^ d)) by lia.
        rewrite halve_double. now exists q.
Qed.

(** *** The loops on sizes *)

Lemma conv_shape_same l b c n :
  same_padding l = true -> c = in_channels l -> 1 <= n ->
  conv_shape l (b, c, n) = Ok (b, out_channels l, n).
Proof.
  unfold same_padding, conv_shape. intros Hk -> Hn.
  apply Nat.eqb_eq in Hk. rewrite Nat.eqb_refl. cbn [negb].
  destruct (Nat.ltb_spec (n + 2 * padding l) (kernel_size l)); [lia |].
  destruct (Nat.eqb_spec n 0); [lia |]. cbn [andb].
  do 2 f_equal. lia.
Qed.

(** A layer with 'same' padding never changes the length. *)
Lemma conv_shape_preserves_length l b c n b' c' n' :
  same_padding l = true ->
  conv_shape l (b, c, n) = Ok (b', c', n') -> n' = n.
Proof.
  unfold same_padding, conv_shape. intros Hk. apply Nat.eqb_eq in Hk.
  destruct (negb (c =? in_channels l)); [discriminate |].
  destruct (Nat.ltb_spec (n + 2 * padding l) (kernel_size l)); [discriminate |].
  destruct ((n =? 0) && negb ((b =? 0) || (c =? 0))); [discriminate |].
  intros [= _ _ <-]. lia.
Qed.

Lemma last_channels_cons c l ls :
  last_channels c (l :: ls) = last_channels (out_channels l) ls.
Proof. reflexivity. Qed.

Lemma encode_shape_chain es :
  forall b c n sk,
    enc_chain c es = true -> 1 <= n ->
    encode_shape es (b, c, n) sk
    = Ok ((b, last_channels c es, Nat.iter (List.length es) halve n),
          sk ++ skip_shapes b es (skip_lens (List.length es) n)).
Proof.
  induction es as [| e es IH]; intros b c n sk Hc Hn.
  - cbn. now rewrite app_nil_r.
  - cbn [enc_chain] in Hc. apply andb_true_iff in Hc as [Hc Hes].
    apply andb_true_iff in Hc as [Hin Hpad]. apply Nat.eqb_eq in Hin.
    cbn [encode_shape length]. rewrite conv_shape_same by assumption.
    cbn [rbind decimate_shape].
    rewrite IH by (try assumption; now apply halve_pos).
    rewrite last_channels_cons, skip_lens_succ, Nat.iter_succ_r.
    unfold skip_shapes. cbn [combine map fst snd]. now rewrite <- app_assoc.
Qed.

Lemma skipn_head {A} (l : list A) :
  forall idx x rest,
    skipn idx l = x :: rest ->
    nth_error l idx = Some x /\ skipn (S idx) l = rest.
Proof.
  induction l as [| y l IH]; intros [| idx] x rest H; simpl in *;
    try discriminate.
  - injection H as -> ->. split; reflexivity.
  - apply IH, H.
Qed.

(** The decoding loop, when the channel counts fit: it succeeds exactly when
    each skip connection is twice as long as the activations reaching it, and
    raises the size mismatch of [torch.cat] otherwise. *)
Lemma decode_shape_closed ds :
  forall idx (sk : list shape) b c a,
    1 <= a ->
    Forall (fun s : shape => fst (fst s) = b) sk ->
    dec_chain c ds (map (fun s : shape => snd (fst s)) (skipn idx sk)) = true ->
    decode_shape ds idx sk (b, c, a)
    = match dec_len a (firstn (List.length ds) (map snd (skipn idx sk))) with
      | Some n => Ok (b, last_channels c ds, n)
      | None => Raise size_mismatch
      end.
Proof.
  induction ds as [| d ds IH]; intros idx sk b c a Ha Hb Hc; [reflexivity |].
  destruct (skipn idx sk) as [| [[b' k] s] rest] eqn:E; [discriminate Hc |].
  destruct (skipn_head sk idx _ _ E) as [Hnth Hrest].
  assert (b' = b) as ->.
  { apply nth_error_In in Hnth.
    apply (proj1 (List.Forall_forall _ _) Hb) in Hnth. exact Hnth. }
  cbn [map fst snd dec_chain] in Hc.
  apply andb_true_iff in Hc as [Hc Hds]. apply andb_true_iff in Hc as [Hc Hc0].
  apply andb_true_iff in Hc as [Hin Hpad].
  apply Nat.eqb_eq in Hin. apply negb_true_iff in Hc0.
  cbn [decode_shape upsample_shape length firstn map snd dec_len].
  rewrite Hc0. destruct (Nat.eqb_spec a 0) as [-> | _]; [lia |].
  cbn [orb rbind]. rewrite Hnth. cbn [rbind cat_shape].
  rewrite Nat.eqb_refl. cbn [andb].
  destruct (Nat.eqb_spec (2 * a) s) as [<- | _]; [| reflexivity].
  cbn [rbind]. rewrite conv_shape_same by (try assumption; lia).
  cbn [rbind]. rewrite IH; [| lia | assumption | now rewrite Hrest].
  rewrite Hrest, last_channels_cons. reflexivity.
Qed.

Lemma skip_shapes_lens b es lens :
  List.length es = List.length lens -> map snd (skip_shapes b es lens) = lens.
Proof.
  unfold skip_shapes. revert lens.
  induction es as [| e es IH]; intros [| n lens] H; simpl in *;
    try discriminate; [reflexivity |].
  f_equal. apply IH. congruence.
Qed.

Lemma skip_shapes_channels b es lens :
  List.length es = List.length lens ->
  map (fun s : shape => snd (fst s)) (skip_shapes b es lens) = map out_channels es.
Proof.
  unfold skip_shapes. revert lens.
  induction es as [| e es IH]; intros [| n lens] H; simpl in *;
    try discriminate; [reflexivity |].
  f_equal. apply IH. congruence.
Qed.

Lemma skip_shapes_batch b es lens :
  Forall (fun s : shape => fst (fst s) = b) (skip_shapes b es lens).
Proof.
  unfold skip_shapes. apply Forall_map. apply List.Forall_forall. reflexivity.
Qed.

Lemma iter_halve_pos d n : 1 <= n -> 1 <= Nat.iter d halve n.
Proof.
  intros H. induction d as [| d IH]; [exact H |].
  change (Nat.iter (S d) halve n) with (halve (Nat.iter d halve n)).
  now apply halve_pos.
Qed.

(** The sizes computed by an encoder-decoder of any depth whose channel
    counts fit: for a non-empty input the result has the length of the input
    if every skip connection has even length, and [torch.cat] raises
    otherwise. *)
Lemma forward_shape_unet net b n :
  1 <= n ->
  enc_chain 1 (encoders net) = true ->
  same_padding (middle net) = true ->
  last_channels 1 (encoders net) = in_channels (middle net) ->
  dec_chain (out_channels (middle net)) (decoders net)
    (rev (map out_channels (encoders net))) = true ->
  List.length (encoders net) <= List.length (decoders net) ->
  same_padding (output net) = true ->
  last_channels (out_channels (middle net)) (decoders net) + 1
    = in_channels (output net) ->
  forward_shape net (b, 1, n)
  = if forallb Nat.even (skip_lens (List.length (encoders net)) n)
    then Ok (b, out_channels (output net), n)
    else Raise size_mismatch.
Proof.
  intros Hn Henc Hmid Hmidc Hdec Hlen Hout Houtc.
  set (d := List.length (encoders net)) in *.
  assert (Hd : List.length (encoders net) = List.length (skip_lens d n))
    by now rewrite skip_lens_length.
  unfold forward_shape.
  rewrite encode_shape_chain by assumption.
  cbn [rbind fst snd app]. fold d.
  rewrite conv_shape_same by (try assumption; now apply iter_halve_pos).
  cbn [rbind].
  rewrite decode_shape_closed.
  - rewrite skipn_O, map_rev, skip_shapes_lens by assumption.
    rewrite firstn_all2 by (rewrite length_rev, skip_lens_length; exact Hlen).
    rewrite dec_len_skip_lens.
    destruct (forallb Nat.even (skip_lens d n)); [| reflexivity].
    cbn [rbind cat_shape]. rewrite !Nat.eqb_refl. cbn [andb rbind].
    now apply conv_shape_same.
  - now apply iter_halve_pos.
  - apply Forall_rev, skip_shapes_batch.
  - rewrite skipn_O, map_rev, skip_shapes_channels by assumption. exact Hdec.
Qed.

(** The sizes computed by the network of [WaveUNet.__init__] for a
    single-channel input. *)
Lemma forward_shape_wave theta b n :
  forward_shape (WaveUNet_init theta) (b, 1, n)
  = if n =? 0 then Raise kernel_too_large
    else if forallb Nat.even (skip_lens NUM_ENCODER_LAYERS n) then Ok (b, 1, n)
    else Raise size_mismatch.
Proof.
  destruct n as [| n]; [reflexivity |].
  cbn [Nat.eqb].
  apply (forward_shape_unet (WaveUNet_init theta) b (S n));
    solve [lia | reflexivity | cbn; lia].
Qed.

(** *** The output nonlinearity *)

Lemma tanh_bounds x : (-1 < tanh x < 1)%R.
Proof.
  unfold tanh, sinh, cosh.
  pose proof (exp_pos x) as Hu. pose proof (exp_pos (- x)) as Hv.
  set (u := exp x) in *. set (v := exp (- x)) in *.
  replace ((u - v) / 2 / ((u + v) / 2))%R with ((u - v) * / (u + v))%R
    by (field; lra).
  assert (Ht : (0 < / (u + v))%R) by (apply Rinv_0_lt_compat; lra).
  assert (H1 : (/ (u + v) * (u + v) = 1)%R) by (field; lra).
  pose proof (Rmult_lt_0_compat _ _ Ht Hu).
  pose proof (Rmult_lt_0_compat _ _ Ht Hv).
  split; nra.
Qed.

(** Whatever [forward] returns has gone through the nonlinearity of the
    output layer. *)
Lemma forward_output_activation net x out :
  WaveUNet_forward net x = Ok out ->
  exists acts, out = activate (nonlinearity (output net)) acts.
Proof.
  unfold WaveUNet_forward.
  destruct (encode (encoders net) x []) as [encoded |]; [| discriminate].
  cbn [rbind].
  destruct (ConvLayer_forward (middle net) (fst encoded)) as [m |];
    [| discriminate].
  cbn [rbind].
  destruct (decode (decoders net) 0 (rev (snd encoded)) m) as [dec |];
    [| discriminate].
  cbn [rbind].
  destruct (cat dec x) as [c |]; [| discriminate].
  cbn [rbind]. unfold ConvLayer_forward.
  destruct (conv1d _ _ _ _ _ _ c) as [acts |]; [| discriminate].
  cbn [rbind]. intros [= <-]. now exists acts.
Qed.

Lemma forward_result_shape net x s :
  forward_shape net (shape_of x) = Ok s ->
  exists out, WaveUNet_forward net x = Ok out /\ shape_of out = s.
Proof.
  intros H.
  destruct (rmap_cases _ _ _ (forward_shape_of net x))
    as [(out & Hr & Hs) | (e & Hr & Hs)]; rewrite H in Hs.
  - injection Hs as ->. now exists out.
  - discriminate.
Qed.

Lemma forward_result_raise net x e :
  forward_shape net (shape_of x) = Raise e -> WaveUNet_forward net x = Raise e.
Proof.
  intros H.
  destruct (rmap_cases _ _ _ (forward_shape_of net x))
    as [(out & Hr & Hs) | (e' & Hr & Hs)]; rewrite H in Hs.
  - discriminate.
  - injection Hs as ->. exact Hr.
Qed.

Lemma shape_of_single x : chans x = 1 -> shape_of x = (batch x, 1, len x).
Proof. intros H. unfold shape_of. now rewrite H. Qed.

Lemma multiple_all_even n :
  forallb Nat.even (skip_lens NUM_ENCODER_LAYERS n) = true
  <-> Nat.divide (2 ^ NUM_ENCODER_LAYERS) n.
Proof. apply all_even_divide. Qed.



(** An empty waveform: the padded input of the first encoder has 14 samples,
    fewer than the kernel, and the convolution raises. *)
Lemma forward_empty_raises theta b :
  WaveUNet_forward (WaveUNet_init theta) (zeros b 1 0) = Raise kernel_too_large.
Proof. apply forward_result_raise. reflexivity. Qed.


Lemma conv_layer_preserves_length l x out :
  same_padding l = true -> ConvLayer_forward l x = Ok out -> len out = len x.
Proof.
  intros Hpad Hf.
  pose proof (conv_layer_shape l x) as Hs. rewrite Hf in Hs. cbn [rmap] in Hs.
  unfold shape_of in Hs. symmetry in Hs.
  apply (conv_shape_preserves_length _ _ _ _ _ _ _ Hpad Hs).
Qed.

(** A layer with 'same' padding returns for every non-empty input with the
    channels it expects, and keeps the length. *)
Lemma conv_layer_same_returns l x :
  same_padding l = true -> chans x = in_channels l -> 0 < len x ->
  exists out, ConvLayer_forward l x = Ok out /\ len out = len x.
Proof.
  intros Hpad Hc Hn.
  pose proof (conv_layer_shape l x) as Hs. unfold shape_of in Hs.
  rewrite (conv_shape_same l (batch x) (chans x) (len x) Hpad Hc) in Hs by lia.
  destruct (ConvLayer_forward l x) as [out |]; [| discriminate].
  exists out. split; [reflexivity |].
  cbn [rmap] in Hs. unfold shape_of in Hs. now injection Hs.
Qed.

Lemma wave_layers_same_padding theta :
  forallb same_padding (layers (WaveUNet_init theta)) = true.
Proof. reflexivity. Qed.

(** The first convolutional stage of [forward] on an empty waveform: the
    padded input has 14 samples, the kernel 15. *)
Lemma first_stage_empty_raises theta b encoder :
  hd_error (encoders (WaveUNet_init theta)) = Some encoder ->
  ConvLayer_forward encoder (zeros b 1 0) = Raise kernel_too_large.
Proof. intros [= <-]. reflexivity. Qed.

(** C5 as stated fails for the length 0, a multiple of [2 ^ 12]: the first
    convolutional stage does not return the length it is given, it raises. *)
Lemma first_stage_empty_counterexample :
  ~ (forall theta input_t encoder,
       chans input_t = 1 ->
       Nat.divide (2 ^ NUM_ENCODER_LAYERS) (len input_t) ->
       hd_error (encoders (WaveUNet_init theta)) = Some encoder ->
       exists acts,
         ConvLayer_forward encoder input_t = Ok acts /\ len acts = len input_t).
Proof.
  intros H.
  destruct (H (fun _ => zero_params) (zeros 1 1 0) _ eq_refl
              (ex_intro _ 0 eq_refl) eq_refl) as (acts & Hacts & _).
  rewrite (first_stage_empty_raises (fun _ => zero_params) 1 _ eq_refl) in Hacts.
  discriminate.
Qed.

(** C5 (amended). For a single-channel input whose length is not a multiple
    of [2 ^ 12], [forward] raises the size mismatch of [torch.cat].  For a
    multiple it never raises it, and for a positive multiple it returns.
    Every convolutional layer of the network has 'same' padding
    ([kernel = 2 * padding + 1]): on every non-empty input with the channels
    it expects the layer returns, with the length it is given. *)
Theorem forward_size_mismatch theta (input_t : tensor) :
  chans input_t = 1 ->
  (~ Nat.divide (2 ^ NUM_ENCODER_LAYERS) (len input_t) ->
   WaveUNet_forward (WaveUNet_init theta) input_t = Raise size_mismatch) /\
  (Nat.divide (2 ^ NUM_ENCODER_LAYERS) (len input_t) ->
   WaveUNet_forward (WaveUNet_init theta) input_t <> Raise size_mismatch /\
   (0 < len input_t ->
    is_ok (WaveUNet_forward (WaveUNet_init theta) input_t) = true)) /\
  Forall (fun l => padding l = kernel_size l / 2 /\
                   same_padding l = true /\
                   (forall x out, ConvLayer_forward l x = Ok out -> len out = len x) /\
                   (forall x, chans x = in_channels l -> 0 < len x ->
                      exists out, ConvLayer_forward l x = Ok out /\ len out = len x))
    (layers (WaveUNet_init theta)).
Proof.
  intros Hc. split; [| split].
  - intros Hnd. apply forward_result_raise.
    rewrite shape_of_single, forward_shape_wave by assumption.
    destruct (Nat.eqb_spec (len input_t) 0) as [E | _].
    + exfalso. apply Hnd. rewrite E. exists 0. reflexivity.
    + destruct (forallb Nat.even (skip_lens NUM_ENCODER_LAYERS (len input_t)))
        eqn:E; [| reflexivity].
      exfalso. apply Hnd. now apply multiple_all_even.
  - intros Hdiv.
    pose proof (forward_shape_wave theta (batch input_t) (len input_t)) as Hs.
    rewrite <- shape_of_single in Hs by assumption.
    rewrite (proj2 (multiple_all_even _) Hdiv) in Hs.
    destruct (Nat.eqb_spec (len input_t) 0) as [E | E].
    + split; [| lia]. rewrite (forward_result_raise _ _ _ Hs). discriminate.
    + destruct (forward_result_shape _ _ _ Hs) as (out & -> & _).
      split; [discriminate | reflexivity].
  - apply List.Forall_forall. intros l Hl.
    assert (Hpad : same_padding l = true).
    { pose proof (wave_layers_same_padding theta) as H.
      rewrite forallb_forall in H. now apply H. }
    split; [| split; [exact Hpad | split]].
    + unfold layers in Hl. cbn in Hl.
      repeat (destruct Hl as [<- | Hl]; [reflexivity |]). contradiction.
    + intros x out. now apply conv_layer_preserves_length.
    + intros x. now apply conv_layer_same_returns.
Qed.

(** A waveform of 4097 samples raises; one of 4096 samples does not. *)
Lemma forward_size_mismatch_witness :
  WaveUNet_forward (WaveUNet_init (fun _ => zero_params)) (zeros 1 1 (2 ^ 12 + 1))
    = Raise size_mismatch /\
  is_ok (WaveUNet_forward (WaveUNet_init (fun _ => zero_params))
           (zeros 1 1 (2 ^ 12))) = true.
Proof.
  split.
  - apply (proj1 (forward_size_mismatch (fun _ => zero_params)
                    (zeros 1 1 (2 ^ 12 + 1)) eq_refl)).
    intros H. apply multiple_all_even in H. vm_compute in H. discriminate.
  - apply (proj1 (proj2 (forward_size_mismatch (fun _ => zero_params)
                           (zeros 1 1 (2 ^ 12)) eq_refl))).
    + exists 1. reflexivity.
    + apply Nat.ltb_lt. reflexivity.
Defined.

End WaveUNetProps.

(** * Further properties *)

(** ** Strings *)
Section StringFacts.

Lemma substring_all (t : string) : substring 0 (String.length t) t = t.
Proof. induction t as [| c t IH]; simpl; [reflexivity | now rewrite IH]. Qed.

Lemma substring_append (p t : string) :
  substring (String.length p) (String.length t) (p +:+ t) = t.
Proof. induction p as [| c p IH]; simpl; [apply substring_all | exact IH]. Qed.

Lemma length_append (p t : string) :
  String.length (p +:+ t) = (String.length p + String.length t)%nat.
Proof. induction p as [| c p IH]; simpl; [reflexivity | now rewrite IH]. Qed.

Lemma append_assoc (a b c : string) : (a +:+ b) +:+ c = a +:+ (b +:+ c).
Proof.
  induction a as [| x a IH]; [reflexivity |].
  change (String x ((a +:+ b) +:+ c) = String x (a +:+ (b +:+ c))).
  now rewrite IH.
Qed.

(** The last [length t] characters of [p +:+ t]. *)
Lemma substring_suffix (p t : string) :
  substring (String.length (p +:+ t) - String.length t) (String.length t) (p +:+ t)
  = t.
Proof.
  rewrite length_append.
  replace (String.length p + String.length t - String.length t)%nat
    with (String.length p) by lia.
  apply substring_append.
Qed.

Lemma endswith_append (p suffix : string) : endswith (p +:+ suffix) suffix = true.
Proof.
  unfold endswith. rewrite substring_suffix, String.eqb_refl.
  rewrite length_append.
  destruct (Nat.leb_spec (String.length suffix)
              (String.length p + String.length suffix)); [reflexivity | lia].
Qed.

Lemma substring_split (s : string) :
  forall k, (k <= String.length s)%nat ->
  s = substring 0 k s +:+ substring k (String.length s - k) s.
Proof.
  induction s as [| c s IH]; intros [| k] H; simpl in *; try lia.
  - reflexivity.
  - now rewrite substring_all.
  - change (String c s
            = String c (substring 0 k s +:+ substring k (String.length s - k) s)).
    f_equal. apply IH. lia.
Qed.

Lemma endswith_inv (s suffix : string) :
  endswith s suffix = true -> exists p, s = p +:+ suffix.
Proof.
  unfold endswith.
  destruct (Nat.leb_spec (String.length suffix) (String.length s)) as [H |];
    [| discriminate].
  intros E. apply String.eqb_eq in E.
  exists (substring 0 (String.length s - String.length suffix) s).
  pose proof (substring_split s (String.length s - String.length suffix)
                ltac:(lia)) as Hs.
  replace (String.length s - (String.length s - String.length suffix))%nat
    with (String.length suffix) in Hs by lia.
  now rewrite E in Hs.
Qed.

(** Two ways of splitting a string with tails of the same length agree on
    the tails. *)
Lemma append_same_tail (p q t u : string) :
  String.length t = String.length u -> p +:+ t = q +:+ u -> t = u.
Proof.
  intros Hlen H.
  rewrite <- (substring_suffix p t), <- (substring_suffix q u), Hlen.
  now rewrite H.
Qed.
End StringFacts.

(** ** Saving and loading checkpoints *)
Module CheckpointSaveProps.
Import Checkpoint CheckpointSave.

Lemma string_of_uint_last d :
  d <> Decimal.Nil ->
  exists s c, NilEmpty.string_of_uint d = s +:+ String c "" /\ is_digit c = true.
Proof.
  induction d as [| d IH | d IH | d IH | d IH | d IH | d IH | d IH | d IH
                  | d IH | d IH]; intros Hd; [contradiction | ..];
    (destruct (Decimal.uint_eq_dec d Decimal.Nil) as [-> | Hn];
     [ eexists "", _; split; [reflexivity | reflexivity]
     | destruct (IH Hn) as (s & c & Hs & Hc); simpl; rewrite Hs;
       eexists (String _ s), c; split; [reflexivity | exact Hc] ]).
Qed.

(** A printed integer ends in a decimal digit. *)
Lemma show_int_last n :
  exists s c, show_int n = s +:+ String c "" /\ is_digit c = true.
Proof.
  unfold show_int. destruct n as [| p | p]; simpl.
  - now exists "", "0"%char.
  - apply string_of_uint_last, Unsigned.to_uint_nonnil.
  - destruct (string_of_uint_last (Pos.to_uint p) (Unsigned.to_uint_nonnil p))
      as (s & c & Hs & Hc).
    rewrite Hs. now exists (String "-" s), c.
Qed.

(** The file name [get_checkpoint_filename] builds is some text followed by
    the time stamp, a dot and the suffix. *)
Lemma checkpoint_filename_shape prefix name suffix now :
  exists stem,
    get_checkpoint_filename show_int prefix name suffix now
    = stem +:+ show_int now +:+ "." +:+ suffix.
Proof.
  unfold get_checkpoint_filename. destruct name as [n |].
  - destruct (String.eqb n "").
    + exists (prefix +:+ "-"). now rewrite !append_assoc.
    + exists (prefix +:+ "-" +:+ n +:+ "-"). now rewrite !append_assoc.
  - exists (prefix +:+ "-"). now rewrite !append_assoc.
Qed.

Lemma full_filename_endswith prefix name now :
  endswith (get_checkpoint_filename show_int prefix name "full.ckpt" now)
    "full.ckpt" = true.
Proof.
  destruct (checkpoint_filename_shape prefix name "full.ckpt" now) as (stem & ->).
  rewrite <- !append_assoc. apply endswith_append.
Qed.

(** A parameter-mapping file name never ends in "full.ckpt": the character
    before ".ckpt" is the last digit of the time stamp. *)
Lemma state_dict_filename_endswith prefix name now :
  endswith (get_checkpoint_filename show_int prefix name "ckpt" now)
    "full.ckpt" = false.
Proof.
  destruct (endswith _ "full.ckpt") eqn:E; [| reflexivity]. exfalso.
  apply endswith_inv in E as (p & Hp).
  destruct (checkpoint_filename_shape prefix name "ckpt" now) as (stem & Hs).
  destruct (show_int_last now) as (s & c & Hn & Hc).
  rewrite Hs, Hn in Hp.
  assert (H : String c ".ckpt" = "l.ckpt").
  { apply (append_same_tail (stem +:+ s) (p +:+ "ful")); [reflexivity |].
    rewrite !append_assoc. rewrite append_assoc in Hp. exact Hp. }
  injection H as ->. discriminate Hc.
Qed.

Section RoundTrip.
Variable Model : Type.
Variable StateDict : Type.
Variable state_dict : Model -> StateDict.
Variable load_state_dict : Model -> StateDict -> result Model.
Variable to_device : device -> Model -> Model.
Variable truthy : Model -> bool.

(** X1. A model written by [save] is read back by [load] from the file name
    [save] chose: the name ends in "full.ckpt", no [net] argument is needed,
    exactly the returned path is opened, and the model comes back placed on
    the requested device. *)
Theorem load_after_save (fs : filesystem Model StateDict) (m : Model)
    (prefix : string) (name : option string) (use_wandb : bool) (now : Z)
    (net : option Model) (use_cuda : bool) :
  let s := save Model StateDict fs m prefix name use_wandb now in
  load Model StateDict load_state_dict to_device truthy (files s)
    (get_checkpoint_filename show_int prefix name "full.ckpt" now) net use_cuda
  = ([returned s], Ok (to_device (if use_cuda then Cuda else Cpu) m)).
Proof.
  intros s. unfold Checkpoint.load. rewrite full_filename_endswith.
  unfold torch_load. subst s. cbn [files save returned].
  unfold filesystem in *. rewrite lookup_insert_eq. simpl. now destruct use_cuda.
Qed.

(** X2. A parameter mapping written by [save_state_dict] is never taken for a
    full model: [load] of its file name raises the assertion, before any file
    is opened, when no [net] is given or the [net] given has the truth value
    false; with any other [net] it loads the saved parameters into [net]. *)
Theorem load_after_save_state_dict (fs : filesystem Model StateDict) (m : Model)
    (prefix : string) (name : option string) (use_wandb : bool) (now : Z)
    (use_cuda : bool) :
  let s := save_state_dict Model StateDict state_dict fs m prefix name use_wandb now in
  let filename := get_checkpoint_filename show_int prefix name "ckpt" now in
  let required :=
    AssertionError "A model is required for loading a state dict checkpoint." in
  load Model StateDict load_state_dict to_device truthy (files s) filename None
    use_cuda = ([], Raise required) /\
  forall net,
    load Model StateDict load_state_dict to_device truthy (files s) filename
      (Some net) use_cuda
    = if truthy net then
        ([returned s],
         let* net' := load_state_dict net (state_dict m) in
         Ok (to_device (if use_cuda then Cuda else Cpu) net'))
      else ([], Raise required).
Proof.
  intros s filename required. unfold Checkpoint.load. subst filename.
  rewrite state_dict_filename_endswith. split; [reflexivity |].
  intros net. destruct (truthy net); [| reflexivity]. cbn [negb].
  unfold torch_load. subst s. cbn [files save_state_dict returned].
  unfold filesystem in *. rewrite lookup_insert_eq. simpl.
  destruct (load_state_dict net (state_dict m)); simpl; [| reflexivity].
  now destruct use_cuda.
Qed.
End RoundTrip.

End CheckpointSaveProps.

(** ** Noisy LibriSpeech: loading and chunking *)
Module LibrispeechMoreProps.
Import Librispeech LibrispeechData LibrispeechFiles LibrispeechProps.

Lemma py_slice_inside {A} (l : list A) (start stop : Z) :
  (0 <= start <= stop)%Z -> (stop <= Z.of_nat (length l))%Z ->
  l = firstn (Z.to_nat start) l ++ py_slice l start stop
      ++ skipn (Z.to_nat stop) l.
Proof.
  intros H1 H2. unfold py_slice, slice_bound.
  destruct (Z.ltb_spec start 0), (Z.ltb_spec stop 0); try lia.
  rewrite !Z.min_l by lia.
  rewrite <- (firstn_skipn (Z.to_nat start) l) at 1. f_equal.
  rewrite <- (firstn_skipn (Z.to_nat (stop - start)) (skipn (Z.to_nat start) l))
    at 1.
  f_equal. rewrite skipn_skipn. f_equal. lia.
Qed.

(** X3. A chunk drawn at an offset that leaves room for it is the part of the
    recording that starts at the offset: the recording is some prefix of
    [chunk_start] samples, the chunk of [chunk_width] samples, and a rest. *)
Theorem chunk_is_contiguous (tensor : tensor1) (chunk_width chunk_start : Z) :
  (0 <= chunk_width < nelement tensor)%Z ->
  (0 <= chunk_start <= nelement tensor - chunk_width)%Z ->
  exists chunk before after,
    subsample_chunk_random tensor chunk_width chunk_start = Ok chunk /\
    tensor = before ++ chunk ++ after /\
    nelement before = chunk_start /\
    nelement chunk = chunk_width.
Proof.
  intros Hw Hs.
  destruct (subsample_chunk_random_full tensor chunk_width chunk_start Hw Hs)
    as (chunk & Hc & Hn).
  exists chunk, (firstn (Z.to_nat chunk_start) tensor),
    (skipn (Z.to_nat (chunk_start + chunk_width)) tensor).
  split; [exact Hc |]. split; [| split; [| exact Hn]].
  - unfold subsample_chunk_random in Hc.
    destruct (chunk_width <? nelement tensor)%Z; [| discriminate].
    injection Hc as <-. apply py_slice_inside; unfold nelement in *; lia.
  - unfold nelement in *. rewrite length_firstn. lia.
Qed.

Lemma chunk_is_contiguous_witness :
  exists chunk before after,
    subsample_chunk_random (silence 10) 4 3 = Ok chunk /\
    silence 10 = before ++ chunk ++ after /\
    nelement before = 3%Z /\
    nelement chunk = 4%Z.
Proof.
  apply chunk_is_contiguous; rewrite nelement_silence by lia; lia.
Defined.

(** The clean loop succeeds exactly when every file that passes the length
    check has the sample rate 16000 and the type float32; a file that is too
    short is skipped without being checked. *)
Lemma load_clean_ok_iff files :
  forall acc,
    is_ok (load_clean files acc) = true <->
    Forall (fun f => long_enough f = true -> well_formed f = true) files.
Proof.
  induction files as [| f files IH]; intros acc; cbn [load_clean].
  - split; [constructor | reflexivity].
  - rewrite Forall_cons_iff. unfold long_enough, well_formed in *.
    destruct (nelement2 (channels f) <? AUDIO_LENGTH)%Z; cbn [negb].
    + rewrite IH.
      split; [intros H; split; [discriminate | exact H] | intros [_ H]; exact H].
    + destruct (sample_rate f =? 16000)%Z; cbn [negb andb].
      * destruct (dtype_eqb (tensor_dtype f) float32); cbn [negb].
        -- rewrite IH.
           split; [intros H; split; [reflexivity | exact H] | intros [_ H]; exact H].
        -- split; [discriminate | intros [H _]; discriminate (H eq_refl)].
      * split; [discriminate | intros [H _]; discriminate (H eq_refl)].
Qed.

Lemma load_noise_all_short files :
  forall acc,
    Forall (fun f => long_enough f = false) files -> load_noise files acc = Ok acc.
Proof.
  induction files as [| f files IH]; intros acc H; [reflexivity |].
  inversion H as [| ? ? Hf Hfs]; subst. simpl.
  unfold long_enough in Hf. apply negb_false_iff in Hf. rewrite Hf.
  now apply IH.
Qed.

Lemma nelement2_long f :
  long_enough f = true -> (AUDIO_LENGTH <= nelement (concat (channels f)))%Z.
Proof.
  unfold long_enough. rewrite nelement_concat.
  destruct (Z.ltb_spec (nelement2 (channels f)) AUDIO_LENGTH);
    [discriminate | intros _; assumption].
Qed.

(** X5. When [__init__] returns, the clean recordings are the flattened clean
    files of at least [AUDIO_LENGTH] elements, in the order of the listing:
    [__len__] counts those files, and every clean recording has at least
    [AUDIO_LENGTH] samples. *)
Theorem init_keeps_long_clean_files (clean_files noise_files : list loaded)
    (self : NoisyLibreSpeechDataset) :
  __init__ clean_files noise_files = Ok self ->
  clean_data self
    = map (fun f => concat (channels f)) (List.filter long_enough clean_files) /\
  __len__ self = length (List.filter long_enough clean_files) /\
  Forall (fun t => AUDIO_LENGTH <= nelement t)%Z (clean_data self).
Proof.
  unfold __init__. intros H.
  destruct (load_clean clean_files []) as [clean |] eqn:Ec; [| discriminate].
  destruct (load_noise noise_files []) as [noise |]; [| discriminate].
  injection H as <-. apply load_clean_result in Ec. simpl in Ec. subst clean.
  cbn [clean_data]. split; [reflexivity |]. split.
  - unfold __len__. cbn [clean_data]. now rewrite length_map.
  - apply Forall_map. apply List.Forall_forall. intros f Hf.
    apply filter_In in Hf as [_ Hf]. now apply nelement2_long.
Qed.

Lemma init_keeps_long_clean_files_witness :
  clean_data {| clean_data := [concat (channels long_file)]; noise_data := [] |}
    = map (fun f => concat (channels f))
        (List.filter long_enough [short_8k_file; long_file]) /\
  __len__ {| clean_data := [concat (channels long_file)]; noise_data := [] |}
    = length (List.filter long_enough [short_8k_file; long_file]) /\
  Forall (fun t => AUDIO_LENGTH <= nelement t)%Z
    (clean_data {| clean_data := [concat (channels long_file)];
                   noise_data := [] |}).
Proof.
  apply (init_keeps_long_clean_files [short_8k_file; long_file] [short_8k_file]).
  unfold __init__.
  rewrite load_clean_skips_short by (vm_compute; reflexivity).
  rewrite load_clean_keeps by (vm_compute; congruence).
  rewrite load_noise_all_short by (repeat constructor).
  reflexivity.
Defined.

(** X6. [__init__] fails on the clean files exactly when a file that passes the
    length check has a wrong sample rate or type: a short file with a wrong
    sample rate is skipped silently. *)
Theorem clean_files_checked_only_when_long (files : list loaded) :
  is_ok (load_clean files []) = true <->
  Forall (fun f => long_enough f = true -> well_formed f = true) files.
Proof. apply load_clean_ok_iff. Qed.

Lemma clean_files_checked_only_when_long_witness :
  is_ok (load_clean [short_8k_file; long_file] []) = true.
Proof.
  apply (proj2 (clean_files_checked_only_when_long [short_8k_file; long_file])).
  constructor; [intros H; vm_compute in H; discriminate |].
  constructor; [intros _; reflexivity | constructor].
Defined.

(** X7. The length check of the noise loop counts the samples of all channels,
    but only the first channel is kept.  A noise file with several channels,
    at least [AUDIO_LENGTH] samples in all and no more than [AUDIO_LENGTH] in
    its first channel is stored, and every item that draws it raises the
    assertion of [subsample_chunk_random]. *)
Theorem multichannel_noise_stored_unusable (f : loaded) (ch : tensor1)
    (rest : list tensor1) :
  channels f = ch :: rest ->
  (AUDIO_LENGTH <= nelement2 (channels f))%Z ->
  (nelement ch <= AUDIO_LENGTH)%Z ->
  well_formed f = true ->
  (forall files acc, load_noise (f :: files) acc = load_noise files (acc ++ [ch])) /\
  (forall self idx d clean,
     py_index (clean_data self) idx = Ok clean ->
     choice (noise_data self) (noise_choice d) = Ok ch ->
     __getitem__ self idx d = Raise (AssertionError "")).
Proof.
  intros Hch Hlen Hshort Hwf. unfold well_formed in Hwf.
  apply andb_true_iff in Hwf as [Hr Hd].
  apply Z.eqb_eq in Hr. split.
  - intros files acc. simpl.
    destruct (Z.ltb_spec (nelement2 (channels f)) AUDIO_LENGTH); [lia |].
    now rewrite Hr, Hd, Hch.
  - intros self idx d clean Hc Hn. unfold __getitem__. rewrite Hc, Hn. simpl.
    destruct (subsample_chunk_random clean AUDIO_LENGTH (clean_start d)) eqn:E.
    + simpl. now rewrite subsample_chunk_random_too_short.
    + unfold subsample_chunk_random in E.
      destruct (AUDIO_LENGTH <? nelement clean)%Z; [discriminate |].
      injection E as <-. reflexivity.
Qed.

Lemma multichannel_noise_stored_unusable_witness :
  load_noise [stereo_file] [] = Ok [silence 40000] /\
  __getitem__ {| clean_data := [silence 70000]; noise_data := [silence 40000] |}
    0 late_draws = Raise (AssertionError "").
Proof.
  assert (Hlen : (AUDIO_LENGTH <= nelement2 (channels stereo_file))%Z)
    by (vm_compute; discriminate).
  assert (Hshort : (nelement (silence 40000) <= AUDIO_LENGTH)%Z)
    by (vm_compute; discriminate).
  destruct (multichannel_noise_stored_unusable stereo_file (silence 40000)
              [silence 40000] eq_refl Hlen Hshort eq_refl) as [Hload Hget].
  split.
  - rewrite Hload. reflexivity.
  - apply (Hget _ 0%Z late_draws (silence 70000)); reflexivity.
Defined.

(** X8. When every noise file is shorter than [AUDIO_LENGTH] (or there is none),
    [__init__] still builds the dataset whenever the clean files load, with
    no noise recording; then every [__getitem__] at a valid index raises
    [IndexError], from [random.choice] on the empty list. *)
Theorem no_noise_no_item (clean_files noise_files : list loaded) :
  Forall (fun f => long_enough f = false) noise_files ->
  is_ok (load_clean clean_files []) = true ->
  exists self,
    __init__ clean_files noise_files = Ok self /\
    noise_data self = [] /\
    forall idx d clean,
      py_index (clean_data self) idx = Ok clean ->
      __getitem__ self idx d = Raise IndexError.
Proof.
  intros Hn Hc. unfold __init__.
  destruct (load_clean clean_files []) as [clean |]; [| discriminate].
  rewrite load_noise_all_short by assumption. simpl.
  eexists. split; [reflexivity |]. split; [reflexivity |].
  intros idx d c Hidx. unfold __getitem__. cbn [clean_data noise_data] in *.
  rewrite Hidx. simpl. unfold choice. now destruct (noise_choice d).
Qed.

Lemma no_noise_no_item_witness :
  exists self,
    __init__ [long_file] [short_8k_file] = Ok self /\
    noise_data self = [] /\
    forall idx d clean,
      py_index (clean_data self) idx = Ok clean ->
      __getitem__ self idx d = Raise IndexError.
Proof.
  apply no_noise_no_item.
  - repeat constructor.
  - vm_compute. reflexivity.
Defined.

End LibrispeechMoreProps.

(** ** The trainer: what a run does *)
Module TrainerRunProps.
Import Trackers Trainer TrainerData TrainerRuns.

Section WithNet.
Variables Input Target Output Net Optimizer : Type.
Variable set_mode : mode -> Net -> Net.
Variable forward : Net -> Input -> result (Net * Output).
Variable input_shape_of : Input -> list nat.
Variable target_shape_of : Target -> list nat.
Variable output_shape_of : Output -> list nat.
Variable optimizer_step :
  Optimizer -> Net -> Q -> (Net -> result Q) -> result (Optimizer * Net).
Variable checkpoint_save : Net -> string -> string -> bool -> result string.
Variable log_training_info : gmap string (option Q) -> bool -> result unit.

Local Abbreviation train_batch :=
  (train_batch Input Target Output Net Optimizer forward input_shape_of
     target_shape_of output_shape_of optimizer_step).
Local Abbreviation train_loop :=
  (train_loop Input Target Output Net Optimizer forward input_shape_of
     target_shape_of output_shape_of optimizer_step).
Local Abbreviation eval_batch := (eval_batch Input Target Output Net Optimizer forward).
Local Abbreviation eval_loop := (eval_loop Input Target Output Net Optimizer forward).
Local Abbreviation train_epoch :=
  (train_epoch Input Target Output Net Optimizer set_mode forward input_shape_of
     target_shape_of output_shape_of optimizer_step checkpoint_save
     log_training_info).
Local Abbreviation epochs_loop :=
  (epochs_loop Input Target Output Net Optimizer set_mode forward input_shape_of
     target_shape_of output_shape_of optimizer_step checkpoint_save
     log_training_info).
Local Abbreviation train :=
  (train Input Target Output Net Optimizer set_mode forward input_shape_of
     target_shape_of output_shape_of optimizer_step checkpoint_save
     log_training_info).
Local Abbreviation save_checkpoint :=
  (save_checkpoint Input Target Output Net Optimizer checkpoint_save).
Local Abbreviation run := (run Input Target Output Net Optimizer).
Local Abbreviation never_raise :=
  (never_raise forward optimizer_step log_training_info).
Local Abbreviation saves_return := (saves_return checkpoint_save).

Lemma is_ok_inv {A} (r : result A) : is_ok r = true -> exists a, r = Ok a.
Proof. destruct r as [a |]; [now exists a | discriminate]. Qed.

Lemma total_loss_ok (fns : list (criterion Input Target Output * Q))
    inputs outputs targets :
  Forall (fun fw : criterion Input Target Output * Q =>
            forall inputs outputs targets,
              is_ok (fst fw inputs outputs targets) = true) fns ->
  forall loss,
    is_ok (total_loss Input Target Output fns inputs outputs targets loss) = true.
Proof.
  induction 1 as [| [fn w] fns Hfn _ IH]; intros loss; cbn [total_loss];
    [reflexivity |].
  destruct (is_ok_inv _ (Hfn inputs outputs targets)) as (term & Hterm).
  cbn [fst] in Hterm. rewrite Hterm. cbn [rbind]. apply IH.
Qed.

Lemma track_ok upd inputs outputs targets
    (ms : list (metric_entry Input Target Output)) :
  (forall m v, metric_fn (upd m v) = metric_fn m) ->
  Forall metric_returns ms ->
  exists ms',
    track Input Target Output upd inputs outputs targets ms = Ok ms' /\
    Forall metric_returns ms'.
Proof.
  intros Hupd. induction 1 as [| m ms Hm _ (ms' & IH & Hms')]; cbn [track].
  - exists []. split; [reflexivity | constructor].
  - destruct (is_ok_inv _ (Hm inputs outputs targets)) as (v & Hv).
    rewrite Hv, IH. cbn [rbind]. eexists. split; [reflexivity |].
    constructor; [| exact Hms'].
    intros i o t. rewrite Hupd. apply Hm.
Qed.

Lemma train_batch_ok self (r : run) batch :
  no_shape_checks self ->
  never_raise self ->
  input_shape_of (fst batch) <> [] ->
  Forall metric_returns (metrics r) ->
  exists r', train_batch self r batch = Ok r' /\ carries_on r r'.
Proof.
  intros (Hi & Ht & Ho) (Hf & Hstep & _ & Hloss & _) Hin Hms.
  destruct batch as [inputs targets].
  unfold Trainer.train_batch. cbn [fst] in Hin.
  destruct (input_shape_of inputs) as [| b shape]; [contradiction |].
  rewrite Hi, Ht, Ho. cbn [shape_ok negb].
  destruct (is_ok_inv _ (Hf (net r) inputs)) as ([net1 outputs] & ->).
  cbn [rbind].
  destruct (is_ok_inv _ (total_loss_ok _ inputs outputs targets Hloss 0%Q))
    as (loss & ->).
  cbn [rbind].
  match goal with
  | |- context [optimizer_step ?o ?n ?l ?f] =>
      assert (Hl : is_ok (f n) = true);
      [| destruct (is_ok_inv _ (Hstep o n l f Hl)) as ([o' n'] & ->)]
  end.
  { cbv beta. destruct (is_ok_inv _ (Hf net1 inputs)) as (called & ->).
    cbn [rbind]. now apply total_loss_ok. }
  cbn [rbind].
  destruct (track_ok (update_train Input Target Output) inputs outputs targets
              (metrics r) ltac:(reflexivity) Hms) as (ms' & -> & Hms').
  cbn [rbind]. eexists. split; [reflexivity |]. split; [reflexivity | exact Hms'].
Qed.

Lemma train_loop_ok self batches :
  no_shape_checks self ->
  never_raise self ->
  Forall (fun batch => input_shape_of (fst batch) <> []) batches ->
  forall r : run,
    Forall metric_returns (metrics r) ->
    exists r', train_loop self r batches = Ok r' /\ carries_on r r'.
Proof.
  intros Hs Hnr Hb. induction Hb as [| batch batches Hin _ IH]; intros r Hms.
  - exists r. split; [reflexivity |]. split; [reflexivity | exact Hms].
  - destruct (train_batch_ok self r batch Hs Hnr Hin Hms) as (r1 & H1 & E1 & M1).
    destruct (IH r1 M1) as (r2 & H2 & E2 & M2).
    exists r2. cbn [Trainer.train_loop]. rewrite H1. cbn [rbind].
    split; [exact H2 |]. split; [congruence | exact M2].
Qed.

Lemma eval_loop_ok (self : Trainer Input Target Output) batches :
  never_raise self ->
  forall r : run,
    Forall metric_returns (metrics r) ->
    exists r', eval_loop r batches = Ok r' /\ carries_on r r'.
Proof.
  intros (Hf & _). induction batches as [| [inputs targets] batches IH];
    intros r Hms.
  - exists r. split; [reflexivity |]. split; [reflexivity | exact Hms].
  - cbn [Trainer.eval_loop]. unfold Trainer.eval_batch.
    destruct (is_ok_inv _ (Hf (net r) inputs)) as ([net1 outputs] & ->).
    cbn [rbind].
    destruct (track_ok (update_test Input Target Output) inputs outputs targets
                (metrics r) ltac:(reflexivity) Hms) as (ms' & -> & Hms').
    cbn [rbind].
    match goal with
    | |- context [Trainer.eval_loop _ _ _ _ _ _ ?r1 _] =>
        destruct (IH r1 Hms') as (r2 & H2 & E2 & M2)
    end.
    exists r2. split; [exact H2 |]. split; [exact E2 | exact M2].
Qed.

Lemma count_info_app (a b : list (event Net)) :
  count_info (a ++ b) = (count_info a + count_info b)%nat.
Proof. unfold count_info. now rewrite List.filter_app, length_app. Qed.

Lemma count_saved_app (a b : list (event Net)) :
  count_saved (a ++ b) = (count_saved a + count_saved b)%nat.
Proof. unfold count_saved. now rewrite List.filter_app, length_app. Qed.

Lemma train_epoch_ok self train_loader test_loader (r : run) epoch :
  no_shape_checks self ->
  never_raise self ->
  saves_return self ->
  Forall (fun batch => input_shape_of (fst batch) <> []) (train_loader epoch) ->
  Forall metric_returns (metrics r) ->
  length (events r) = (count_info (events r) + count_saved (events r))%nat ->
  exists r',
    train_epoch self train_loader test_loader r epoch = Ok r' /\
    Forall metric_returns (metrics r') /\
    length (events r') = (count_info (events r') + count_saved (events r'))%nat /\
    count_info (events r') = S (count_info (events r)) /\
    count_saved (events r')
      = (count_saved (events r) + if saves_at self epoch then 1 else 0)%nat.
Proof.
  intros Hs Hnr Hc Hb Hms Hr. unfold Trainer.train_epoch.
  fold (saves_at self epoch).
  assert (Hpre : exists r0 : run,
             (if saves_at self epoch then save_checkpoint self r false
              else Ok r) = Ok r0 /\
             Forall metric_returns (metrics r0) /\
             length (events r0)
               = (length (events r) + if saves_at self epoch then 1 else 0)%nat /\
             count_info (events r0) = count_info (events r) /\
             count_saved (events r0)
               = (count_saved (events r) + if saves_at self epoch then 1 else 0)%nat).
  { destruct (saves_at self epoch) eqn:E.
    - unfold saves_at in E. apply andb_true_iff in E as [E _].
      destruct (Hc E) as ((name & Hname) & Hsave).
      unfold Trainer.save_checkpoint, get_wandb_name. rewrite Hname.
      cbn [rbind].
      destruct (is_ok_inv _ (Hsave (net r) (default "" (checkpoint_name self))
                               name false)) as (path & ->).
      cbn [rbind]. eexists. split; [reflexivity |]. cbn [emit events metrics].
      split; [exact Hms |].
      rewrite length_app, count_info_app, count_saved_app. cbn. lia.
    - exists r. split; [reflexivity |]. split; [exact Hms |]. lia. }
  destruct Hpre as (r0 & -> & Hm0 & Hl0 & Hi0 & Hs0). cbn [rbind].
  destruct (train_loop_ok self (train_loader epoch) Hs Hnr Hb
              (with_mode Input Target Output Net Optimizer set_mode Training r0)
              Hm0) as (r1 & -> & E1 & M1).
  cbn [rbind].
  destruct (eval_loop_ok self (test_loader epoch) Hnr
              (with_mode Input Target Output Net Optimizer set_mode Evaluation r1)
              M1) as (r2 & -> & E2 & M2).
  cbn [rbind].
  destruct Hnr as (_ & _ & Hlog & _).
  destruct (is_ok_inv _ (Hlog (training_info Input Target Output (metrics r2))
                           (use_wandb _ _ _ self))) as (logged & ->).
  cbn [rbind]. eexists. split; [reflexivity |]. cbn [emit events metrics].
  split; [exact M2 |].
  cbn [with_mode events] in E1, E2.
  rewrite E2, E1, length_app, count_info_app, count_saved_app, Hi0, Hs0, Hl0.
  cbn. lia.
Qed.

Lemma epochs_loop_ok self train_loader test_loader epochs :
  no_shape_checks self ->
  never_raise self ->
  saves_return self ->
  (forall epoch,
     Forall (fun batch => input_shape_of (fst batch) <> []) (train_loader epoch)) ->
  forall r : run,
    Forall metric_returns (metrics r) ->
    length (events r) = (count_info (events r) + count_saved (events r))%nat ->
    exists r',
      epochs_loop self train_loader test_loader r epochs = Ok r' /\
      length (events r') = (count_info (events r') + count_saved (events r'))%nat /\
      count_info (events r') = (count_info (events r) + length epochs)%nat /\
      count_saved (events r')
        = (count_saved (events r)
           + length (List.filter (saves_at self) epochs))%nat.
Proof.
  intros Hs Hnr Hc Hb. induction epochs as [| epoch epochs IH]; intros r Hms Hr.
  - exists r. cbn. repeat split; lia.
  - destruct (train_epoch_ok self train_loader test_loader r epoch Hs Hnr Hc
                (Hb epoch) Hms Hr) as (r1 & H1 & Hm1 & Hl1 & Hi1 & Hs1).
    destruct (IH r1 Hm1 Hl1) as (r2 & H2 & Hl2 & Hi2 & Hs2).
    exists r2. cbn [Trainer.epochs_loop]. rewrite H1. cbn [rbind].
    split; [exact H2 |]. split; [exact Hl2 |]. cbn [List.filter length].
    destruct (saves_at self epoch); cbn [length]; lia.
Qed.

Lemma saves_at_checkpoint_epochs (self : Trainer Input Target Output) num_epochs :
  truthy_string (checkpoint_name self) = true ->
  List.filter (saves_at self) (seq 0 num_epochs)
  = checkpoint_epochs_of self num_epochs.
Proof.
  intros H. unfold checkpoint_epochs_of. apply List.filter_ext. intros e.
  unfold saves_at. now rewrite H.
Qed.

Lemma never_saves (self : Trainer Input Target Output) epochs :
  truthy_string (checkpoint_name self) = false ->
  List.filter (saves_at self) epochs = [].
Proof.
  intros H. induction epochs as [| e epochs IH]; [reflexivity |].
  cbn [List.filter]. unfold saves_at at 1. now rewrite H.
Qed.



End WithNet.

Lemma scalar_batches_have_shape batches :
  Forall (fun batch : Q * Q => scalar_shape (fst batch) <> []) batches.
Proof. apply List.Forall_forall. intros batch _. discriminate. Qed.

Lemma scalar_run_never_raises (self : Trainer Q Q Q) :
  Forall (fun fw : criterion Q Q Q * Q =>
            forall inputs outputs targets,
              is_ok (fst fw inputs outputs targets) = true)
    (loss_fns _ _ _ self) ->
  Forall metric_returns (metric_fns self) ->
  never_raise identity_forward no_step log_nothing self.
Proof. intros Hl Hm. repeat split; assumption. Qed.



Section Logging.
Variables Input Target Output : Type.

(** X12. Two metrics whose names are equal after [capitalize] share their keys in
    the logged dictionary: the entry registered last replaces the other. *)
Theorem same_name_metrics_share_log_entries
    (ms : list (metric_entry Input Target Output))
    (m1 m2 : metric_entry Input Target Output) :
  metric_name m1 = metric_name m2 ->
  training_info Input Target Output (ms ++ [m1; m2])
  = training_info Input Target Output (ms ++ [m2]).
Proof.
  intros Hn. unfold training_info. rewrite !fold_left_app. cbn [fold_left].
  rewrite Hn. apply map_eq. intros k.
  destruct (decide ("Validation " +:+ metric_name m2 = k)) as [<- | HV].
  - now rewrite !lookup_insert_eq.
  - destruct (decide ("Training " +:+ metric_name m2 = k)) as [<- | HT].
    + rewrite !(lookup_insert_ne _ ("Validation " +:+ metric_name m2)) by assumption.
      now rewrite !lookup_insert_eq.
    + now rewrite !lookup_insert_ne by assumption.
Qed.
End Logging.

(** "loss" and "LOSS" are both logged as "Loss". *)
Lemma same_name_metrics_share_log_entries_witness :
  training_info Q Q Q [with_metric_entry; loss_entry (Some 5%Q) None]
  = training_info Q Q Q [loss_entry (Some 5%Q) None].
Proof.
  apply (same_name_metrics_share_log_entries Q Q Q [] with_metric_entry
           (loss_entry (Some 5%Q) None)).
  reflexivity.
Defined.

Section TargetShape.
Variables Input Target Output Net Optimizer : Type.
Variable set_mode : mode -> Net -> Net.
Variable forward : Net -> Input -> result (Net * Output).
Variable input_shape_of : Input -> list nat.
Variable target_shape_of : Target -> list nat.
Variable output_shape_of : Output -> list nat.
Variable optimizer_step :
  Optimizer -> Net -> Q -> (Net -> result Q) -> result (Optimizer * Net).
Variable checkpoint_save : Net -> string -> string -> bool -> result string.
Variable log_training_info : gmap string (option Q) -> bool -> result unit.

(** X13. When the first training batch passes the check of its inputs and its
    targets do not have the configured [target_shape], the run stops with a
    [NameError]: the message of the failing assertion reads [target.shape],
    and no variable [target] exists. *)
Theorem target_shape_mismatch_is_name_error (self : Trainer Input Target Output)
    (net0 : Net) (num_epochs : nat) (optimizer0 : Optimizer)
    (train_loader test_loader : nat -> list (Input * Target))
    (inputs : Input) (targets : Target) (rest : list (Input * Target))
    (batch_size : nat) (shape : list nat) :
  truthy_string (checkpoint_name self) = false ->
  (0 < num_epochs)%nat ->
  train_loader 0%nat = (inputs, targets) :: rest ->
  input_shape_of inputs = batch_size :: shape ->
  shape_ok (input_shape _ _ _ self) batch_size (batch_size :: shape) = true ->
  target_shape _ _ _ self <> [] ->
  target_shape_of targets <> batch_size :: target_shape _ _ _ self ->
  train Input Target Output Net Optimizer set_mode forward input_shape_of
    target_shape_of output_shape_of optimizer_step checkpoint_save
    log_training_info self net0 num_epochs optimizer0 train_loader test_loader
  = Raise (NameError "target").
Proof.
  intros Hn Hpos Hl Hin Hok Hts Hne.
  destruct num_epochs as [| n]; [lia |].
  unfold train. cbn [seq epochs_loop]. unfold train_epoch at 1.
  rewrite Hn. cbn [andb rbind]. rewrite Hl. cbn [train_loop].
  unfold train_batch at 1. cbn [with_mode net]. rewrite Hin, Hok. cbn [negb].
  assert (Hbad : shape_ok (target_shape _ _ _ self) batch_size
                   (target_shape_of targets) = false).
  { unfold shape_ok. destruct (target_shape _ _ _ self); [contradiction |].
    now apply bool_decide_eq_false. }
  rewrite Hbad. reflexivity.
Qed.
End TargetShape.

(** Targets of shape (1), a trainer expecting (batch, 7). *)
Lemma target_shape_mismatch_is_name_error_witness :
  run_train with_target_shape tt 1 tt train_batches test_batches
  = Raise (NameError "target").
Proof.
  apply (target_shape_mismatch_is_name_error Q Q Q unit unit keep_mode
           identity_forward scalar_shape scalar_shape scalar_shape no_step
           save_to log_nothing with_target_shape
           tt 1 tt train_batches test_batches 0%Q 1%Q [] 1%nat []).
  - reflexivity.
  - lia.
  - reflexivity.
  - reflexivity.
  - reflexivity.
  - discriminate.
  - discriminate.
Defined.

End TrainerRunProps.

(** ** The Wave-U-Net: layers, batches and evaluation *)
Module WaveUNetMoreProps.
Import WaveUNet WaveUNetShapes WaveUNetProps BatchItems Evaluate.
Local Open Scope nat_scope.

(** X15. An input with a number of channels other than 1 is rejected by the first
    encoder, whatever its length and batch size. *)
Theorem forward_rejects_other_channels theta (input_t : tensor) :
  chans input_t <> 1 ->
  WaveUNet_forward (WaveUNet_init theta) input_t = Raise channel_mismatch.
Proof.
  intros Hc. apply forward_result_raise.
  unfold forward_shape, shape_of.
  change (encoders (WaveUNet_init theta))
    with (ConvLayer_init (theta 0) 1 NUM_C 15 nn_PReLU ::
          map (fun i => ConvLayer_init (theta i) (i * NUM_C) ((i + 1) * NUM_C) 15
                          nn_PReLU) (seq 1 (NUM_ENCODER_LAYERS - 1))).
  cbn [encode_shape]. unfold conv_shape at 1. cbn [in_channels ConvLayer_init].
  destruct (Nat.eqb_spec (chans input_t) 1); [contradiction | reflexivity].
Qed.

Lemma forward_rejects_other_channels_witness :
  WaveUNet_forward (WaveUNet_init (fun _ => zero_params)) (zeros 1 2 (2 ^ 12))
  = Raise channel_mismatch.
Proof.
  apply forward_rejects_other_channels. discriminate.
Defined.

Lemma even_kernel_padding k : Nat.even k = true -> 2 * (k / 2) = k.
Proof.
  intros H. apply Nat.even_spec in H as [m ->].
  rewrite (Nat.mul_comm 2 m), Nat.div_mul by discriminate. lia.
Qed.

Lemma odd_kernel_padding k : Nat.even k = false -> 2 * (k / 2) + 1 = k.
Proof.
  intros H. rewrite <- Nat.negb_odd in H. apply negb_false_iff in H.
  apply Nat.odd_spec in H as [m ->].
  replace (2 * m + 1) with (1 + m * 2) by lia.
  rewrite Nat.div_add by discriminate. cbn. lia.
Qed.

(** X16. The padding [kernel // 2] of [ConvLayer] keeps the length only for an odd
    kernel: on a non-empty input with the right number of channels the layer
    returns, and with an even kernel it returns one sample more than it is
    given.  An empty input (with a batch and channels) is refused: with an
    odd kernel the padded input is shorter than the kernel, with an even
    kernel the convolution refuses the input without elements. *)
Theorem conv_layer_output_length (p : params) (cin cout kernel : nat)
    (cls : nonlinearity_class) (input_t : tensor) :
  chans input_t = cin ->
  0 < kernel ->
  (0 < len input_t ->
   exists acts,
     ConvLayer_forward (ConvLayer_init p cin cout kernel cls) input_t = Ok acts /\
     batch acts = batch input_t /\
     chans acts = cout /\
     len acts = len input_t + (if Nat.even kernel then 1 else 0)) /\
  (len input_t = 0 -> 0 < batch input_t -> 0 < cin ->
   ConvLayer_forward (ConvLayer_init p cin cout kernel cls) input_t
   = Raise (if Nat.even kernel then zero_length else kernel_too_large)).
Proof.
  intros Hc Hk. unfold ConvLayer_forward, conv1d.
  cbn [in_channels out_channels kernel_size padding ConvLayer_init].
  rewrite Hc, Nat.eqb_refl. cbn [negb].
  split.
  - intros Hl.
    assert (Hp : kernel <= len input_t + 2 * (kernel / 2) /\
                 len input_t + 2 * (kernel / 2) - kernel + 1
                 = len input_t + (if Nat.even kernel then 1 else 0)).
    { destruct (Nat.even kernel) eqn:E.
      - pose proof (even_kernel_padding kernel E). lia.
      - pose proof (odd_kernel_padding kernel E). lia. }
    destruct Hp as [Hp1 Hp2].
    destruct (Nat.ltb_spec (len input_t + 2 * (kernel / 2)) kernel); [lia |].
    destruct (Nat.eqb_spec (len input_t) 0); [lia |]. cbn [andb].
    eexists. split; [reflexivity |]. cbn [batch chans len activate].
    repeat split. exact Hp2.
  - intros Hl Hb Hcin. rewrite Hl.
    destruct (Nat.even kernel) eqn:E.
    + pose proof (even_kernel_padding kernel E) as Hp.
      destruct (Nat.ltb_spec (0 + 2 * (kernel / 2)) kernel); [lia |].
      destruct (Nat.eqb_spec (batch input_t) 0); [lia |].
      destruct (Nat.eqb_spec cin 0); [lia |]. reflexivity.
    + pose proof (odd_kernel_padding kernel E) as Hp.
      destruct (Nat.ltb_spec (0 + 2 * (kernel / 2)) kernel); [| lia].
      reflexivity.
Qed.

(** A kernel of 4 samples on ten samples and on none. *)
Lemma conv_layer_output_length_witness :
  (exists acts,
     ConvLayer_forward (ConvLayer_init zero_params 1 24 4 nn_PReLU) (zeros 2 1 10)
       = Ok acts /\
     batch acts = 2 /\ chans acts = 24 /\ len acts = 11) /\
  ConvLayer_forward (ConvLayer_init zero_params 1 24 4 nn_PReLU) (zeros 2 1 0)
    = Raise zero_length.
Proof.
  split.
  - apply (conv_layer_output_length zero_params 1 24 4 nn_PReLU (zeros 2 1 10));
      [reflexivity | lia | cbn; lia].
  - apply (conv_layer_output_length zero_params 1 24 4 nn_PReLU (zeros 2 1 0));
      [reflexivity | lia | reflexivity | cbn; lia | lia].
Defined.

(** *** Batch items are processed independently *)

Lemma sum_n_ext k (f g : nat -> R) : (forall i, f i = g i) -> sum_n k f = sum_n k g.
Proof.
  intros H. induction k as [| k IH]; [reflexivity |].
  cbn. now rewrite IH, H.
Qed.

Lemma agree_on_refl n x : agree_on n x x.
Proof. repeat split. Qed.

Lemma agree_bind n (rx ry : result tensor) (kx ky : tensor -> result tensor) :
  agree_result n rx ry ->
  (forall x y, agree_on n x y -> agree_result n (kx x) (ky y)) ->
  agree_result n (rbind rx kx) (rbind ry ky).
Proof.
  intros Hr Hk. destruct rx as [x | e], ry as [y | e']; cbn in *;
    try contradiction; [now apply Hk | exact Hr].
Qed.

Lemma conv_layer_agree n l x y :
  agree_on n x y ->
  agree_result n (ConvLayer_forward l x) (ConvLayer_forward l y).
Proof.
  intros (Hb & Hc & Hl & Ha). unfold ConvLayer_forward, conv1d.
  rewrite Hc, Hl.
  destruct (negb (chans y =? in_channels l)); [reflexivity |].
  destruct (len y + 2 * padding l <? kernel_size l); [reflexivity |].
  rewrite Hb.
  destruct ((len y =? 0) && negb ((batch y =? 0) || (chans y =? 0)));
    [reflexivity |].
  cbn [rbind agree_result]. unfold agree_on.
  cbn [activate batch chans len at_]. repeat split; try assumption.
  intros c t. f_equal. f_equal. apply sum_n_ext. intros i.
  apply sum_n_ext. intros j. f_equal. unfold padded. rewrite Hl.
  destruct ((t + j <? padding l) || (padding l + len y <=? t + j));
    [reflexivity | apply Ha].
Qed.

Lemma decimate_agree n x y : agree_on n x y -> agree_on n (decimate x) (decimate y).
Proof.
  intros (Hb & Hc & Hl & Ha). unfold decimate, agree_on.
  cbn [batch chans len at_]. repeat split; try assumption.
  - now rewrite Hl.
  - intros c t. apply Ha.
Qed.

Lemma upsample_agree n x y :
  agree_on n x y -> agree_result n (upsample x) (upsample y).
Proof.
  intros (Hb & Hc & Hl & Ha). unfold upsample. rewrite Hc, Hl.
  destruct ((chans y =? 0) || (len y =? 0)); [reflexivity |].
  cbn [agree_result]. unfold agree_on. cbn [batch chans len at_].
  repeat split; try assumption.
  intros c t. now rewrite !Ha.
Qed.

Lemma cat_agree n a b a' b' :
  agree_on n a a' -> agree_on n b b' -> agree_result n (cat a b) (cat a' b').
Proof.
  intros (Hb & Hc & Hl & Ha) (Hb' & Hc' & Hl' & Ha'). unfold cat.
  rewrite Hb, Hl, Hb', Hl'.
  destruct ((batch a' =? batch b') && (len a' =? len b')); [| reflexivity].
  cbn [agree_result]. unfold agree_on. cbn [batch chans len at_].
  repeat split; try assumption; try congruence.
  intros c t. rewrite Hc. destruct (c <? chans a'); [apply Ha | apply Ha'].
Qed.

Lemma agree_rev n sx sy :
  Forall2 (agree_on n) sx sy -> Forall2 (agree_on n) (rev sx) (rev sy).
Proof.
  induction 1 as [| a b sx sy Hab _ IH]; [constructor |].
  cbn [rev]. apply Forall2_app; [exact IH | now constructor].
Qed.

(** The encoding loop on two inputs that agree on an item. *)
Lemma encode_agree n es :
  forall x y sx sy,
    agree_on n x y -> Forall2 (agree_on n) sx sy ->
    match encode es x sx, encode es y sy with
    | Ok rx, Ok ry =>
        agree_on n (fst rx) (fst ry) /\ Forall2 (agree_on n) (snd rx) (snd ry)
    | Raise e, Raise e' => e = e'
    | _, _ => False
    end.
Proof.
  induction es as [| e es IH]; intros x y sx sy Hxy Hs; cbn [encode].
  - split; assumption.
  - pose proof (conv_layer_agree n e x y Hxy) as Hc.
    destruct (ConvLayer_forward e x) as [ax | ex],
             (ConvLayer_forward e y) as [ay | ey]; cbn in Hc |- *;
      try contradiction; [| exact Hc].
    apply IH; [now apply decimate_agree |].
    apply Forall2_app; [assumption | now constructor].
Qed.

Lemma decode_agree n ds :
  forall idx sx sy x y,
    agree_on n x y -> Forall2 (agree_on n) sx sy ->
    agree_result n (decode ds idx sx x) (decode ds idx sy y).
Proof.
  induction ds as [| d ds IH]; intros idx sx sy x y Hxy Hs; cbn [decode].
  - exact Hxy.
  - apply agree_bind; [now apply upsample_agree |]. intros ux uy Hu.
    assert (Hskip : match nth_error sx idx, nth_error sy idx with
                    | Some a, Some b => agree_on n a b
                    | None, None => True
                    | _, _ => False
                    end).
    { clear -Hs. revert idx. induction Hs as [| a b sx sy Hab _ IHs];
        intros [| idx]; cbn [nth_error]; [exact I | exact I | exact Hab | apply IHs]. }
    destruct (nth_error sx idx) as [a |], (nth_error sy idx) as [b |];
      try contradiction; cbn [rbind]; [| reflexivity].
    apply agree_bind; [now apply cat_agree |]. intros cx cy Hcat.
    apply agree_bind; [now apply conv_layer_agree |]. intros ax ay Hact.
    now apply IH.
Qed.

(** X17. What [forward] returns for one item of a batch depends on that item
    only: for two batches of the same sizes whose items [n] are equal, both
    calls raise the same exception or both return, with equal items [n]. *)
Theorem forward_item_independent (net : WaveUNet) (n : nat) (x y : tensor) :
  agree_on n x y ->
  agree_result n (WaveUNet_forward net x) (WaveUNet_forward net y).
Proof.
  intros Hxy. unfold WaveUNet_forward.
  pose proof (encode_agree n (encoders net) x y [] [] Hxy ltac:(constructor))
    as He.
  destruct (encode (encoders net) x []) as [rx | ex],
           (encode (encoders net) y []) as [ry | ey]; cbn [rbind] in *;
    try contradiction; [| exact He].
  destruct He as [Ha Hs].
  apply agree_bind; [now apply conv_layer_agree |]. intros mx my Hm.
  apply agree_bind.
  { apply decode_agree; [assumption |]. now apply agree_rev. }
  intros dx dy Hd.
  apply agree_bind; [now apply cat_agree |]. intros cx cy Hc.
  now apply conv_layer_agree.
Qed.

(** Two batches of four waveforms that differ outside item 2. *)
Lemma forward_item_independent_witness :
  agree_result 2
    (WaveUNet_forward (WaveUNet_init (fun _ => zero_params))
       (constant_items 4 (2 ^ 12) (fun n => if n =? 2 then 1%R else 0%R)))
    (WaveUNet_forward (WaveUNet_init (fun _ => zero_params))
       (constant_items 4 (2 ^ 12) (fun n => if n =? 2 then 1%R else 5%R))).
Proof.
  apply forward_item_independent. repeat split.
Defined.

End WaveUNetMoreProps.

(** ** Evaluation: padding and prediction *)
Module EvaluateProps.
Import WaveUNet WaveUNetShapes WaveUNetProps Evaluate.

Lemma audio_length_value : AUDIO_LENGTH = 65536%Z.
Proof. reflexivity. Qed.

Lemma pad_chunk_size {A} (zero : A) (arr : list A) :
  Z.of_nat (length (pad_chunk zero arr))
  = ((Z.of_nat (length arr) / AUDIO_LENGTH + 1) * AUDIO_LENGTH)%Z.
Proof.
  unfold pad_chunk. rewrite length_app, repeat_length, audio_length_value.
  pose proof (Z.div_mod (Z.of_nat (length arr)) 65536 ltac:(lia)).
  pose proof (Z.mod_pos_bound (Z.of_nat (length arr)) 65536 ltac:(lia)).
  lia.
Qed.

(** X18. [pad_chunk] keeps the samples and appends zeros up to the next multiple
    of [AUDIO_LENGTH] strictly above the length: the result is never empty,
    and an array whose length is already a multiple (the empty array too)
    gets a whole chunk of zeros. *)
Theorem pad_chunk_next_multiple {A} (zero : A) (arr : list A) :
  let n := Z.of_nat (length arr) in
  let m := Z.of_nat (length (pad_chunk zero arr)) in
  m = ((n / AUDIO_LENGTH + 1) * AUDIO_LENGTH)%Z /\
  (n < m <= n + AUDIO_LENGTH)%Z /\
  (n mod AUDIO_LENGTH = 0 -> m = n + AUDIO_LENGTH)%Z /\
  firstn (length arr) (pad_chunk zero arr) = arr /\
  skipn (length arr) (pad_chunk zero arr) = repeat zero (Z.to_nat (m - n)).
Proof.
  intros n m. subst n m. rewrite pad_chunk_size, audio_length_value.
  pose proof (Z.div_mod (Z.of_nat (length arr)) 65536 ltac:(lia)) as Hd.
  pose proof (Z.mod_pos_bound (Z.of_nat (length arr)) 65536 ltac:(lia)) as Hm.
  split; [reflexivity |]. split; [lia |]. split; [lia |].
  unfold pad_chunk. rewrite audio_length_value. split.
  - rewrite firstn_app, Nat.sub_diag, firstn_all. cbn [firstn].
    now rewrite app_nil_r.
  - rewrite skipn_app, Nat.sub_diag, skipn_all, skipn_O. cbn [app].
    f_equal. lia.
Qed.

Lemma padded_divides (arr : list R) :
  Nat.divide (2 ^ NUM_ENCODER_LAYERS) (length (pad_chunk 0%R arr)) /\
  (0 < length (pad_chunk 0%R arr))%nat.
Proof.
  pose proof (pad_chunk_size 0%R arr) as Hs. rewrite audio_length_value in Hs.
  pose proof (Z.div_pos (Z.of_nat (length arr)) 65536 ltac:(lia) ltac:(lia)) as Hk.
  set (k := (Z.of_nat (length arr) / 65536 + 1)%Z) in *.
  split.
  - exists (Z.to_nat (k * 16)). apply Nat2Z.inj.
    rewrite Nat2Z.inj_mul, Z2Nat.id by lia.
    change (Z.of_nat (2 ^ NUM_ENCODER_LAYERS)) with 4096%Z. lia.
  - lia.
Qed.

Lemma row_of_length x n c : length (row_of x n c) = len x.
Proof. unfold row_of. now rewrite length_map, length_seq. Qed.


(** X20. Without padding, [get_prediction] raises for a recording whose length
    is not a multiple of [2 ^ 12] (the size mismatch of [torch.cat]) and for
    the empty recording (the first convolution finds its kernel longer than
    the padded input). *)
Theorem prediction_needs_padding theta (arr : list R) :
  ~ Nat.divide (2 ^ NUM_ENCODER_LAYERS) (length arr) \/ arr = [] ->
  get_prediction (WaveUNet_forward (WaveUNet_init theta)) arr
  = Raise (match arr with [] => kernel_too_large | _ => size_mismatch end).
Proof.
  intros H. unfold get_prediction. cbv zeta.
  set (inputs := view_1_1 arr).
  assert (Hs : forward_shape (WaveUNet_init theta) (shape_of inputs)
               = Raise (match arr with
                        | [] => kernel_too_large
                        | _ => size_mismatch
                        end)).
  { change (shape_of inputs) with (1%nat, 1%nat, length arr).
    rewrite forward_shape_wave. destruct arr as [| v arr]; [reflexivity |].
    destruct H as [H | H]; [| discriminate]. cbn [length Nat.eqb].
    destruct (forallb Nat.even (skip_lens NUM_ENCODER_LAYERS (S (length arr))))
      eqn:E; [| reflexivity].
    exfalso. apply H. now apply multiple_all_even. }
  now rewrite (forward_result_raise _ _ _ Hs).
Qed.

(** Three samples, and none. *)
Lemma prediction_needs_padding_witness :
  get_prediction (WaveUNet_forward (WaveUNet_init (fun _ => zero_params)))
    [1%R; 2%R; 3%R] = Raise size_mismatch /\
  get_prediction (WaveUNet_forward (WaveUNet_init (fun _ => zero_params))) []
    = Raise kernel_too_large.
Proof.
  split.
  - apply (prediction_needs_padding (fun _ => zero_params) [1%R; 2%R; 3%R]). left.
    intros H. apply multiple_all_even in H. vm_compute in H. discriminate.
  - apply (prediction_needs_padding (fun _ => zero_params) []). right. reflexivity.
Defined.

End EvaluateProps.

(** ** Acoustic scenes: chunks and loading *)
Module SceneLoadingProps.
Import SceneDataset SceneLoading.

Lemma pieces_length {A} size count :
  forall l : list A, length (pieces size count l) = count.
Proof.
  induction count as [| count IH]; intros l; cbn [pieces length];
    [reflexivity | now rewrite IH].
Qed.

Lemma pieces_sizes {A} size count :
  forall l : list A,
    (size * count <= length l)%nat ->
    Forall (fun p => length p = size) (pieces size count l).
Proof.
  induction count as [| count IH]; intros l H; cbn [pieces]; constructor.
  - rewrite length_firstn. lia.
  - apply IH. rewrite length_skipn. lia.
Qed.

Lemma pieces_concat {A} size count :
  forall l : list A,
    (size * count = length l)%nat -> concat (pieces size count l) = l.
Proof.
  induction count as [| count IH]; intros l H; cbn [pieces concat].
  - destruct l; [reflexivity | cbn in H; lia].
  - rewrite IH by (rewrite length_skipn; lia). apply firstn_skipn.
Qed.

Lemma chunk_size_value : CHUNK_SIZE = 32767%Z.
Proof. reflexivity. Qed.

(** The value of [split_even_chunks] for a recording of at least
    [CHUNK_SIZE] samples. *)
Lemma split_even_chunks_pieces {A} (input_arr : list A) (offset : Z) :
  let n := Z.of_nat (length input_arr) in
  let part := py_slice input_arr offset (offset + (n - n mod CHUNK_SIZE)) in
  (CHUNK_SIZE <= n)%Z ->
  offset_draws input_arr offset ->
  split_even_chunks input_arr offset
    = inr (pieces (Z.to_nat CHUNK_SIZE) (Z.to_nat (n / CHUNK_SIZE)) part) /\
  Z.of_nat (length part) = (n / CHUNK_SIZE * CHUNK_SIZE)%Z /\
  (1 <= n / CHUNK_SIZE)%Z.
Proof.
  intros n part Hn Hoff. unfold offset_draws, np_randint_draws in Hoff.
  fold n in Hoff. unfold split_even_chunks. fold n. fold part.
  pose proof (Z.div_mod n CHUNK_SIZE ltac:(discriminate)) as Hd.
  pose proof (Z.mod_pos_bound n CHUNK_SIZE ltac:(reflexivity)) as Hm.
  set (q := (n / CHUNK_SIZE)%Z) in *.
  assert (Hc : CHUNK_SIZE = 32767%Z) by reflexivity.
  assert (Hq : (1 <= q)%Z) by lia.
  assert (Heven : (n - n mod CHUNK_SIZE = q * CHUNK_SIZE)%Z) by lia.
  assert (Hlen : Z.of_nat (length part) = (q * CHUNK_SIZE)%Z).
  { unfold part. rewrite py_slice_length_nonneg by lia. fold n. lia. }
  split; [| split; assumption].
  rewrite Heven, Z.div_mul by discriminate.
  unfold np_split. rewrite Hlen.
  destruct (Z.eqb_spec q 0); [lia |].
  rewrite (Z.mul_comm q CHUNK_SIZE), Z.mod_mul by lia. cbn [Z.eqb negb].
  destruct (Z.leb_spec q 0); [lia |].
  now rewrite Z.div_mul by lia.
Qed.

(** X21. A recording of at least [CHUNK_SIZE] samples is cut into
    [len // CHUNK_SIZE] chunks of exactly [CHUNK_SIZE] samples each, which
    follow one another without overlap from the drawn offset on: their
    concatenation is [input_arr[offset : offset + even_length]]. *)
Theorem split_even_chunks_cover {A} (input_arr : list A) (offset : Z) :
  let n := Z.of_nat (length input_arr) in
  (CHUNK_SIZE <= n)%Z ->
  offset_draws input_arr offset ->
  exists chunks,
    split_even_chunks input_arr offset = inr chunks /\
    Z.of_nat (length chunks) = (n / CHUNK_SIZE)%Z /\
    Forall (fun chunk => Z.of_nat (length chunk) = CHUNK_SIZE) chunks /\
    concat chunks
      = py_slice input_arr offset (offset + (n - n mod CHUNK_SIZE)).
Proof.
  intros n Hn Hoff.
  destruct (split_even_chunks_pieces input_arr offset Hn Hoff) as (Hv & Hlen & Hq).
  fold n in Hv, Hlen, Hq.
  assert (Hc : CHUNK_SIZE = 32767%Z) by reflexivity.
  eexists. split; [exact Hv |]. split; [| split].
  - rewrite pieces_length. lia.
  - apply List.Forall_forall. intros p Hp.
    eapply (proj1 (List.Forall_forall _ _)) in Hp; [| apply pieces_sizes; lia].
    cbn beta in Hp. lia.
  - apply pieces_concat. lia.
Qed.

Lemma split_even_chunks_cover_witness :
  exists chunks,
    split_even_chunks (repeat 0%Z (Z.to_nat 70000)) 4466 = inr chunks /\
    Z.of_nat (length chunks) = (70000 / CHUNK_SIZE)%Z /\
    Forall (fun chunk => Z.of_nat (length chunk) = CHUNK_SIZE) chunks /\
    concat chunks
      = py_slice (repeat 0%Z (Z.to_nat 70000)) 4466
          (4466 + (70000 - 70000 mod CHUNK_SIZE)).
Proof.
  pose proof (split_even_chunks_cover (repeat 0%Z (Z.to_nat 70000)) 4466) as H.
  rewrite repeat_length, Z2Nat.id in H by lia.
  apply H.
  - vm_compute. discriminate.
  - unfold offset_draws, np_randint_draws. rewrite repeat_length, Z2Nat.id by lia.
    vm_compute. split; [discriminate | reflexivity].
Defined.

(** X22. A recording shorter than [CHUNK_SIZE] gives no chunk: the number of
    sections is 0 and [np.split] divides by it. *)
Theorem split_even_chunks_short {A} (input_arr : list A) (offset : Z) :
  (Z.of_nat (length input_arr) < CHUNK_SIZE)%Z ->
  split_even_chunks input_arr offset = inl ZeroDivisionError.
Proof.
  intros Hn. unfold split_even_chunks, np_split.
  rewrite Z.mod_small by lia. rewrite Z.sub_diag. reflexivity.
Qed.

Lemma split_even_chunks_short_witness :
  split_even_chunks [1%Z; 2%Z; 3%Z] 0 = inl ZeroDivisionError.
Proof. apply split_even_chunks_short. vm_compute. reflexivity. Defined.

Lemma class_label_index label :
  is_class_label label = true ->
  exists label_idx,
    label_to_idx scene_maps !! label = Some label_idx /\
    (label_idx < 15)%nat /\
    idx_to_label scene_maps !! label_idx = Some label.
Proof.
  unfold is_class_label. rewrite existsb_exists. intros (x & Hx & E).
  apply String.eqb_eq in E. subst x. unfold CLASS_LABELS in Hx. simpl in Hx.
  repeat (destruct Hx as [<- | Hx];
          [eexists; split; [vm_compute; reflexivity |];
           split; [lia | vm_compute; reflexivity] |]).
  contradiction.
Qed.

(** Every label kept from meta.txt is one of [CLASS_LABELS]. *)
Lemma parse_meta_labels lines :
  forall lookup lookup',
    parse_meta lines lookup = inr lookup' ->
    map_Forall (fun _ label => is_class_label label = true) lookup ->
    map_Forall (fun _ label => is_class_label label = true) lookup'.
Proof.
  induction lines as [| line lines IH]; intros lookup lookup' H Hl;
    cbn [parse_meta] in H.
  - now injection H as <-.
  - destruct line as [| c line]; [now apply (IH lookup) |].
    destruct (split_on tab (String c line)) as [| filename [| label [| ? ?]]];
      try discriminate.
    destruct (is_class_label label) eqn:E; [| discriminate]. cbn [negb] in H.
    apply (IH _ _ H). now apply map_Forall_insert_2.
Qed.

Lemma append_chunks_well_loaded chunks label_idx :
  Forall (fun chunk => Z.of_nat (length chunk) = CHUNK_SIZE) chunks ->
  (label_idx < 15)%nat /\ is_Some (idx_to_label scene_maps !! label_idx) ->
  forall acc,
    well_loaded acc ->
    well_loaded (append_chunks acc chunks label_idx) /\
    length (data (append_chunks acc chunks label_idx))
      = (length (data acc) + length chunks)%nat.
Proof.
  intros Hc Hi. induction Hc as [| chunk chunks Hchunk _ IH]; intros acc Hacc.
  - cbn. split; [exact Hacc | lia].
  - cbn [append_chunks fold_left]. fold (append_chunks
      {| data := data acc ++ [chunk]; data_labels := data_labels acc ++ [label_idx] |}
      chunks label_idx).
    destruct Hacc as (Hl & Hd & Hlab).
    destruct (IH {| data := data acc ++ [chunk];
                    data_labels := data_labels acc ++ [label_idx] |})
      as [Hw Hn].
    { repeat split; cbn [data data_labels].
      - rewrite !length_app. cbn. lia.
      - apply Forall_app. split; [exact Hd | now constructor].
      - apply Forall_app. split; [exact Hlab | now constructor]. }
    split; [exact Hw |]. rewrite Hn. cbn [data length]. rewrite length_app. cbn. lia.
Qed.

Lemma load_wav_loadable lookup offsets f acc :
  map_Forall (fun _ label => is_class_label label = true) lookup ->
  loadable lookup offsets f ->
  well_loaded acc ->
  exists acc',
    load_wav lookup (label_to_idx scene_maps) acc f (offsets (wav_name f))
      = inr acc' /\
    well_loaded acc' /\
    length (data acc') = (length (data acc) + chunk_count f)%nat.
Proof.
  intros Hl ([label Hlabel] & Hrate & ch0 & ch1 & rest & Hd & H0 & H1 & Ho0 & Ho1)
    Hacc.
  destruct (class_label_index label (Hl _ _ Hlabel)) as (i & Hi & Hlt & Hback).
  unfold load_wav, dict_get. rewrite Hlabel. cbn [obind]. rewrite Hi. cbn [obind].
  rewrite Hrate, Hd. cbn [Z.eqb Pos.eqb negb].
  destruct (split_even_chunks_pieces ch0 _ H0 Ho0) as (-> & Hp0 & Hq0).
  destruct (split_even_chunks_pieces ch1 _ H1 Ho1) as (-> & Hp1 & Hq1).
  cbn [obind].
  assert (Hcs : CHUNK_SIZE = 32767%Z) by reflexivity.
  set (c0 := pieces (Z.to_nat CHUNK_SIZE) _ _).
  set (c1 := pieces (Z.to_nat CHUNK_SIZE) _ _).
  assert (Hs0 : Forall (fun chunk => Z.of_nat (length chunk) = CHUNK_SIZE) c0).
  { apply List.Forall_forall. intros p Hp.
    eapply (proj1 (List.Forall_forall _ _)) in Hp; [| apply pieces_sizes; lia].
    cbn beta in Hp. lia. }
  assert (Hs1 : Forall (fun chunk => Z.of_nat (length chunk) = CHUNK_SIZE) c1).
  { apply List.Forall_forall. intros p Hp.
    eapply (proj1 (List.Forall_forall _ _)) in Hp; [| apply pieces_sizes; lia].
    cbn beta in Hp. lia. }
  assert (Hn0 : length c0 = Z.to_nat (Z.of_nat (length ch0) / CHUNK_SIZE))
    by apply pieces_length.
  assert (Hn1 : length c1 = Z.to_nat (Z.of_nat (length ch1) / CHUNK_SIZE))
    by apply pieces_length.
  assert (Hok : (i < 15)%nat /\ is_Some (idx_to_label scene_maps !! i))
    by (split; [exact Hlt | now exists label]).
  destruct (append_chunks_well_loaded c0 i Hs0 Hok acc Hacc) as [Hw0 Hl0].
  destruct (append_chunks_well_loaded c1 i Hs1 Hok _ Hw0) as [Hw1 Hl1].
  eexists. split; [reflexivity |]. split; [exact Hw1 |].
  rewrite Hl1, Hl0. unfold chunk_count. rewrite Hd. lia.
Qed.

Lemma load_wavs_loadable lookup offsets files :
  map_Forall (fun _ label => is_class_label label = true) lookup ->
  Forall (loadable lookup offsets) files ->
  forall acc,
    well_loaded acc ->
    exists acc',
      load_wavs lookup (label_to_idx scene_maps) acc files offsets = inr acc' /\
      well_loaded acc' /\
      length (data acc')
        = (length (data acc) + list_sum (map chunk_count files))%nat.
Proof.
  intros Hl Hf. induction Hf as [| f files Hok _ IH]; intros acc Hacc.
  - exists acc. cbn. repeat split; try apply Hacc. lia.
  - destruct (load_wav_loadable lookup offsets f acc Hl Hok Hacc)
      as (acc1 & H1 & Hw1 & Hn1).
    destruct (IH acc1 Hw1) as (acc2 & H2 & Hw2 & Hn2).
    exists acc2. cbn [load_wavs]. rewrite H1. cbn [obind].
    split; [exact H2 |]. split; [exact Hw2 |].
    change (list_sum (map chunk_count (f :: files)))
      with (chunk_count f + list_sum (map chunk_count files))%nat.
    lia.
Qed.

Lemma py_index_in_range {A} (l : list A) (idx : Z) :
  (0 <= idx < Z.of_nat (length l))%Z ->
  exists x, py_index l idx = Ok x /\ nth_error l (Z.to_nat idx) = Some x.
Proof.
  intros H. unfold py_index.
  destruct (Z.ltb_spec idx 0); [lia |].
  destruct (Z.leb_spec 0 idx); [| lia].
  destruct (Z.ltb_spec idx (Z.of_nat (length l))); [| lia]. cbn [andb].
  destruct (nth_error l (Z.to_nat idx)) as [x |] eqn:E; [now exists x |].
  apply nth_error_None in E. lia.
Qed.

(** X23. When meta.txt parses and every wav file of the folder is listed there,
    is recorded at 16 kHz and has two channels of at least [CHUNK_SIZE]
    samples, [__init__] returns (its final assertion holds).  The dataset has one item per chunk of the first two
    channels of each wav file; every item is a chunk of exactly [CHUNK_SIZE]
    samples with a label index below 15 that [idx_to_label] knows.  Files
    whose name does not end in ".wav" are ignored. *)
Theorem scene_init_loads (meta_text : string) (listing : list wav_file)
    (offsets : string -> nat -> Z) (lookup : gmap string string) :
  parse_meta (split_on newline meta_text) ∅ = inr lookup ->
  Forall (loadable lookup offsets) (List.filter is_wav listing) ->
  exists self,
    __init__ meta_text listing offsets = inr self /\
    __len__ self = list_sum (map chunk_count (List.filter is_wav listing)) /\
    length (data_labels (items self)) = __len__ self /\
    forall idx, (0 <= idx < Z.of_nat (__len__ self))%Z ->
      exists input_arr label_idx label,
        __getitem__ self idx = inr (input_arr, label_idx) /\
        Z.of_nat (length input_arr) = CHUNK_SIZE /\
        (label_idx < 15)%nat /\
        idx_to_label (maps self) !! label_idx = Some label.
Proof.
  intros Hp Hf.
  assert (Hl : map_Forall (fun _ label => is_class_label label = true) lookup).
  { apply (parse_meta_labels _ _ _ Hp). apply map_Forall_empty. }
  destruct (load_wavs_loadable lookup offsets _ Hl Hf
              {| data := []; data_labels := [] |})
    as (acc & Hacc & (Hlen & Hd & Hlab) & Hn).
  { repeat split; constructor. }
  unfold __init__. rewrite Hp. cbn [obind].
  change (List.filter (fun f => endswith (wav_name f) ".wav") listing)
    with (List.filter is_wav listing).
  change (build_label_maps CLASS_LABELS) with scene_maps.
  rewrite Hacc. cbn [obind].
  change (negb (SUB_SAMPLE =? 0)%Z) with false. cbn match.
  rewrite Hlen, Nat.eqb_refl. cbn [negb].
  eexists. split; [reflexivity |]. unfold __len__. cbn [items maps].
  split; [exact Hn |]. split; [now symmetry |].
  intros idx Hidx.
  destruct (py_index_in_range (data acc) idx Hidx) as (chunk & Hc & Hcn).
  destruct (py_index_in_range (data_labels acc) idx ltac:(lia))
    as (i & Hi & Hin).
  unfold __getitem__. cbn [items]. rewrite Hc, Hi.
  apply nth_error_In in Hcn, Hin.
  apply (proj1 (List.Forall_forall _ _) Hd) in Hcn.
  apply (proj1 (List.Forall_forall _ _) Hlab) in Hin as [Hlt [label Hlabel]].
  now exists chunk, i, label.
Qed.

Lemma street_meta_parsed :
  parse_meta (split_on newline street_meta) ∅ = inr {[ "a1.wav" := "park" ]}.
Proof. vm_compute. reflexivity. Qed.

(** One stereo file of 2 x 70000 samples next to a text file: four items. *)
Lemma scene_init_loads_witness :
  exists self,
    __init__ street_meta
      [street; {| wav_name := "meta.txt"; wav_rate := 0; wav_data := Mono [] |}]
      (fun _ _ => 0%Z) = inr self /\
    __len__ self = 4%nat.
Proof.
  destruct (scene_init_loads street_meta
              [street; {| wav_name := "meta.txt"; wav_rate := 0;
                          wav_data := Mono [] |}]
              (fun _ _ => 0%Z) _ street_meta_parsed) as (self & Hs & Hn & _).
  - change (List.filter is_wav _) with [street].
    constructor; [| constructor].
    split; [now exists "park" |]. split; [reflexivity |].
    eexists _, _, _. split; [reflexivity |].
    unfold offset_draws, np_randint_draws.
    rewrite !repeat_length, !Z2Nat.id by lia.
    vm_compute. repeat split; discriminate.
  - exists self. split; [exact Hs |]. rewrite Hn.
    change (List.filter is_wav _) with [street].
    change (list_sum (map chunk_count [street])) with (chunk_count street + 0)%nat.
    unfold chunk_count. cbn [street wav_data].
    rewrite !repeat_length, !Z2Nat.id by lia. reflexivity.
Defined.

Lemma load_wavs_first_failure lookup offsets good f rest e :
  map_Forall (fun _ label => is_class_label label = true) lookup ->
  Forall (loadable lookup offsets) good ->
  (forall acc, load_wav lookup (label_to_idx scene_maps) acc f
                 (offsets (wav_name f)) = inl e) ->
  forall acc,
    well_loaded acc ->
    load_wavs lookup (label_to_idx scene_maps) acc (good ++ f :: rest) offsets
    = inl e.
Proof.
  intros Hl Hg Hf. induction Hg as [| g good Hok _ IH]; intros acc Hacc.
  - cbn [app load_wavs]. now rewrite Hf.
  - destruct (load_wav_loadable lookup offsets g acc Hl Hok Hacc)
      as (acc1 & H1 & Hw1 & _).
    cbn [app load_wavs]. rewrite H1. cbn [obind]. now apply IH.
Qed.

(** X24. The first wav file that cannot be loaded decides how [__init__] ends:
    when it has no line in meta.txt, [__init__] raises [KeyError] with its
    name (the lookup of the label index never fails); when it has a line and
    is a mono recording, [__init__] raises the assertion on stereo data. *)
Theorem scene_init_bad_file (meta_text : string) (listing : list wav_file)
    (offsets : string -> nat -> Z) (lookup : gmap string string)
    (good rest : list wav_file) (f : wav_file) :
  parse_meta (split_on newline meta_text) ∅ = inr lookup ->
  List.filter is_wav listing = good ++ f :: rest ->
  Forall (loadable lookup offsets) good ->
  (lookup !! wav_name f = None ->
   __init__ meta_text listing offsets = inl (KeyError (wav_name f))) /\
  (is_Some (lookup !! wav_name f) -> wav_rate f = 16000%Z ->
   (exists samples, wav_data f = Mono samples) ->
   __init__ meta_text listing offsets
     = inl (Builtin (AssertionError "Audio data should be stereo"))).
Proof.
  intros Hp Hfiles Hg.
  assert (Hl : map_Forall (fun _ label => is_class_label label = true) lookup).
  { apply (parse_meta_labels _ _ _ Hp). apply map_Forall_empty. }
  assert (Hempty : well_loaded {| data := []; data_labels := [] |})
    by (repeat split; constructor).
  split.
  - intros Hnone. unfold __init__. rewrite Hp. cbn [obind].
    change (List.filter (fun f => endswith (wav_name f) ".wav") listing)
      with (List.filter is_wav listing).
    change (build_label_maps CLASS_LABELS) with scene_maps.
    rewrite Hfiles.
    rewrite (load_wavs_first_failure lookup offsets good f rest
               (KeyError (wav_name f))); try assumption; [reflexivity |].
    intros acc. unfold load_wav, dict_get. now rewrite Hnone.
  - intros [label Hlabel] Hrate [ch Hch]. unfold __init__. rewrite Hp.
    cbn [obind].
    change (List.filter (fun f => endswith (wav_name f) ".wav") listing)
      with (List.filter is_wav listing).
    change (build_label_maps CLASS_LABELS) with scene_maps.
    rewrite Hfiles.
    rewrite (load_wavs_first_failure lookup offsets good f rest
               (Builtin (AssertionError "Audio data should be stereo")));
      try assumption; [reflexivity |].
    intros acc. unfold load_wav, dict_get. rewrite Hlabel. cbn [obind].
    destruct (class_label_index label (Hl _ _ Hlabel)) as (i & Hi & _).
    rewrite Hi. cbn [obind]. rewrite Hrate, Hch. reflexivity.
Qed.

Lemma scene_init_bad_file_witness :
  __init__ "" [one_channel] (fun _ _ => 0%Z) = inl (KeyError "b2.wav").
Proof.
  apply (proj1 (scene_init_bad_file "" [one_channel] (fun _ _ => 0%Z) ∅
                  [] [] one_channel eq_refl eq_refl ltac:(constructor))).
  reflexivity.
Defined.

End SceneLoadingProps.

